(** * Engagement Concordance Score: a shallow embedding of
      [engagement_concordance_score.py] and the properties of its
      aggregation engine.

    Modelling conventions.
    - Python [float] scores and weights are exact rationals ([Q]) in
      the report: control flow, statuses and thresholds are followed
      on the values the texts denote, and equalities between computed
      scores are stated with [==] ([Qeq]).  Where the rounding of IEEE
      doubles decides a property (how far the composite score can be
      from the scores it averages), [Module Double] repeats the
      accumulation with every operation rounded to binary64.
    - A Python [dict] is an association list in insertion order
      ([dict_set] overwrites in place and appends a new key at the end, as
      Python does); its keys are distinct.
    - Exceptions are values of [exn]; a fallible computation returns
      [exc A].  The body of the per-model [try] also mutates the result
      under construction, so it runs in the state-and-exception monad [M].
    - The file system and the scorer processes are a [world]: which paths
      exist and what [subprocess.run] gives for an argument vector.
    - Console narration ([print]) is not part of the model. *)

From Stdlib Require Import String Ascii List Bool ZArith QArith Qminmax.
From Stdlib Require Import Qround Qpower.
From Stdlib Require Import DecimalString Lia Lqa Permutation Sorted.
Import ListNotations.

Set Implicit Arguments.

(* ================================================================== *)
(** ** Exceptions *)

Inductive exn : Type :=
| KeyError (key : string)
| ValueError (msg : string)
| TypeError (msg : string)
| TimeoutExpired
| OSError (msg : string).

Inductive exc (A : Type) : Type :=
| Ok (a : A)
| Raise (e : exn).

Arguments Ok {A} a.
Arguments Raise {A} e.

Definition exc_bind {A B} (c : exc A) (k : A -> exc B) : exc B :=
  match c with
  | Ok a => k a
  | Raise e => Raise e
  end.

(** [try: c except Exception: h] for a computation without state. *)
Definition exc_catch {A} (c : exc A) (h : exn -> exc A) : exc A :=
  match c with
  | Ok a => Ok a
  | Raise e => h e
  end.

Declare Scope exc_scope.
Delimit Scope exc_scope with exc.
Notation "x <- c ;; k" := (exc_bind c (fun x => k))
  (at level 61, c at next level, right associativity) : exc_scope.

(* ================================================================== *)
(** ** Dictionaries with string keys, in insertion order *)

Section Dict.
Variable V : Type.

Definition dict := list (string * V).

Definition keys (d : dict) : list string := map fst d.
Definition values (d : dict) : list V := map snd d.

Fixpoint dict_get (d : dict) (k : string) : option V :=
  match d with
  | [] => None
  | (k', v) :: d' => if String.eqb k' k then Some v else dict_get d' k
  end.

(** [d[k]]: raises [KeyError] when the key is absent. *)
Definition getitem (d : dict) (k : string) : exc V :=
  match dict_get d k with
  | Some v => Ok v
  | None => Raise (KeyError k)
  end.

(** [d[k] = v]: an existing key keeps its position. *)
Fixpoint dict_set (d : dict) (k : string) (v : V) : dict :=
  match d with
  | [] => [(k, v)]
  | (k', v') :: d' =>
      if String.eqb k' k then (k', v) :: d' else (k', v') :: dict_set d' k v
  end.

Definition dict_mem (d : dict) (k : string) : bool :=
  match dict_get d k with Some _ => true | None => false end.
End Dict.

Arguments dict_get {V} d k.
Arguments getitem {V} d k.
Arguments dict_set {V} d k v.
Arguments dict_mem {V} d k.
Arguments keys {V} d.
Arguments values {V} d.

(* ================================================================== *)
(** ** Text: [str.strip] and [float(str)] *)

Module PyText.

Definition code (c : ascii) : nat := nat_of_ascii c.

(** [str.isspace] on the ASCII range. *)
Definition is_space (c : ascii) : bool :=
  let n := code c in
  ((9 <=? n) && (n <=? 13)) || ((28 <=? n) && (n <=? 32)).

Definition is_digit (c : ascii) : bool :=
  let n := code c in (48 <=? n) && (n <=? 57).

Definition digit_val (c : ascii) : Z := Z.of_nat (code c - 48).

Definition lower (c : ascii) : ascii :=
  let n := code c in
  if (65 <=? n) && (n <=? 90) then ascii_of_nat (n + 32) else c.

Fixpoint lstrip (s : list ascii) : list ascii :=
  match s with
  | c :: s' => if is_space c then lstrip s' else s
  | [] => []
  end.

Definition strip_chars (s : list ascii) : list ascii :=
  rev (lstrip (rev (lstrip s))).

Definition strip (s : string) : string :=
  string_of_list_ascii (strip_chars (list_ascii_of_string s)).

(** The values of a Python float. *)
Inductive pyfloat : Type :=
| Fin (q : Q)
| Inf
| NegInf
| NaN.

(** [digit (["_"] digit)*] after its first digit: the further digits
    and the unread rest. *)
Fixpoint more_digits (s : list ascii) : list Z * list ascii :=
  match s with
  | c :: s' =>
      if is_digit c then
        let (ds, r) := more_digits s' in (digit_val c :: ds, r)
      else if Ascii.eqb c "_" then
        match s' with
        | c2 :: s'' =>
            if is_digit c2 then
              let (ds, r) := more_digits s'' in (digit_val c2 :: ds, r)
            else ([], s)
        | [] => ([], s)
        end
      else ([], s)
  | [] => ([], [])
  end.

Definition digitpart (s : list ascii) : option (list Z * list ascii) :=
  match s with
  | c :: s' =>
      if is_digit c then
        let (ds, r) := more_digits s' in Some (digit_val c :: ds, r)
      else None
  | [] => None
  end.

Definition sign (s : list ascii) : bool * list ascii :=
  match s with
  | c :: s' =>
      if Ascii.eqb c "-" then (true, s')
      else if Ascii.eqb c "+" then (false, s')
      else (false, s)
  | [] => (false, [])
  end.

Definition digits_value (ds : list Z) : Z :=
  fold_left (fun acc d => 10 * acc + d)%Z ds 0%Z.

(** [("e" | "E") [sign] digitpart], or nothing; the rest must be empty. *)
Definition exponent (s : list ascii) : option Z :=
  match s with
  | [] => Some 0%Z
  | c :: s' =>
      if Ascii.eqb (lower c) "e" then
        let (neg, s1) := sign s' in
        match digitpart s1 with
        | Some (ds, []) =>
            Some (if neg then (- digits_value ds)%Z else digits_value ds)
        | _ => None
        end
      else None
  end.

(** [[digitpart] "." digitpart | digitpart ["."]], then the exponent. *)
Definition floatnumber (s : list ascii) : option Q :=
  let mk (ip fp : list Z) (e : Z) : Q :=
    inject_Z (digits_value (ip ++ fp))
    * Qpower 10 (e - Z.of_nat (length fp)) in
  match digitpart s with
  | Some (ip, r) =>
      match r with
      | c :: r' =>
          if Ascii.eqb c "." then
            match digitpart r' with
            | Some (fp, r'') => option_map (mk ip fp) (exponent r'')
            | None => option_map (mk ip []) (exponent r')
            end
          else option_map (mk ip []) (exponent r)
      | [] => Some (mk ip [] 0%Z)
      end
  | None =>
      match s with
      | c :: r' =>
          if Ascii.eqb c "." then
            match digitpart r' with
            | Some (fp, r'') => option_map (mk [] fp) (exponent r'')
            | None => None
            end
          else None
      | [] => None
      end
  end.

Definition absfloatvalue (neg : bool) (s : list ascii) : option pyfloat :=
  let word := string_of_list_ascii (map lower s) in
  if (String.eqb word "inf" || String.eqb word "infinity")%bool
  then Some (if neg then NegInf else Inf)
  else if String.eqb word "nan" then Some NaN
  else option_map (fun q => Fin (if neg then - q else q)) (floatnumber s).

(** [float(s)] for a string [s]. *)
Definition float (s : string) : exc pyfloat :=
  let (neg, r) := sign (strip_chars (list_ascii_of_string s)) in
  match absfloatvalue neg r with
  | Some f => Ok f
  | None => Raise (ValueError "could not convert string to float")
  end.

(** [0 <= q <= 1] on a finite value. *)
Definition in_unit_interval (q : Q) : bool :=
  Qle_bool 0 q && Qle_bool q 1.

(** [0 <= f <= 1] on a float, with the value it then has: an infinity
    or a NaN fails the comparison. *)
Definition unit_score (f : pyfloat) : option Q :=
  match f with
  | Fin q => if in_unit_interval q then Some q else None
  | _ => None
  end.

End PyText.

Import PyText.

Open Scope string_scope.
Open Scope list_scope.

(* ================================================================== *)
(** ** The world outside: file system and scorer processes *)

Record CompletedProcess : Type := {
  returncode : Z;
  stdout : string;
  stderr : string
}.

Record world : Type := {
  module_dir : string;                 (* os.path.dirname(__file__) *)
  sys_executable : string;
  path_exists : string -> bool;        (* os.path.exists *)
  (* subprocess.run(args, capture_output=True, text=True, timeout=t):
     the finished process, TimeoutExpired, or a spawn failure *)
  subprocess_run : list string -> nat -> exc CompletedProcess
}.

Definition ends_with_slash (a : string) : bool :=
  match rev (list_ascii_of_string a) with
  | c :: _ => Ascii.eqb c "/"
  | [] => false
  end.

(** [os.path.join] of two components (POSIX). *)
Definition path_join (a b : string) : string :=
  if String.prefix "/" b then b
  else if (String.eqb a "" || ends_with_slash a)%bool then (a ++ b)%string
  else (a ++ "/" ++ b)%string.

(* ================================================================== *)
(** ** The scorer object and its registry *)

Record model_info : Type := {
  loaded : bool;
  load_error : option string
}.

Record EngagementConcordanceScore : Type := {
  models : dict model_info;
  weights : dict Q;
  model_paths : dict string;
  model_files : dict string;
  analysis_methods : dict string;
  score_keys : dict string
}.

Definition set_models (self : EngagementConcordanceScore) (m : dict model_info)
  : EngagementConcordanceScore :=
  {| models := m;
     weights := weights self;
     model_paths := model_paths self;
     model_files := model_files self;
     analysis_methods := analysis_methods self;
     score_keys := score_keys self |}.

Definition load_model (w : world) (self : EngagementConcordanceScore)
    (item : string * string) : EngagementConcordanceScore :=
  let (model_name, model_path) := item in
  let full_path := path_join (module_dir w) model_path in
  if negb (path_exists w full_path) then
    set_models self
      (dict_set (models self) model_name
         {| loaded := false; load_error := Some "Directory not found" |})
  else
    let script_path := path_join full_path "simple_score.py" in
    if negb (path_exists w script_path) then
      set_models self
        (dict_set (models self) model_name
           {| loaded := false; load_error := Some "simple_score.py not found" |})
    else
      set_models self
        (dict_set (models self) model_name
           {| loaded := true; load_error := None |}).

Definition load_models (w : world) (self : EngagementConcordanceScore)
  : EngagementConcordanceScore :=
  fold_left (load_model w) (model_paths self) self.

Definition default_weights : dict Q :=
  [ ("hyperbole_falsehood", 0.6%Q);
    ("clickbait", 0.8%Q);
    ("engagement_mismatch", 1.0%Q);
    ("content_recycling", 0.9%Q);
    ("coordinated_network", 1.0%Q);
    ("emotive_manipulation", 0.6%Q);
    ("rapid_engagement_spike", 0.5%Q);
    ("generic_comment", 0.6%Q);
    ("authority_signal", 0.7%Q);
    ("reply_bait", 0.8%Q) ].

Definition default_model_paths : dict string :=
  [ ("hyperbole_falsehood", "../Hyperbole_Falsehood_detector");
    ("clickbait", "../Clickbait_Headline_Classifier");
    ("engagement_mismatch", "../Engagement_Mismatch_Detector");
    ("content_recycling", "../Content_Recycling_Detector");
    ("coordinated_network", "../Coordinated_Account_Network_Model");
    ("emotive_manipulation", "../Emotive_Manipulation_Detector");
    ("rapid_engagement_spike", "../Rapid_Engagement_Spike_Detector");
    ("generic_comment", "../Generic_Comment_Detector");
    ("authority_signal", "../Authority_Signal_Manipulation");
    ("reply_bait", "../Reply_Bait_Detector") ].

Definition default_model_files : dict string :=
  [ ("hyperbole_falsehood", "hyperbole_falsehood_detector.py");
    ("clickbait", "clickbait_classifier.py");
    ("engagement_mismatch", "engagement_mismatch_detector.py");
    ("content_recycling", "content_recycling_detector.py");
    ("coordinated_network", "coordinated_account_network_model.py");
    ("emotive_manipulation", "emotive_manipulation_detector.py");
    ("rapid_engagement_spike", "rapid_engagement_spike_detector.py");
    ("generic_comment", "generic_comment_detector.py");
    ("authority_signal", "authority_signal_detector.py");
    ("reply_bait", "reply_bait_detector.py") ].

Definition default_analysis_methods : dict string :=
  [ ("hyperbole_falsehood", "simple_score");
    ("clickbait", "simple_score");
    ("engagement_mismatch", "simple_score");
    ("content_recycling", "simple_score");
    ("coordinated_network", "simple_score");
    ("emotive_manipulation", "simple_score");
    ("rapid_engagement_spike", "simple_score");
    ("generic_comment", "simple_score");
    ("authority_signal", "simple_score");
    ("reply_bait", "simple_score") ].

Definition default_score_keys : dict string :=
  [ ("hyperbole_falsehood", "manipulation_score");
    ("clickbait", "clickbait_score");
    ("engagement_mismatch", "mismatch_score");
    ("content_recycling", "recycling_score");
    ("coordinated_network", "coordination_score");
    ("emotive_manipulation", "manipulation_score");
    ("rapid_engagement_spike", "spike_score");
    ("generic_comment", "generic_content_score");
    ("authority_signal", "authority_score");
    ("reply_bait", "reply_bait_score") ].

(** [EngagementConcordanceScore()] *)
Definition __init__ (w : world) : EngagementConcordanceScore :=
  load_models w
    {| models := [];
       weights := default_weights;
       model_paths := default_model_paths;
       model_files := default_model_files;
       analysis_methods := default_analysis_methods;
       score_keys := default_score_keys |}.

(* ================================================================== *)
(** ** The result under construction *)

Record ModelEntry : Type := {
  score : option Q;                    (* None is Python's None *)
  full_result : option (dict Q);
  status : string;
  error : option string
}.

Record BreakdownEntry : Type := {
  raw_score : Q;
  weight : Q;
  weighted_contribution : Q
}.

Record RiskFactor : Type := {
  rf_model : string;
  rf_score : Q;
  rf_weight : Q
}.

Record RiskAssessment : Type := {
  risk_level : string;
  risk_description : string;
  top_risk_factors : list RiskFactor;
  ra_composite_score : Q
}.

Record Summary : Type := {
  successful_models : nat;
  total_models : nat;
  models_analyzed : string;
  sm_composite_score : string;   (* f"{composite_score:.3f}" *)
  sm_risk_level : string;
  recommendations : list string;
  analysis_confidence : string
}.

Record Results : Type := {
  tweet_id : string;
  timestamp : string;
  model_results : dict ModelEntry;
  composite_score : Q;
  weighted_breakdown : dict BreakdownEntry;
  risk_assessment : option RiskAssessment;   (* None is the empty dict *)
  summary : option Summary
}.

(** The mutable state of one analysis: the result dictionary and the two
    local accumulators. *)
Record frame : Type := {
  results : Results;
  total_weight : Q;
  weighted_sum : Q
}.

Definition with_model_results (r : Results) (m : dict ModelEntry) : Results :=
  {| tweet_id := tweet_id r; timestamp := timestamp r;
     model_results := m;
     composite_score := composite_score r;
     weighted_breakdown := weighted_breakdown r;
     risk_assessment := risk_assessment r; summary := summary r |}.

Definition with_weighted_breakdown (r : Results) (b : dict BreakdownEntry)
  : Results :=
  {| tweet_id := tweet_id r; timestamp := timestamp r;
     model_results := model_results r;
     composite_score := composite_score r;
     weighted_breakdown := b;
     risk_assessment := risk_assessment r; summary := summary r |}.

Definition with_composite_score (r : Results) (c : Q) : Results :=
  {| tweet_id := tweet_id r; timestamp := timestamp r;
     model_results := model_results r;
     composite_score := c;
     weighted_breakdown := weighted_breakdown r;
     risk_assessment := risk_assessment r; summary := summary r |}.

Definition with_risk_assessment (r : Results) (a : RiskAssessment) : Results :=
  {| tweet_id := tweet_id r; timestamp := timestamp r;
     model_results := model_results r;
     composite_score := composite_score r;
     weighted_breakdown := weighted_breakdown r;
     risk_assessment := Some a; summary := summary r |}.

Definition with_summary (r : Results) (s : Summary) : Results :=
  {| tweet_id := tweet_id r; timestamp := timestamp r;
     model_results := model_results r;
     composite_score := composite_score r;
     weighted_breakdown := weighted_breakdown r;
     risk_assessment := risk_assessment r; summary := Some s |}.

(* ================================================================== *)
(** ** State and exceptions *)

Definition M (A : Type) : Type := frame -> frame * exc A.

Definition ret {A} (a : A) : M A := fun s => (s, Ok a).

Definition bind {A B} (c : M A) (k : A -> M B) : M B :=
  fun s =>
    match c s with
    | (s', Ok a) => k a s'
    | (s', Raise e) => (s', Raise e)
    end.

Definition lift {A} (c : exc A) : M A := fun s => (s, c).

Definition modify (f : frame -> frame) : M unit := fun s => (f s, Ok tt).

(** [try: c except Exception as e: h e]; what [c] wrote before it raised
    stays written. *)
Definition try_except {A} (c : M A) (h : exn -> M A) : M A :=
  fun s =>
    match c s with
    | (s', Ok a) => (s', Ok a)
    | (s', Raise e) => h e s'
    end.

Declare Scope M_scope.
Delimit Scope M_scope with M.
Notation "x <- c ;; k" := (bind c (fun x => k))
  (at level 61, c at next level, right associativity) : M_scope.
Notation "c ;; k" := (bind c (fun _ => k))
  (at level 61, right associativity) : M_scope.

(** [results['model_results'][model_name] = entry] *)
Definition set_model_result (model_name : string) (entry : ModelEntry) : M unit :=
  modify (fun s =>
    {| results := with_model_results (results s)
                    (dict_set (model_results (results s)) model_name entry);
       total_weight := total_weight s;
       weighted_sum := weighted_sum s |}).

(** [results['weighted_breakdown'][model_name] = entry] *)
Definition set_breakdown (model_name : string) (entry : BreakdownEntry) : M unit :=
  modify (fun s =>
    {| results := with_weighted_breakdown (results s)
                    (dict_set (weighted_breakdown (results s)) model_name entry);
       total_weight := total_weight s;
       weighted_sum := weighted_sum s |}).

(** [weighted_sum += x] *)
Definition add_weighted_sum (x : Q) : M unit :=
  modify (fun s =>
    {| results := results s;
       total_weight := total_weight s;
       weighted_sum := (weighted_sum s + x)%Q |}).

(** [total_weight += x] *)
Definition add_total_weight (x : Q) : M unit :=
  modify (fun s =>
    {| results := results s;
       total_weight := (total_weight s + x)%Q;
       weighted_sum := weighted_sum s |}).

(** [str(e)].  A [TimeoutExpired] never reaches the report (the inner
    handler of the scorer call catches it), so its text stands for
    Python's "Command '...' timed out after 30 seconds". *)
Definition exn_str (e : exn) : string :=
  match e with
  | KeyError k => ("'" ++ k ++ "'")%string
  | ValueError m => m
  | TypeError m => m
  | TimeoutExpired => "Command timed out after 30 seconds"
  | OSError m => m
  end.

Definition is_ValueError (e : exn) : bool :=
  match e with ValueError _ => true | _ => false end.

(* ================================================================== *)
(** ** Running one scorer *)

Section Analysis.
Variable self : EngagementConcordanceScore.
Variable w : world.

(** [{self.score_keys[model_name]: 0.0}], the result every failure
    branch of the scorer call assigns. *)
Definition zero_result (model_name : string) : exc (dict Q) :=
  (k <- getitem (score_keys self) model_name ;; Ok [(k, 0%Q)])%exc.

(** The inner [try] of the ['simple_score'] branch, with its two
    handlers ([except subprocess.TimeoutExpired] and
    [except Exception]), which assign the same result. *)
Definition run_simple_score (tweet_id model_name : string) : exc (dict Q) :=
  exc_catch
    (model_path <- getitem (model_paths self) model_name ;;
     let model_dir := path_join (module_dir w) model_path in
     let script_path := path_join model_dir "simple_score.py" in
     if path_exists w script_path then
       result <- subprocess_run w [sys_executable w; script_path; tweet_id] 30 ;;
       if (returncode result =? 0)%Z then
         match float (strip (stdout result)) with
         | Ok score =>
             match unit_score score with
             | Some q =>
                 k <- getitem (score_keys self) model_name ;; Ok [(k, q)]
             | None => zero_result model_name       (* invalid range *)
             end
         | Raise e =>
             if is_ValueError e then zero_result model_name  (* invalid format *)
             else Raise e
         end
       else zero_result model_name                  (* script error *)
     else zero_result model_name)%exc               (* script not found *)
    (fun e =>
       match e with
       | TimeoutExpired => zero_result model_name
       | _ => zero_result model_name
       end).

Definition success_entry (q : Q) (model_result : dict Q) : ModelEntry :=
  {| score := Some q; full_result := Some model_result;
     status := "success"; error := None |}.

Definition invalid_score_entry (model_result : dict Q) : ModelEntry :=
  {| score := None; full_result := Some model_result;
     status := "invalid_score"; error := None |}.

Definition score_not_found_entry (model_result : dict Q) : ModelEntry :=
  {| score := None; full_result := Some model_result;
     status := "score_not_found"; error := None |}.

Definition error_entry (e : exn) : ModelEntry :=
  {| score := None; full_result := None;
     status := "error"; error := Some (exn_str e) |}.

(** "Extract the score": what the loop records for a model result. *)
Definition extract_score (model_name : string) (model_result : dict Q) : M unit :=
  (score_key <- lift (getitem (score_keys self) model_name) ;;
   match dict_get model_result score_key with
   | Some q =>
       if in_unit_interval q then
         set_model_result model_name (success_entry q model_result) ;;
         weight <- lift (getitem (weights self) model_name) ;;
         let weighted_contribution := (q * weight)%Q in
         add_weighted_sum weighted_contribution ;;
         add_total_weight weight ;;
         set_breakdown model_name
           {| raw_score := q; weight := weight;
              weighted_contribution := weighted_contribution |}
       else
         set_model_result model_name (invalid_score_entry model_result)
   | None =>
       set_model_result model_name (score_not_found_entry model_result)
   end)%M.

(** The outer [try] of the loop body for one loaded model. *)
Definition run_model (tweet_id model_name : string) : M unit :=
  try_except
    (method_name <- lift (getitem (analysis_methods self) model_name) ;;
     model_result <-
       lift (if String.eqb method_name "simple_score"
             then run_simple_score tweet_id model_name
             else zero_result model_name) ;;
     extract_score model_name model_result)%M
    (fun e => set_model_result model_name (error_entry e)).

(** [for model_name, model_info in self.models.items(): ...] *)
Fixpoint run_models (tweet_id : string) (items : dict model_info) : M unit :=
  match items with
  | [] => ret tt
  | (model_name, info) :: rest =>
      ((if negb (loaded info) then ret tt      (* continue *)
        else run_model tweet_id model_name) ;;
       run_models tweet_id rest)%M
  end.

End Analysis.

(* ================================================================== *)
(** ** Risk assessment *)

(** [list.sort(key=key, reverse=True)]: a stable sort by decreasing key.
    An element is put in front of the first element of the sorted tail
    whose key does not exceed its own, so equal keys keep their order. *)
Section SortReverse.
Variable A : Type.
Variable key : A -> Q.

Fixpoint insert_desc (x : A) (l : list A) : list A :=
  match l with
  | [] => [x]
  | y :: l' =>
      if Qle_bool (key y) (key x) then x :: l
      else y :: insert_desc x l'
  end.

Fixpoint sort_reverse (l : list A) : list A :=
  match l with
  | [] => []
  | x :: l' => insert_desc x (sort_reverse l')
  end.
End SortReverse.

(** [x['score'] * x['weight']] *)
Definition weighted_impact (x : RiskFactor) : Q := (rf_score x * rf_weight x)%Q.

(** The [if]/[elif] chain on the composite score: level and description. *)
Definition risk_level_of (composite_score : Q) : string * string :=
  if Qle_bool 0.8 composite_score then
    ("CRITICAL",
     "Very high manipulation risk detected across multiple dimensions")
  else if Qle_bool 0.6 composite_score then
    ("HIGH", "High manipulation risk with concerning patterns")
  else if Qle_bool 0.4 composite_score then
    ("MODERATE", "Moderate risk with some concerning indicators")
  else if Qle_bool 0.2 composite_score then
    ("LOW", "Low risk with minimal concerning indicators")
  else
    ("MINIMAL", "Minimal risk, appears to be genuine engagement").

(** [a > b] on floats. *)
Definition Qgt_bool (a b : Q) : bool := negb (Qle_bool a b).

Section Reporting.
Variable self : EngagementConcordanceScore.

(** The loop that gathers the risk factors.  Comparing a [None] score
    with [0.5] is a [TypeError]; a missing weight is a [KeyError]. *)
Fixpoint risk_factors_of (items : dict ModelEntry) : exc (list RiskFactor) :=
  match items with
  | [] => Ok []
  | (model_name, model_result) :: rest =>
      (hit <- (if String.eqb (status model_result) "success" then
                 match score model_result with
                 | Some q => Ok (Qgt_bool q 0.5)
                 | None =>
                     Raise (TypeError "'>' not supported between NoneType and float")
                 end
               else Ok false) ;;
       if (hit : bool) then
         q <- match score model_result with
              | Some q => Ok q
              | None => Raise (KeyError "score")
              end ;;
         wt <- getitem (weights self) model_name ;;
         more <- risk_factors_of rest ;;
         Ok ({| rf_model := model_name; rf_score := q; rf_weight := wt |} :: more)
       else risk_factors_of rest)%exc
  end.

Definition _assess_overall_risk (results : Results) : exc RiskAssessment :=
  let composite_score := composite_score results in
  let (risk_level, risk_description) := risk_level_of composite_score in
  (risk_factors <- risk_factors_of (model_results results) ;;
   let risk_factors := sort_reverse weighted_impact risk_factors in
   Ok {| risk_level := risk_level;
         risk_description := risk_description;
         top_risk_factors := firstn 3 risk_factors;
         ra_composite_score := composite_score |})%exc.

Definition is_success (m : ModelEntry) : bool := String.eqb (status m) "success".

Definition nat_str (n : nat) : string := NilZero.string_of_uint (Nat.to_uint n).

(** The nearest integer, a tie going to the even one: how [format] and
    the float operations round. *)
Definition round_half_even (x : Q) : Z :=
  let f := Qfloor x in
  match Qcompare (x - inject_Z f) (1 # 2)%Q with
  | Lt => f
  | Gt => (f + 1)%Z
  | Eq => if Z.even f then f else (f + 1)%Z
  end.

(** A number below 1000 in three digits. *)
Definition three_digits (n : nat) : string :=
  (nat_str (n / 100) ++ nat_str (n / 10 mod 10) ++ nat_str (n mod 10))%string.

(** [f"{x:.3f}"] for a finite [x]: the nearest multiple of 0.001, a tie
    going to the even one, with three decimals and the sign of [x]. *)
Definition format_3f (x : Q) : string :=
  let thousandths := Z.abs (round_half_even (x * 1000)%Q) in
  ((if Qle_bool 0 x then "" else "-")
   ++ nat_str (Z.to_nat (thousandths / 1000)) ++ "."
   ++ three_digits (Z.to_nat (thousandths mod 1000)))%string.

Definition recommendations_of (composite_score : Q) : list string :=
  let recommendations : list string := [] in
  let recommendations :=
    if Qle_bool 0.6 composite_score then
      (recommendations ++ ["Consider flagging for manual review"])
        ++ ["Monitor for similar patterns"]
    else recommendations in
  let recommendations :=
    if Qle_bool 0.4 composite_score then
      recommendations ++ ["Review engagement patterns"]
    else recommendations in
  let recommendations :=
    if Qgt_bool 0.2 composite_score then
      recommendations ++ ["Engagement appears genuine"]
    else recommendations in
  recommendations.

Definition confidence_of (successful_models : nat) : string :=
  if (7 <=? successful_models)%nat then "high"
  else if (4 <=? successful_models)%nat then "medium"
  else "low".

Definition _generate_summary (results : Results) : exc Summary :=
  let composite_score := composite_score results in
  (risk_assessment <-
     match risk_assessment results with
     | Some a => Ok a
     | None => Raise (KeyError "risk_level")
     end ;;
   let successful_models :=
     length (filter is_success (values (model_results results))) in
   let total_models := length (models self) in
   Ok {| successful_models := successful_models;
         total_models := total_models;
         models_analyzed :=
           (nat_str successful_models ++ "/" ++ nat_str total_models)%string;
         sm_composite_score := format_3f composite_score;
         sm_risk_level := risk_level risk_assessment;
         recommendations := recommendations_of composite_score;
         analysis_confidence := confidence_of successful_models |})%exc.

(* ---------------------------------------------------------------- *)
(** ** The analysis *)

Variable w : world.

Definition new_results (tweet_id now : string) : Results :=
  {| tweet_id := tweet_id;
     timestamp := now;
     model_results := [];
     composite_score := 0;
     weighted_breakdown := [];
     risk_assessment := None;
     summary := None |}.

Definition new_frame (tweet_id now : string) : frame :=
  {| results := new_results tweet_id now;
     total_weight := 0;
     weighted_sum := 0 |}.

(** "Calculate composite score" *)
Definition set_composite_score : M unit :=
  modify (fun s =>
    {| results :=
         with_composite_score (results s)
           (if Qgt_bool (total_weight s) 0
            then (weighted_sum s / total_weight s)%Q
            else 0);
       total_weight := total_weight s;
       weighted_sum := weighted_sum s |}).

Definition update_results (f : Results -> exc Results) : M unit :=
  fun s =>
    match f (results s) with
    | Ok r => ({| results := r; total_weight := total_weight s;
                  weighted_sum := weighted_sum s |}, Ok tt)
    | Raise e => (s, Raise e)
    end.

Definition analyze_frame (tweet_id now : string) : frame * exc unit :=
  (run_models self w tweet_id (models self) ;;
   set_composite_score ;;
   update_results (fun r =>
     (a <- _assess_overall_risk r ;; Ok (with_risk_assessment r a))%exc) ;;
   update_results (fun r =>
     (s <- _generate_summary r ;; Ok (with_summary r s))%exc))%M
    (new_frame tweet_id now).

(** [analyze_tweet_comprehensive(tweet_id)], called at time [now]. *)
Definition analyze_tweet_comprehensive (tweet_id now : string) : exc Results :=
  match analyze_frame tweet_id now with
  | (s, Ok _) => Ok (results s)
  | (_, Raise e) => Raise e
  end.

End Reporting.

(* ================================================================== *)
(** ** The loop in closed form

    The definitions below restate one iteration and the whole loop as
    pure functions of the registry and the world; [run_model_outcome] and
    [run_models_outcomes] prove that the monadic code above computes
    them. *)

(** The two ways an iteration ends: a scored model (entry, accumulators
    and breakdown updated) or a failure entry only. *)
Inductive outcome : Type :=
| Scored (model_result : dict Q) (q wt : Q)
| Failed (entry : ModelEntry).

Definition entry_of (o : outcome) : ModelEntry :=
  match o with
  | Scored mr q _ => success_entry q mr
  | Failed e => e
  end.

Definition breakdown_of (o : outcome) : option BreakdownEntry :=
  match o with
  | Scored _ q wt =>
      Some {| raw_score := q; weight := wt; weighted_contribution := (q * wt)%Q |}
  | Failed _ => None
  end.

Definition apply_outcome (model_name : string) (o : outcome) (s : frame) : frame :=
  match o with
  | Scored mr q wt =>
      {| results :=
           with_weighted_breakdown
             (with_model_results (results s)
                (dict_set (model_results (results s)) model_name (success_entry q mr)))
             (dict_set (weighted_breakdown (results s)) model_name
                {| raw_score := q; weight := wt; weighted_contribution := (q * wt)%Q |});
         total_weight := (total_weight s + wt)%Q;
         weighted_sum := (weighted_sum s + q * wt)%Q |}
  | Failed e =>
      {| results :=
           with_model_results (results s)
             (dict_set (model_results (results s)) model_name e);
         total_weight := total_weight s;
         weighted_sum := weighted_sum s |}
  end.

Section Outcomes.
Variable self : EngagementConcordanceScore.
Variable w : world.
Variable tid : string.

(** The model result the scorer call leaves in [model_result]. *)
Definition model_result_of (model_name : string) : exc (dict Q) :=
  (method_name <- getitem (analysis_methods self) model_name ;;
   if String.eqb method_name "simple_score"
   then run_simple_score self w tid model_name
   else zero_result self model_name)%exc.

Definition outcome_of (model_name : string) : outcome :=
  match model_result_of model_name with
  | Raise e => Failed (error_entry e)
  | Ok mr =>
      match getitem (score_keys self) model_name with
      | Raise e => Failed (error_entry e)
      | Ok k =>
          match dict_get mr k with
          | None => Failed (score_not_found_entry mr)
          | Some q =>
              if in_unit_interval q then
                match getitem (weights self) model_name with
                | Raise e => Failed (error_entry e)
                | Ok wt => Scored mr q wt
                end
              else Failed (invalid_score_entry mr)
          end
      end
  end.

(** The loop, as the outcomes of the loaded models applied in order. *)
Fixpoint apply_outcomes (names : list string) (s : frame) : frame :=
  match names with
  | [] => s
  | n :: ns => apply_outcomes ns (apply_outcome n (outcome_of n) s)
  end.

Definition is_loaded (item : string * model_info) : bool := loaded (snd item).

Definition loaded_names (items : dict model_info) : list string :=
  keys (filter is_loaded items).

Definition named_outcome (n : string) : string * outcome :=
  (n, outcome_of n).

Definition named_entry (n : string) : string * ModelEntry :=
  (n, entry_of (outcome_of n)).

End Outcomes.

Definition Qsum (l : list Q) : Q := fold_right Qplus 0%Q l.


Definition outcome_weight (o : outcome) : Q :=
  match o with Scored _ _ wt => wt | Failed _ => 0%Q end.

Definition outcome_contribution (o : outcome) : Q :=
  match o with Scored _ q wt => (q * wt)%Q | Failed _ => 0%Q end.

(** Score and weight of a scored model. *)
Definition scored_pair (o : outcome) : list (Q * Q) :=
  match o with
  | Scored _ q wt => [(q, wt)]
  | Failed _ => []
  end.

Definition breakdown_items (named : string * outcome) : dict BreakdownEntry :=
  match breakdown_of (snd named) with
  | Some b => [(fst named, b)]
  | None => []
  end.

Section Ranking.
Variable self : EngagementConcordanceScore.

(** An entry the ranking can read: a successful entry has a numeric
    score and its model has a weight. *)
Definition readable (item : string * ModelEntry) : Prop :=
  status (snd item) = "success" ->
  exists q wt, score (snd item) = Some q
               /\ dict_get (weights self) (fst item) = Some wt.

(** The selection test of the ranking. *)
Definition selected (m : ModelEntry) : bool :=
  is_success m
  && match score m with Some q => Qgt_bool q 0.5 | None => false end.

Definition factor_of (item : string * ModelEntry) (f : RiskFactor) : Prop :=
  rf_model f = fst item
  /\ score (snd item) = Some (rf_score f)
  /\ dict_get (weights self) (fst item) = Some (rf_weight f).

End Ranking.

(* ================================================================== *)
(** ** Vocabulary of the properties *)

(** The path [analyze_tweet_comprehensive] runs for a model directory. *)
Definition script_path_of (w : world) (model_path : string) : string :=
  path_join (path_join (module_dir w) model_path) "simple_score.py".

(** The scorer of [model_name] is called through ['simple_score'], its
    script exists and the call gives [res]. *)
Definition scorer_call (self : EngagementConcordanceScore) (w : world)
    (tid model_name : string) (res : exc CompletedProcess) : Prop :=
  exists model_path,
    dict_get (analysis_methods self) model_name = Some "simple_score"
    /\ dict_get (model_paths self) model_name = Some model_path
    /\ path_exists w (script_path_of w model_path) = true
    /\ subprocess_run w
         [sys_executable w; script_path_of w model_path; tid] 30 = res.

(** The scorer exits with status zero and its trimmed output parses to
    the finite float [q]. *)
Definition emits (self : EngagementConcordanceScore) (w : world)
    (tid model_name : string) (q : Q) : Prop :=
  exists cp,
    scorer_call self w tid model_name (Ok cp)
    /\ returncode cp = 0%Z
    /\ float (strip (stdout cp)) = Ok (Fin q).

(** Model [model_name] succeeds with score [q] at weight [wt]: its scorer
    emits a float of the unit interval equal to [q], and the registry
    has its score key and a weight equal to [wt]. *)
Definition succeeds_with (self : EngagementConcordanceScore) (w : world)
    (tid model_name : string) (q wt : Q) : Prop :=
  exists q' wt' k,
    emits self w tid model_name q'
    /\ (q' == q)%Q /\ (0 <= q' <= 1)%Q
    /\ dict_get (score_keys self) model_name = Some k
    /\ dict_get (weights self) model_name = Some wt'
    /\ (wt' == wt)%Q.

(** The scores of the entries with status ['success'], in report order. *)
Definition successful_scores (entries : dict ModelEntry) : list Q :=
  flat_map (fun it : string * ModelEntry =>
              if is_success (snd it) then
                match score (snd it) with Some q => [q] | None => [] end
              else [])
           entries.

Fixpoint Qlist_min (l : list Q) : Q :=
  match l with
  | [] => 0%Q
  | [x] => x
  | x :: l' => Qmin x (Qlist_min l')
  end.

Fixpoint Qlist_max (l : list Q) : Q :=
  match l with
  | [] => 0%Q
  | [x] => x
  | x :: l' => Qmax x (Qlist_max l')
  end.



(* ================================================================== *)
(** ** Concrete scenarios *)

(** The object as [__init__] builds it before [load_models] runs. *)
Definition registry : EngagementConcordanceScore :=
  {| models := [];
     weights := default_weights;
     model_paths := default_model_paths;
     model_files := default_model_files;
     analysis_methods := default_analysis_methods;
     score_keys := default_score_keys |}.

(** The object [__init__] returns when every model directory and script
    is present: all ten models are marked loaded. *)
Definition all_loaded : EngagementConcordanceScore :=
  set_models registry
    (map (fun kv : string * string =>
            (fst kv, {| loaded := true; load_error := None |}))
         default_model_paths).

(** A world given by the paths that exist and by what each script does. *)
Definition scenario_world (present : string -> bool)
    (run : string -> exc CompletedProcess) : world :=
  {| module_dir := ".";
     sys_executable := "python3";
     path_exists := present;
     subprocess_run := fun args _ =>
       match args with
       | [_; script; _] => run script
       | _ => Raise (OSError "bad argument vector")
       end |}.

Definition prints (out : string) : exc CompletedProcess :=
  Ok {| returncode := 0; stdout := out; stderr := "" |}.

Definition exits (code : Z) (err : string) : exc CompletedProcess :=
  Ok {| returncode := code; stdout := ""; stderr := err |}.

Definition clickbait_script : string :=
  "./../Clickbait_Headline_Classifier/simple_score.py".

(** Every scorer is installed; clickbait prints 1.5, the others 0.9. *)
Definition world_out_of_range : world :=
  scenario_world (fun _ => true)
    (fun script =>
       if String.eqb script clickbait_script then prints "1.5"
       else prints "0.9").

(** Every scorer is installed; clickbait times out, the others print 0.9. *)
Definition world_timeout : world :=
  scenario_world (fun _ => true)
    (fun script =>
       if String.eqb script clickbait_script then Raise TimeoutExpired
       else prints "0.9").

(** Every scorer is installed and exits with status 1. *)
Definition world_all_fail : world :=
  scenario_world (fun _ => true) (fun _ => exits 1 "Traceback").

(** The clickbait directory is missing; the other scorers print 0.5. *)
Definition world_clickbait_missing : world :=
  scenario_world
    (fun p => negb (String.eqb p "./../Clickbait_Headline_Classifier"))
    (fun _ => prints "0.5").

(** Only three scorers are installed: coordinated_network (weight 1.0)
    prints 0.8, emotive_manipulation (0.6) prints 0.6 and generic_comment
    (0.6) prints 0.4. *)
Definition world_three_models : world :=
  scenario_world
    (fun p =>
       existsb (String.eqb p)
         ["./../Coordinated_Account_Network_Model";
          "./../Coordinated_Account_Network_Model/simple_score.py";
          "./../Emotive_Manipulation_Detector";
          "./../Emotive_Manipulation_Detector/simple_score.py";
          "./../Generic_Comment_Detector";
          "./../Generic_Comment_Detector/simple_score.py"])
    (fun script =>
       if String.eqb script
            "./../Coordinated_Account_Network_Model/simple_score.py"
       then prints "0.8"
       else if String.eqb script
                 "./../Emotive_Manipulation_Detector/simple_score.py"
       then prints "0.6"
       else prints "0.4").

Definition scored (q : Q) : ModelEntry :=
  {| score := Some q; full_result := None; status := "success"; error := None |}.

(** A report in which clickbait (0.9 at weight 0.8) and content_recycling
    (0.8 at weight 0.9) tie at 0.72, ahead of coordinated_network (0.7)
    and engagement_mismatch (0.6). *)
Definition report_with_tie : Results :=
  {| tweet_id := "1";
     timestamp := "t";
     model_results :=
       [ ("hyperbole_falsehood", scored 0.4);
         ("clickbait", scored 0.9);
         ("engagement_mismatch", scored 0.6);
         ("content_recycling", scored 0.8);
         ("coordinated_network", scored 0.7);
         ("reply_bait", error_entry (OSError "spawn failed")) ];
     composite_score := 0.7;
     weighted_breakdown := [];
     risk_assessment := None;
     summary := None |}.

(* ================================================================== *)
(** ** [load_models] in closed form *)

(** What [load_models] records for a model directory: loaded when the
    directory and its [simple_score.py] exist, otherwise the reason. *)
Definition load_info (w : world) (model_path : string) : model_info :=
  let full_path := path_join (module_dir w) model_path in
  if negb (path_exists w full_path) then
    {| loaded := false; load_error := Some "Directory not found" |}
  else if negb (path_exists w (path_join full_path "simple_score.py")) then
    {| loaded := false; load_error := Some "simple_score.py not found" |}
  else {| loaded := true; load_error := None |}.

Definition set_loaded (w : world) (d : dict model_info) (item : string * string)
  : dict model_info :=
  dict_set d (fst item) (load_info w (snd item)).

(* ================================================================== *)
(** ** Ways a scorer call fails other than by range or timeout *)

(** The failure branches of the scorer call in
    [analyze_tweet_comprehensive]: a method other than ['simple_score'],
    no path registered, the script gone, a non-zero exit, output that
    [float] rejects, an infinity or a NaN, and a call that raises. *)
Inductive scorer_failure (self : EngagementConcordanceScore) (w : world)
    (tid model_name : string) : Prop :=
| unknown_method (m : string) :
    dict_get (analysis_methods self) model_name = Some m ->
    m <> "simple_score" ->
    scorer_failure self w tid model_name
| no_model_path :
    dict_get (analysis_methods self) model_name = Some "simple_score" ->
    dict_get (model_paths self) model_name = None ->
    scorer_failure self w tid model_name
| script_missing (model_path : string) :
    dict_get (analysis_methods self) model_name = Some "simple_score" ->
    dict_get (model_paths self) model_name = Some model_path ->
    path_exists w (script_path_of w model_path) = false ->
    scorer_failure self w tid model_name
| nonzero_exit (cp : CompletedProcess) :
    scorer_call self w tid model_name (Ok cp) ->
    returncode cp <> 0%Z ->
    scorer_failure self w tid model_name
| unparsable_output (cp : CompletedProcess) (e : exn) :
    scorer_call self w tid model_name (Ok cp) ->
    returncode cp = 0%Z ->
    float (strip (stdout cp)) = Raise e ->
    scorer_failure self w tid model_name
| not_finite (cp : CompletedProcess) (f : pyfloat) :
    scorer_call self w tid model_name (Ok cp) ->
    returncode cp = 0%Z ->
    float (strip (stdout cp)) = Ok f ->
    (forall q, f <> Fin q) ->
    scorer_failure self w tid model_name
| call_raises (e : exn) :
    scorer_call self w tid model_name (Raise e) ->
    scorer_failure self w tid model_name.

(** The three registry rows the loop body reads for a model. *)
Definition registered (self : EngagementConcordanceScore) (model_name : string)
  : Prop :=
  dict_get (analysis_methods self) model_name <> None
  /\ dict_get (score_keys self) model_name <> None
  /\ dict_get (weights self) model_name <> None.

(** The order of the risk levels. *)
Definition level_rank (level : string) : nat :=
  if String.eqb level "CRITICAL" then 4
  else if String.eqb level "HIGH" then 3
  else if String.eqb level "MODERATE" then 2
  else if String.eqb level "LOW" then 1
  else 0.

(** An entry [_assess_overall_risk] can process: a successful entry has a
    numeric score and, when that score is above 0.5, a weight. *)
Definition rankable (self : EngagementConcordanceScore)
    (item : string * ModelEntry) : Prop :=
  status (snd item) = "success" ->
  exists q, score (snd item) = Some q
            /\ ((0.5 < q)%Q ->
                exists wt, dict_get (weights self) (fst item) = Some wt).

(* ================================================================== *)
(** ** [batch_analyze_tweets.py]: [analyze_tweets_batch] *)

Module Batch.

(** A value in a row of the result table. *)
Inductive cell : Type :=
| CStr (s : string)
| CNum (q : Q)
| CInt (z : Z)
| CNone.

(** A row is a Python dict from column name to value. *)
Definition row : Type := dict cell.

(** [f'{model_name}_score'] *)
Definition score_column (model_name : string) : string :=
  (model_name ++ "_score")%string.

(** The last six characters of a column name, last first: those of a
    score column spell "_score". *)
Definition tail6 (s : string) : list ascii :=
  firstn 6 (rev (list_ascii_of_string s)).

(** "Add individual model scores" *)
Definition add_model_score (result_row : row) (item : string * ModelEntry) : row :=
  let (model_name, model_result) := item in
  if String.eqb (status model_result) "success" then
    dict_set result_row (score_column model_name)
      (match score model_result with Some q => CNum q | None => CNone end)
  else
    dict_set result_row (score_column model_name) (CNum 0).

Definition add_model_scores (result_row : row) (entries : dict ModelEntry) : row :=
  fold_left add_model_score entries result_row.

(** The value a model's score column gets: the score of a successful
    entry, 0.0 for any other. *)
Definition score_cell (model_result : ModelEntry) : cell :=
  if String.eqb (status model_result) "success" then
    match score model_result with Some q => CNum q | None => CNone end
  else CNum 0.

(** "Extract key information" *)
Definition result_row_of (stamp tweet_id : string) (analysis_result : Results)
  : row :=
  let result_row : row :=
    [ ("tweet_id", CStr tweet_id);
      ("composite_score", CNum (composite_score analysis_result));
      ("risk_level",
       match risk_assessment analysis_result with
       | Some a => CStr (risk_level a)
       | None => CStr "UNKNOWN"
       end);
      ("risk_description",
       match risk_assessment analysis_result with
       | Some a => CStr (risk_description a)
       | None => CStr ""
       end);
      ("models_analyzed",
       match summary analysis_result with
       | Some s => CStr (models_analyzed s)
       | None => CInt 0
       end);
      ("analysis_confidence",
       match summary analysis_result with
       | Some s => CStr (analysis_confidence s)
       | None => CStr "UNKNOWN"
       end);
      ("timestamp", CStr stamp) ] in
  add_model_scores result_row (model_results analysis_result).

(** "Add error row" *)
Definition error_row (stamp tweet_id : string) (e : exn) : row :=
  [ ("tweet_id", CStr tweet_id);
    ("composite_score", CNum 0);
    ("risk_level", CStr "ERROR");
    ("risk_description", CStr ("Analysis failed: " ++ exn_str e)%string);
    ("models_analyzed", CInt 0);
    ("analysis_confidence", CStr "ERROR");
    ("timestamp", CStr stamp) ].

Section AnalyzeTweetsBatch.
Variable ecs : EngagementConcordanceScore.
Variable w : world.
(** The clock: the ISO time the analysis of the [i]-th tweet reads, and
    the stamp put on its row ([i] counts from 1, as [enumerate] does). *)
Variable now_iso : nat -> string.
Variable now_stamp : nat -> string.

(** The body of the loop for the [i]-th tweet. *)
Definition analyze_one (i : nat) (tweet_id : string) : row :=
  match analyze_tweet_comprehensive ecs w tweet_id (now_iso i) with
  | Ok analysis_result => result_row_of (now_stamp i) tweet_id analysis_result
  | Raise e => error_row (now_stamp i) tweet_id e
  end.

Fixpoint analyze_from (i : nat) (tweet_ids : list string) : list row :=
  match tweet_ids with
  | [] => []
  | tweet_id :: rest => analyze_one i tweet_id :: analyze_from (S i) rest
  end.

(** [analyze_tweets_batch(tweet_ids, ecs)]: the rows of the data frame. *)
Definition analyze_tweets_batch (tweet_ids : list string) : list row :=
  analyze_from 1 tweet_ids.
End AnalyzeTweetsBatch.

End Batch.

(* ================================================================== *)
(** ** [demo.py] *)

Module Demo.

(** How a demo function ends: it returns, it lets an exception of the
    analysis vocabulary escape, or it divides by zero. *)
Inductive ending (A : Type) : Type :=
| Done (a : A)
| Raised (e : exn)
| ZeroDivisionError.

Arguments Done {A} a.
Arguments Raised {A} e.
Arguments ZeroDivisionError {A}.

(** [demo_system_initialization()]: the object and whether at least one
    model is loaded. *)
Definition demo_system_initialization (w : world)
  : option EngagementConcordanceScore * bool :=
  let ecs := __init__ w in
  let loaded_models := loaded_names (models ecs) in
  (Some ecs, (0 <? length loaded_models)%nat).

(** The three bullets printed beside a model: red, yellow, green. *)
Inductive icon : Type := Red | Yellow | Green.

Definition risk_icon (score : Q) : icon :=
  if Qgt_bool score 0.6 then Red
  else if Qgt_bool score 0.4 then Yellow
  else Green.

(** "Risk interpretation" of one model score. *)
Definition risk_desc (score : Q) : string :=
  if Qgt_bool score 0.8 then "CRITICAL"
  else if Qgt_bool score 0.6 then "HIGH"
  else if Qgt_bool score 0.4 then "MODERATE"
  else if Qgt_bool score 0.2 then "LOW"
  else "MINIMAL".

(** One entry of the "MODEL BREAKDOWN". *)
Record model_line : Type := {
  ml_model : string;
  ml_score : Q;
  ml_weight : Q;
  ml_contribution : Q;
  ml_icon : icon;
  ml_risk : string
}.

(** One entry of the "WEIGHTED IMPACT ANALYSIS". *)
Record impact_line : Type := {
  il_model : string;
  il_contribution : Q;
  il_percentage : Q
}.

Section Breakdown.
Variable ecs : EngagementConcordanceScore.

(** The first loop over the model results.  A missing weight is a
    [KeyError]; multiplying a [None] score is a [TypeError]. *)
Fixpoint model_lines (items : dict ModelEntry) : exc (list model_line) :=
  match items with
  | [] => Ok []
  | (model_name, model_result) :: rest =>
      if String.eqb (status model_result) "success" then
        (wt <- getitem (weights ecs) model_name ;;
         q <- match score model_result with
              | Some q => Ok q
              | None =>
                  Raise (TypeError "unsupported operand type(s) for *: NoneType and float")
              end ;;
         more <- model_lines rest ;;
         Ok ({| ml_model := model_name; ml_score := q; ml_weight := wt;
                ml_contribution := (q * wt)%Q;
                ml_icon := risk_icon q; ml_risk := risk_desc q |} :: more))%exc
      else model_lines rest
  end.

(** [(model_name, contribution, weight)] of the second loop. *)
Definition contribution_of (l : model_line) : string * Q * Q :=
  (ml_model l, ml_contribution l, ml_weight l).

(** The last loop: each contribution as a percentage of their sum. *)
Definition impact_lines (weighted_contributions : list (string * Q * Q))
  : ending (list impact_line) :=
  match weighted_contributions with
  | [] => Done []
  | _ :: _ =>
      let total := Qsum (map (fun x => snd (fst x)) weighted_contributions) in
      if Qeq_bool total 0 then ZeroDivisionError
      else
        Done (map (fun x : string * Q * Q =>
                     {| il_model := fst (fst x);
                        il_contribution := snd (fst x);
                        il_percentage := (snd (fst x) / total * 100)%Q |})
                  weighted_contributions)
  end.

(** [demo_risk_assessment_breakdown(ecs, results)]: the lines it prints. *)
Definition demo_risk_assessment_breakdown (results : Results)
  : ending (list model_line * list impact_line) :=
  match risk_assessment results with
  | None => Raised (KeyError "risk_level")
  | Some risk =>
      match model_lines (model_results results) with
      | Raise e => Raised e
      | Ok lines =>
          let weighted_contributions :=
            sort_reverse (fun x : string * Q * Q => snd (fst x))
              (map contribution_of lines) in
          match impact_lines weighted_contributions with
          | Done impacts => Done (lines, impacts)
          | Raised e => Raised e
          | ZeroDivisionError => ZeroDivisionError
          end
      end
  end.
End Breakdown.

End Demo.

(* ================================================================== *)
(** ** The composite score in double precision

    The interpreter holds every score and weight as an IEEE 754 binary64
    number and rounds each product, each sum and the final quotient to
    the nearest such number, ties to even.  This module follows the
    accumulation of the analysis loop with that rounding in place.  A
    finite double is a rational that [binary64] leaves as it is; the
    two zeros are the one rational zero, which compare and add alike.
    A result of 2^1024 or more would be an infinity in the interpreter:
    the properties below keep the weights at or below 2^64, where no
    sum comes near it. *)

Module Double.

Local Open Scope Q_scope.

(** [floor (log2 q)] of a positive [q]. *)
Definition ilog2 (q : Q) : Z :=
  let l := (Z.log2 (Qnum q) - Z.log2 (Zpos (Qden q)))%Z in
  if Qle_bool (2 ^ l) q then l else (l - 1)%Z.

(** The exponent of the last place of the double nearest to a positive
    [q]: 53 significant bits, and no place below 2^-1074. *)
Definition quantum (q : Q) : Z := Z.max (ilog2 q - 52) (-1074).

Definition binary64_pos (q : Q) : Q :=
  let e := quantum q in
  inject_Z (round_half_even (q / 2 ^ e)) * 2 ^ e.

(** The double nearest to [q]. *)
Definition binary64 (q : Q) : Q :=
  match Qcompare q 0 with
  | Eq => 0
  | Gt => binary64_pos q
  | Lt => - binary64_pos (- q)
  end.

Definition is_double (q : Q) : Prop := binary64 q == q.

(** [a * b], [a + b] and [a / b] on floats. *)
Definition fmul (a b : Q) : Q := binary64 (a * b).
Definition fadd (a b : Q) : Q := binary64 (a + b).
Definition fdiv (a b : Q) : Q := binary64 (a / b).

(** [float(text)] as the double it is.  A text beyond the largest
    double is an infinity in the interpreter and a large number here;
    neither is in [0,1]. *)
Definition to_double (f : pyfloat) : pyfloat :=
  match f with
  | Fin q => Fin (binary64 q)
  | other => other
  end.

(** The state of the loop: the entries recorded so far and the two
    accumulators. *)
Record state : Type := {
  model_results : dict ModelEntry;
  weighted_sum : Q;
  total_weight : Q
}.

Section Loop.
Variable self : EngagementConcordanceScore.
Variable w : world.
Variable tweet_id : string.

(** The ['simple_score'] branch with its two handlers. *)
Definition run_simple_score (model_name : string) : exc (dict Q) :=
  exc_catch
    (model_path <- getitem (model_paths self) model_name ;;
     let model_dir := path_join (module_dir w) model_path in
     let script_path := path_join model_dir "simple_score.py" in
     if path_exists w script_path then
       result <- subprocess_run w [sys_executable w; script_path; tweet_id] 30 ;;
       if (returncode result =? 0)%Z then
         match float (strip (stdout result)) with
         | Ok score =>
             match unit_score (to_double score) with
             | Some q =>
                 k <- getitem (score_keys self) model_name ;; Ok [(k, q)]
             | None => zero_result self model_name
             end
         | Raise e =>
             if is_ValueError e then zero_result self model_name
             else Raise e
         end
       else zero_result self model_name
     else zero_result self model_name)%exc
    (fun _ => zero_result self model_name).

(** The body of the per-model [try] up to the point where it can still
    raise: the entry to record and the accumulators to leave.  The
    weights table holds the literals of the source; the loop reads the
    doubles they denote. *)
Definition try_model (model_name : string) (s : state)
  : exc (ModelEntry * Q * Q) :=
  (method_name <- getitem (analysis_methods self) model_name ;;
   model_result <-
     (if String.eqb method_name "simple_score"
      then run_simple_score model_name
      else zero_result self model_name) ;;
   score_key <- getitem (score_keys self) model_name ;;
   match dict_get model_result score_key with
   | Some score =>
       if in_unit_interval score then
         literal <- getitem (weights self) model_name ;;
         let weight := binary64 literal in
         let weighted_contribution := fmul score weight in
         Ok (success_entry score model_result,
             fadd (weighted_sum s) weighted_contribution,
             fadd (total_weight s) weight)
       else
         Ok (invalid_score_entry model_result, weighted_sum s, total_weight s)
   | None =>
       Ok (score_not_found_entry model_result, weighted_sum s, total_weight s)
   end)%exc.

(** One loaded model: the [try] and its [except Exception]. *)
Definition run_model (model_name : string) (s : state) : state :=
  match try_model model_name s with
  | Ok (entry, sum, total) =>
      {| model_results := dict_set (model_results s) model_name entry;
         weighted_sum := sum;
         total_weight := total |}
  | Raise e =>
      {| model_results := dict_set (model_results s) model_name (error_entry e);
         weighted_sum := weighted_sum s;
         total_weight := total_weight s |}
  end.

(** [for model_name, model_info in self.models.items(): ...] *)
Fixpoint run_models (items : dict model_info) (s : state) : state :=
  match items with
  | [] => s
  | (model_name, info) :: rest =>
      run_models rest
        (if negb (loaded info) then s      (* continue *)
         else run_model model_name s)
  end.

Definition analysis : state :=
  run_models (models self)
    {| model_results := []; weighted_sum := 0; total_weight := 0 |}.

(** "Calculate composite score" *)
Definition composite_score : Q :=
  if Qgt_bool (total_weight analysis) 0
  then fdiv (weighted_sum analysis) (total_weight analysis)
  else 0.

End Loop.

(** *** The vocabulary of the error analysis *)

(** Half the distance between 1 and the next double. *)
Definition unit_roundoff : Q := 2 ^ (-53).

(** The least positive double with 53 significant bits. *)
Definition min_normal : Q := 2 ^ (-1022).

(** The range of scores and weights the error bound is stated for, and
    the bound. *)
Definition score_floor : Q := 2 ^ (-512).
Definition weight_floor : Q := 2 ^ (-64).
Definition weight_ceiling : Q := 2 ^ 64.
Definition tolerance : Q := 2 ^ (-40).

Definition lo_factor : Q := 1 - unit_roundoff.
Definition hi_factor : Q := / (1 - unit_roundoff).

Fixpoint qpow (x : Q) (n : nat) : Q :=
  match n with
  | O => 1
  | S n => x * qpow x n
  end.

(** The two additions of the loop for one successful model. *)
Definition accumulate (st : Q * Q) (sw : Q * Q) : Q * Q :=
  let weighted_contribution := fmul (fst sw) (snd sw) in
  (fadd (fst st) weighted_contribution, fadd (snd st) (snd sw)).

Definition composite_of (st : Q * Q) : Q :=
  if Qgt_bool (snd st) 0 then fdiv (fst st) (snd st) else 0.

Definition bounds_ok (lo hi : Q) : Prop :=
  0 <= lo /\ lo <= hi /\ hi <= 1
  /\ (lo == 0 \/ score_floor <= lo) /\ (hi == 0 \/ score_floor <= hi).

Definition good_pair (lo hi : Q) (sw : Q * Q) : Prop :=
  lo <= fst sw /\ fst sw <= hi
  /\ is_double (snd sw) /\ weight_floor <= snd sw /\ snd sw <= weight_ceiling.

(** After [k] successful models of exact total weight [W]: how far the
    two accumulators can be from the exact sums. *)
Definition invariant (lo hi : Q) (k : nat) (W : Q) (st : Q * Q) : Prop :=
  0 <= W
  /\ W * qpow lo_factor k <= snd st /\ snd st <= W * qpow hi_factor k
  /\ lo * W * qpow lo_factor (S k) <= fst st
  /\ fst st <= hi * W * qpow hi_factor (S k)
  /\ 0 <= fst st /\ fst st <= snd st.

End Double.

(* ================================================================== *)
(** ** Further scenarios *)

(** All ten models loaded, but the weight of clickbait is missing from
    the weights table. *)
Definition all_loaded_without_clickbait_weight : EngagementConcordanceScore :=
  {| models := models all_loaded;
     weights := filter (fun kv => negb (String.eqb (fst kv) "clickbait"))
                  default_weights;
     model_paths := default_model_paths;
     model_files := default_model_files;
     analysis_methods := default_analysis_methods;
     score_keys := default_score_keys |}.

(** Every scorer is installed; clickbait prints 0.42 and a newline, the
    others exit with status 1. *)
Definition world_one_valid : world :=
  scenario_world (fun _ => true)
    (fun script =>
       if String.eqb script clickbait_script
       then prints (String.append "0.42" (String "010" ""))
       else exits 1 "Traceback").

(** Every scorer is installed; clickbait prints text that is no number,
    the others print 0.9. *)
Definition world_garbage : world :=
  scenario_world (fun _ => true)
    (fun script =>
       if String.eqb script clickbait_script then prints "score: high"
       else prints "0.9").

(** No model directory exists. *)
Definition world_nothing_installed : world :=
  scenario_world (fun _ => false) (fun _ => exits 1 "").

(** A registry of two loaded models, one of them named "composite". *)
Definition registry_with_composite : EngagementConcordanceScore :=
  {| models := [ ("composite", {| loaded := true; load_error := None |});
                 ("clickbait", {| loaded := true; load_error := None |}) ];
     weights := [ ("composite", 1.0%Q); ("clickbait", 1.0%Q) ];
     model_paths := [ ("composite", "../Composite_Detector");
                      ("clickbait", "../Clickbait_Headline_Classifier") ];
     model_files := [];
     analysis_methods := [ ("composite", "simple_score");
                           ("clickbait", "simple_score") ];
     score_keys := [ ("composite", "score"); ("clickbait", "clickbait_score") ] |}.

(** Both scorers are installed; clickbait prints 0.1, the other 0.9. *)
Definition world_composite : world :=
  scenario_world (fun _ => true)
    (fun script =>
       if String.eqb script clickbait_script then prints "0.1"
       else prints "0.9").

(** Only the authority_signal scorer is installed (weight 0.7); it
    prints 0.8. *)
Definition world_authority_alone : world :=
  scenario_world
    (fun p =>
       existsb (String.eqb p)
         ["./../Authority_Signal_Manipulation";
          "./../Authority_Signal_Manipulation/simple_score.py"])
    (fun _ => prints "0.8").

(** A clock for the batch: the same readings for every tweet. *)
Definition fixed_iso (i : nat) : string := "2024-01-01T00:00:00".
Definition fixed_stamp (i : nat) : string := "2024-01-01 00:00:00".

(** The report of an analysis in which all ten scorers exit with
    status 1. *)
Definition report_all_fail : Results :=
  match analyze_tweet_comprehensive all_loaded world_all_fail
          "1234567890" "2024-01-01T00:00:00" with
  | Ok r => r
  | Raise _ => new_results "1234567890" "2024-01-01T00:00:00"
  end.


(* ================================================================== *)
(** * Properties *)

(** ** The float parser on the scorer outputs of the scenarios *)

Example float_042 :
  exists q,
    float (strip (String.append "0.42" (String "010" ""))) = Ok (Fin q)
    /\ (q == 0.42)%Q.
Proof. eexists; split; [vm_compute; reflexivity | reflexivity]. Qed.

Example float_1_5 :
  exists q, float (strip "1.5") = Ok (Fin q) /\ (q == 1.5)%Q.
Proof. eexists; split; [vm_compute; reflexivity | reflexivity]. Qed.


(** ** Dictionaries *)

Section DictFacts.
Variable V : Type.
Implicit Types (d : dict V) (k : string) (v : V).

Lemma dict_get_None d k : dict_get d k = None <-> ~ In k (keys d).
Proof.
  induction d as [|[k' v'] d IH]; simpl.
  - tauto.
  - destruct (String.eqb_spec k' k) as [->|Hne].
    + split; [discriminate | intros H; exfalso; apply H; now left].
    + rewrite IH. split.
      * intros H [E|HIn]; [now apply Hne | now apply H].
      * intros H HIn. apply H. now right.
Qed.

Lemma dict_get_In d k v : dict_get d k = Some v -> In (k, v) d.
Proof.
  induction d as [|[k' v'] d IH]; simpl; [discriminate|].
  destruct (String.eqb_spec k' k) as [->|Hne].
  - intros [= ->]. now left.
  - intros H. right. now apply IH.
Qed.

Lemma In_dict_get d k v : NoDup (keys d) -> In (k, v) d -> dict_get d k = Some v.
Proof.
  induction d as [|[k' v'] d IH]; simpl; [tauto|].
  intros Hnd [E|HIn].
  - injection E as -> ->. now rewrite String.eqb_refl.
  - inversion Hnd as [|? ? Hnot Hnd']; subst.
    destruct (String.eqb_spec k' k) as [->|Hne].
    + exfalso. apply Hnot. change k with (fst (k, v)). now apply in_map.
    + now apply IH.
Qed.

Lemma dict_set_fresh d k v : ~ In k (keys d) -> dict_set d k v = d ++ [(k, v)].
Proof.
  induction d as [|[k' v'] d IH]; simpl; [reflexivity|].
  intros H. destruct (String.eqb_spec k' k) as [->|Hne].
  - exfalso. apply H. now left.
  - rewrite IH; [reflexivity|]. intros HIn. apply H. now right.
Qed.

Lemma dict_set_twice d k v v' : dict_set (dict_set d k v) k v' = dict_set d k v'.
Proof.
  induction d as [|[k' v0] d IH]; simpl.
  - now rewrite String.eqb_refl.
  - destruct (String.eqb_spec k' k) as [->|Hne]; simpl.
    + now rewrite String.eqb_refl.
    + destruct (String.eqb_spec k' k); [contradiction|]. now rewrite IH.
Qed.

Lemma keys_dict_set d k v :
  keys (dict_set d k v) = if dict_mem d k then keys d else keys d ++ [k].
Proof.
  unfold dict_mem.
  induction d as [|[k' v0] d IH]; simpl; [reflexivity|].
  destruct (String.eqb_spec k' k) as [->|Hne]; simpl; [reflexivity|].
  rewrite IH. now destruct (dict_get d k).
Qed.

Lemma dict_set_NoDup d k v : NoDup (keys d) -> NoDup (keys (dict_set d k v)).
Proof.
  intros Hnd. rewrite keys_dict_set. unfold dict_mem.
  destruct (dict_get d k) eqn:E; [assumption|].
  apply dict_get_None in E.
  apply NoDup_app; [assumption | repeat constructor; simpl; tauto |].
  intros x Hx [<-|[]]. contradiction.
Qed.

Lemma dict_get_app d d' k :
  dict_get (d ++ d') k =
  match dict_get d k with Some v => Some v | None => dict_get d' k end.
Proof.
  induction d as [|[k' v0] d IH]; simpl; [reflexivity|].
  now destruct (String.eqb k' k).
Qed.
End DictFacts.

Section Iteration.
Variable self : EngagementConcordanceScore.
Variable w : world.
Variable tid : string.

Lemma run_model_outcome (model_name : string) (s : frame) :
  run_model self w tid model_name s
  = (apply_outcome model_name (outcome_of self w tid model_name) s, Ok tt).
Proof.
  unfold run_model, outcome_of, model_result_of, extract_score.
  cbv [try_except bind lift exc_bind set_model_result set_breakdown
       add_weighted_sum add_total_weight modify].
  destruct (getitem (analysis_methods self) model_name) as [m|e]; [|reflexivity].
  destruct (if String.eqb m "simple_score" then _ else _) as [mr|e]; [|reflexivity].
  destruct (getitem (score_keys self) model_name) as [k|e]; [|reflexivity].
  destruct (dict_get mr k) as [q|]; [|reflexivity].
  destruct (in_unit_interval q); [|reflexivity].
  destruct (getitem (weights self) model_name) as [wt|e]; simpl.
  - reflexivity.
  - unfold with_model_results; simpl. now rewrite dict_set_twice.
Qed.

(** Every scorer call that returns leaves exactly its score key, bound
    to a value of the unit interval. *)
Lemma zero_result_ok model_name k :
  dict_get (score_keys self) model_name = Some k ->
  zero_result self model_name = Ok [(k, 0%Q)].
Proof. unfold zero_result, getitem. now intros ->. Qed.

Lemma zero_result_raise model_name :
  dict_get (score_keys self) model_name = None ->
  zero_result self model_name = Raise (KeyError model_name).
Proof. unfold zero_result, getitem. now intros ->. Qed.

Lemma unit_score_Some f q : unit_score f = Some q -> in_unit_interval q = true.
Proof.
  destruct f as [q'| | |]; simpl; try discriminate.
  destruct (in_unit_interval q') eqn:E; [|discriminate]. now intros [= <-].
Qed.

Lemma run_simple_score_shape model_name k :
  dict_get (score_keys self) model_name = Some k ->
  exists q, run_simple_score self w tid model_name = Ok [(k, q)]
            /\ in_unit_interval q = true.
Proof.
  intros Hk. pose proof (zero_result_ok _ Hk) as Hz.
  assert (Hzero : exists q, Ok [(k, 0%Q)] = Ok [(k, q)] /\ in_unit_interval q = true)
    by (exists 0%Q; split; reflexivity).
  unfold run_simple_score, exc_catch, exc_bind.
  destruct (getitem (model_paths self) model_name) as [p|e];
    [|destruct e; rewrite Hz; exact Hzero].
  destruct (path_exists w _); [|rewrite Hz; exact Hzero].
  destruct (subprocess_run w _ 30) as [cp|e];
    [|destruct e; rewrite Hz; exact Hzero].
  destruct (returncode cp =? 0)%Z; [|rewrite Hz; exact Hzero].
  destruct (float (strip (stdout cp))) as [f|e].
  - destruct (unit_score f) as [q|] eqn:Hu; [|rewrite Hz; exact Hzero].
    unfold getitem. rewrite Hk. exists q. split; [reflexivity|].
    eapply unit_score_Some; eassumption.
  - destruct (is_ValueError e).
    + rewrite Hz; exact Hzero.
    + destruct e; rewrite Hz; exact Hzero.
Qed.

Lemma run_simple_score_no_key model_name :
  dict_get (score_keys self) model_name = None ->
  exists e, run_simple_score self w tid model_name = Raise e.
Proof.
  intros Hk. pose proof (zero_result_raise _ Hk) as Hz.
  unfold run_simple_score, exc_catch, exc_bind. rewrite Hz.
  unfold getitem. rewrite Hk.
  destruct (dict_get (model_paths self) model_name); [|eauto].
  destruct (path_exists w _); [|eauto].
  destruct (subprocess_run w _ 30) as [cp|e]; [|destruct e; eauto].
  destruct (returncode cp =? 0)%Z; [|eauto].
  destruct (float (strip (stdout cp))) as [f|e].
  - destruct (unit_score f); eauto.
  - destruct (is_ValueError e); [eauto | destruct e; eauto].
Qed.

Lemma outcome_of_cases model_name :
  (exists k q wt,
      dict_get (score_keys self) model_name = Some k
      /\ dict_get (weights self) model_name = Some wt
      /\ in_unit_interval q = true
      /\ model_result_of self w tid model_name = Ok [(k, q)]
      /\ outcome_of self w tid model_name = Scored [(k, q)] q wt)
  \/ (exists e, outcome_of self w tid model_name = Failed (error_entry e)).
Proof.
  unfold outcome_of.
  assert (Hmr : (exists e, model_result_of self w tid model_name = Raise e)
                \/ (exists k q, dict_get (score_keys self) model_name = Some k
                                /\ in_unit_interval q = true
                                /\ model_result_of self w tid model_name = Ok [(k, q)])).
  { unfold model_result_of, exc_bind.
    destruct (getitem (analysis_methods self) model_name) as [m|e]; [|eauto].
    destruct (dict_get (score_keys self) model_name) as [k|] eqn:Hk.
    - right. exists k.
      destruct (String.eqb m "simple_score").
      + destruct (run_simple_score_shape _ Hk) as (q & -> & Hq). eauto.
      + rewrite (zero_result_ok _ Hk). exists 0%Q. auto.
    - left. destruct (String.eqb m "simple_score").
      + apply run_simple_score_no_key, Hk.
      + rewrite (zero_result_raise _ Hk). eauto. }
  destruct Hmr as [[e ->]|(k & q & Hk & Hq & ->)]; [eauto|].
  unfold getitem. rewrite Hk. simpl. rewrite String.eqb_refl, Hq.
  destruct (dict_get (weights self) model_name) as [wt|] eqn:Hw; [|eauto].
  left. exists k, q, wt. auto.
Qed.

Lemma run_models_outcomes (items : dict model_info) (s : frame) :
  run_models self w tid items s
  = (apply_outcomes self w tid (loaded_names items) s, Ok tt).
Proof.
  revert s. induction items as [|[n info] items IH]; intros s; [reflexivity|].
  simpl. unfold bind, loaded_names, is_loaded. simpl.
  destruct (loaded info); simpl.
  - rewrite run_model_outcome. apply IH.
  - apply IH.
Qed.

End Iteration.

(** ** Sums of rationals *)


Section Loop.
Variable self : EngagementConcordanceScore.
Variable w : world.
Variable tid : string.

Lemma apply_outcomes_spec names : forall s,
  NoDup names ->
  (forall n, In n names -> ~ In n (keys (model_results (results s)))) ->
  (forall n, In n names -> ~ In n (keys (weighted_breakdown (results s)))) ->
  let s' := apply_outcomes self w tid names s in
  model_results (results s')
    = model_results (results s) ++ map (named_entry self w tid) names
  /\ weighted_breakdown (results s')
     = weighted_breakdown (results s)
         ++ flat_map breakdown_items (map (named_outcome self w tid) names)
  /\ (total_weight s'
      == total_weight s
         + Qsum (map (fun n => outcome_weight (outcome_of self w tid n)) names))%Q
  /\ (weighted_sum s'
      == weighted_sum s
         + Qsum (map (fun n => outcome_contribution (outcome_of self w tid n)) names))%Q
  /\ tweet_id (results s') = tweet_id (results s)
  /\ timestamp (results s') = timestamp (results s)
  /\ risk_assessment (results s') = risk_assessment (results s)
  /\ summary (results s') = summary (results s).
Proof.
  induction names as [|n ns IH]; intros s Hnd Hmr Hbd; simpl.
  - rewrite !app_nil_r, !Qplus_0_r. repeat split; reflexivity.
  - inversion Hnd as [|? ? Hn Hnd']; subst.
    set (o := outcome_of self w tid n).
    assert (Hfresh_mr : ~ In n (keys (model_results (results s))))
      by (apply Hmr; now left).
    assert (Hfresh_bd : ~ In n (keys (weighted_breakdown (results s))))
      by (apply Hbd; now left).
    specialize (IH (apply_outcome n o s) Hnd').
    assert (Hmr1 : model_results (results (apply_outcome n o s))
                   = model_results (results s) ++ [(n, entry_of o)]).
    { destruct o; simpl; now rewrite dict_set_fresh. }
    assert (Hbd1 : weighted_breakdown (results (apply_outcome n o s))
                   = weighted_breakdown (results s) ++ breakdown_items (n, o)).
    { destruct o; simpl; unfold breakdown_items; simpl.
      - now rewrite dict_set_fresh.
      - now rewrite app_nil_r. }
    destruct IH as (E1 & E2 & E3 & E4 & E5 & E6 & E7 & E8).
    + intros m Hm. rewrite Hmr1. unfold keys. rewrite map_app.
      intros HIn. apply in_app_or in HIn. destruct HIn as [HIn|[<-|[]]].
      * apply (Hmr m); [now right | exact HIn].
      * contradiction.
    + intros m Hm. rewrite Hbd1. unfold keys. rewrite map_app.
      intros HIn. apply in_app_or in HIn. destruct HIn as [HIn|HIn].
      * apply (Hbd m); [now right | exact HIn].
      * unfold breakdown_items in HIn. simpl in HIn.
        destruct (breakdown_of o); simpl in HIn; [|easy].
        destruct HIn as [<-|[]]. contradiction.
    + rewrite E1, E2, E3, E4, E5, E6, E7, E8, Hmr1, Hbd1.
      rewrite <- !app_assoc. fold o.
      repeat split; try reflexivity.
      * destruct o; simpl; ring.
      * destruct o; simpl; ring.
      * now destruct o.
      * now destruct o.
      * now destruct o.
      * now destruct o.
Qed.
End Loop.

(** ** Risk factors of well-formed entries *)

Section RiskFactors.
Variable self : EngagementConcordanceScore.

Lemma risk_factors_of_spec (items : dict ModelEntry) :
  Forall (readable self) items ->
  exists fs, risk_factors_of self items = Ok fs
             /\ Forall2 (factor_of self) (filter (fun it => selected (snd it)) items) fs.
Proof.
  induction 1 as [|[n e] items Hr _ IH]; simpl.
  - exists []. split; [reflexivity | constructor].
  - destruct IH as (fs & Hfs & Hall).
    unfold selected, is_success. unfold readable in Hr. simpl in Hr.
    destruct (String.eqb_spec (status e) "success") as [Hs|Hs]; simpl.
    + destruct (Hr Hs) as (q & wt & Hq & Hw). rewrite Hq. simpl.
      destruct (Qgt_bool q 0.5); simpl.
      * unfold getitem. rewrite Hw, Hfs. simpl. eexists. split; [reflexivity|].
        constructor; [|assumption]. unfold factor_of; simpl. auto.
      * eauto.
    + eauto.
Qed.
End RiskFactors.

(** ** The analysis as a whole *)

Lemma NoDup_keys_filter {V} (f : string * V -> bool) (d : dict V) :
  NoDup (keys d) -> NoDup (keys (filter f d)).
Proof.
  induction d as [|[k v] d IH]; simpl; [easy|].
  intros Hnd. inversion Hnd as [|? ? Hk Hnd']; subst.
  destruct (f (k, v)); simpl; [|now apply IH].
  constructor; [|now apply IH].
  intros HIn. apply Hk. unfold keys in *. apply in_map_iff in HIn.
  destruct HIn as ([k' v'] & <- & HIn). apply filter_In in HIn.
  change (fst (k', v')) with (fst (k', v')). apply in_map. tauto.
Qed.

Lemma Qgt_bool_true a b : Qgt_bool a b = true <-> (b < a)%Q.
Proof.
  unfold Qgt_bool. rewrite negb_true_iff, <- not_true_iff_false, Qle_bool_iff.
  split; [apply Qnot_le_lt | apply Qlt_not_le].
Qed.

Lemma Qgt_bool_false a b : Qgt_bool a b = false <-> (a <= b)%Q.
Proof.
  unfold Qgt_bool. rewrite negb_false_iff. apply Qle_bool_iff.
Qed.

Lemma in_unit_interval_iff q : in_unit_interval q = true <-> (0 <= q <= 1)%Q.
Proof.
  unfold in_unit_interval. rewrite andb_true_iff, !Qle_bool_iff. tauto.
Qed.

Section Whole.
Variable self : EngagementConcordanceScore.
Variable w : world.
Variable tid : string.

Let names : list string := loaded_names (models self).
Let outcome_at (n : string) : outcome := outcome_of self w tid n.

(** The entry and the breakdown of one model agree. *)
Lemma entry_breakdown (n : string) :
  (exists q wt k,
      entry_of (outcome_at n) = success_entry q [(k, q)]
      /\ in_unit_interval q = true
      /\ dict_get (weights self) n = Some wt
      /\ outcome_at n = Scored [(k, q)] q wt)
  \/ (exists e, outcome_at n = Failed (error_entry e)).
Proof.
  unfold outcome_at.
  destruct (outcome_of_cases self w tid n)
    as [(k & q & wt & Hk & Hw & Hq & _ & Ho)|[e He]].
  - left. exists q, wt, k. rewrite Ho. auto.
  - right. eauto.
Qed.

Lemma entries_readable (l : list string) :
  Forall (readable self) (map (named_entry self w tid) l).
Proof.
  apply Forall_forall. intros [n e] HIn.
  apply in_map_iff in HIn. destruct HIn as (m & [= <- <-] & _).
  unfold readable. simpl.
  destruct (entry_breakdown m) as [(q & wt & k & He & _ & Hw & _)|[e He]];
    unfold outcome_at in *; rewrite He; simpl; [eauto | discriminate].
Qed.

(** What [analyze_tweet_comprehensive] returns, spelled out. *)
Lemma analyze_spec (now : string) :
  NoDup (keys (models self)) ->
  exists r ra sm fs,
    analyze_tweet_comprehensive self w tid now = Ok r
    /\ tweet_id r = tid /\ timestamp r = now
    /\ model_results r = map (named_entry self w tid) names
    /\ weighted_breakdown r
       = flat_map breakdown_items (map (named_outcome self w tid) names)
    /\ ((0 < Qsum (map (fun n => outcome_weight (outcome_at n)) names) ->
         composite_score r
         == Qsum (map (fun n => outcome_contribution (outcome_at n)) names)
            / Qsum (map (fun n => outcome_weight (outcome_at n)) names))
        /\ (~ 0 < Qsum (map (fun n => outcome_weight (outcome_at n)) names) ->
            composite_score r = 0))%Q
    /\ risk_assessment r = Some ra
    /\ summary r = Some sm
    /\ risk_factors_of self (model_results r) = Ok fs
    /\ ra = {| risk_level := fst (risk_level_of (composite_score r));
               risk_description := snd (risk_level_of (composite_score r));
               top_risk_factors := firstn 3 (sort_reverse weighted_impact fs);
               ra_composite_score := composite_score r |}
    /\ _generate_summary self
         {| tweet_id := tid; timestamp := now;
            model_results := model_results r;
            composite_score := composite_score r;
            weighted_breakdown := weighted_breakdown r;
            risk_assessment := Some ra;
            summary := None |} = Ok sm.
Proof.
  intros Hnd.
  assert (Hnd' : NoDup names) by (apply NoDup_keys_filter, Hnd).
  destruct (@apply_outcomes_spec self w tid names (new_frame tid now) Hnd')
    as (E1 & E2 & E3 & E4 & E5 & E6 & E7 & E8); [simpl; tauto | simpl; tauto |].
  simpl in E1, E2, E3, E4, E5, E6, E7, E8.
  rewrite Qplus_0_l in E3, E4.
  set (s1 := apply_outcomes self w tid names (new_frame tid now)) in *.
  destruct (@risk_factors_of_spec self (model_results (results s1)))
    as (fs & Hfs & _).
  { rewrite E1. apply entries_readable. }
  unfold analyze_tweet_comprehensive, analyze_frame.
  unfold bind at 1. rewrite run_models_outcomes. fold names. fold s1.
  unfold bind, set_composite_score, modify, update_results.
  cbn [results total_weight weighted_sum].
  unfold _assess_overall_risk at 1.
  cbn [composite_score model_results with_composite_score].
  rewrite Hfs.
  set (c := if Qgt_bool (total_weight s1) 0
            then (weighted_sum s1 / total_weight s1)%Q else 0%Q).
  destruct (risk_level_of c) as [lvl descr] eqn:Hlvl.
  cbn [exc_bind results with_risk_assessment].
  unfold _generate_summary at 1.
  cbn [risk_assessment exc_bind results with_summary tweet_id timestamp
       model_results composite_score weighted_breakdown summary].
  do 4 eexists. split; [reflexivity|].
  simpl. rewrite Hlvl. simpl.
  split; [exact E5|]. split; [exact E6|]. split; [exact E1|].
  split; [exact E2|]. split; [split|].
  - intros Hpos. subst c. unfold outcome_at.
    assert (Hgt : Qgt_bool (total_weight s1) 0 = true)
      by (apply Qgt_bool_true; now rewrite E3).
    rewrite Hgt. now rewrite E3, E4.
  - intros Hnpos. subst c. unfold outcome_at in Hnpos.
    assert (Hgt : Qgt_bool (total_weight s1) 0 = false).
    { apply Qgt_bool_false. rewrite E3. now apply Qnot_lt_le. }
    now rewrite Hgt.
  - split; [reflexivity|]. split; [reflexivity|]. split; [exact Hfs|].
    split; reflexivity.
Qed.
End Whole.

(** ** The stable sort *)

Section SortFacts.
Variable A : Type.
Variable key : A -> Q.

Let ge (a b : A) : Prop := (key b <= key a)%Q.

Lemma insert_desc_perm (x : A) (l : list A) :
  Permutation (insert_desc key x l) (x :: l).
Proof.
  induction l as [|y l IH]; simpl; [reflexivity|].
  destruct (Qle_bool (key y) (key x)); [reflexivity|].
  rewrite IH. apply perm_swap.
Qed.

Lemma sort_reverse_perm (l : list A) : Permutation (sort_reverse key l) l.
Proof.
  induction l as [|x l IH]; simpl; [reflexivity|].
  rewrite insert_desc_perm. now apply perm_skip.
Qed.

Lemma insert_desc_sorted (x : A) (l : list A) :
  StronglySorted ge l -> StronglySorted ge (insert_desc key x l).
Proof.
  induction 1 as [|y l Hs IH Hall]; simpl.
  - repeat constructor.
  - destruct (Qle_bool (key y) (key x)) eqn:E.
    + apply Qle_bool_iff in E. constructor.
      * now constructor.
      * constructor; [exact E|].
        eapply Forall_impl; [|exact Hall]. unfold ge. intros z Hz.
        eapply Qle_trans; eassumption.
    + constructor; [exact IH|].
      assert (Hxy : (key x <= key y)%Q).
      { apply Qlt_le_weak, Qnot_le_lt. intros H.
        apply Qle_bool_iff in H. congruence. }
      eapply Permutation_Forall; [symmetry; apply insert_desc_perm|].
      constructor; assumption.
Qed.

Lemma sort_reverse_sorted (l : list A) : StronglySorted ge (sort_reverse key l).
Proof.
  induction l as [|x l IH]; simpl; [constructor | now apply insert_desc_sorted].
Qed.


End SortFacts.

(* ================================================================== *)
(** ** Risk classification *)

Lemma Qle_bool_false a b : Qle_bool a b = false <-> (b < a)%Q.
Proof.
  rewrite <- not_true_iff_false, Qle_bool_iff.
  split; [apply Qnot_le_lt | apply Qlt_not_le].
Qed.

(** C6.  The composite score is classified by closed lower bounds: from
    0.8 up the level is CRITICAL (1.0 included), from 0.6 up to but not
    including 0.8 it is HIGH, from 0.4 MODERATE, from 0.2 LOW and below
    0.2 MINIMAL, so 0.2, 0.4, 0.6 and 0.8 themselves fall in the higher
    bucket; each level comes with its one description string, and
    [_assess_overall_risk] reports exactly this pair. *)
Theorem risk_classification_thresholds (c : Q) :
  ((0.8 <= c
    /\ risk_level_of c
       = ("CRITICAL",
          "Very high manipulation risk detected across multiple dimensions"))
   \/ (0.6 <= c < 0.8
       /\ risk_level_of c
          = ("HIGH", "High manipulation risk with concerning patterns"))
   \/ (0.4 <= c < 0.6
       /\ risk_level_of c
          = ("MODERATE", "Moderate risk with some concerning indicators"))
   \/ (0.2 <= c < 0.4
       /\ risk_level_of c
          = ("LOW", "Low risk with minimal concerning indicators"))
   \/ (c < 0.2
       /\ risk_level_of c
          = ("MINIMAL", "Minimal risk, appears to be genuine engagement")))%Q
  /\ fst (risk_level_of 0.8) = "CRITICAL"
  /\ fst (risk_level_of 0.6) = "HIGH"
  /\ fst (risk_level_of 0.4) = "MODERATE"
  /\ fst (risk_level_of 0.2) = "LOW"
  /\ fst (risk_level_of 1) = "CRITICAL"
  /\ forall self r,
       composite_score r = c ->
       match _assess_overall_risk self r with
       | Ok ra => (risk_level ra, risk_description ra) = risk_level_of c
       | Raise _ => True
       end.
Proof.
  split; [|repeat (split; [reflexivity|])].
  - unfold risk_level_of.
    destruct (Qle_bool 0.8 c) eqn:E8.
    { apply Qle_bool_iff in E8. left. auto. }
    apply Qle_bool_false in E8.
    destruct (Qle_bool 0.6 c) eqn:E6.
    { apply Qle_bool_iff in E6. right; left. auto. }
    apply Qle_bool_false in E6.
    destruct (Qle_bool 0.4 c) eqn:E4.
    { apply Qle_bool_iff in E4. do 2 right; left. auto. }
    apply Qle_bool_false in E4.
    destruct (Qle_bool 0.2 c) eqn:E2.
    { apply Qle_bool_iff in E2. do 3 right; left. auto. }
    apply Qle_bool_false in E2. do 4 right. auto.
  - intros self r <-. unfold _assess_overall_risk.
    destruct (risk_level_of (composite_score r)) as [lvl descr].
    destruct (risk_factors_of self (model_results r)); simpl; auto.
Qed.

(* ================================================================== *)
(** ** Summary: recommendations and confidence *)


(* ================================================================== *)
(** ** Top risk factors *)




(** With a tie, the model registered first comes first. *)
Example ranking_of_report_with_tie :
  option_map (fun ra => map rf_model (top_risk_factors ra))
    (match _assess_overall_risk registry report_with_tie with
     | Ok ra => Some ra
     | Raise _ => None
     end)
  = Some ["clickbait"; "content_recycling"; "coordinated_network"].
Proof. vm_compute. reflexivity. Qed.

(* ================================================================== *)
(** ** Weighted means *)

Lemma Qlist_min_le (l : list Q) (x : Q) : In x l -> (Qlist_min l <= x)%Q.
Proof.
  induction l as [|y l IH]; [easy|].
  intros [->|HIn].
  - destruct l; [apply Qle_refl | apply Q.le_min_l].
  - destruct l as [|z l]; [easy|].
    change (Qmin y (Qlist_min (z :: l)) <= x)%Q.
    eapply Qle_trans; [apply Q.le_min_r | now apply IH].
Qed.

Lemma Qlist_max_ge (l : list Q) (x : Q) : In x l -> (x <= Qlist_max l)%Q.
Proof.
  induction l as [|y l IH]; [easy|].
  intros [->|HIn].
  - destruct l; [apply Qle_refl | apply Q.le_max_l].
  - destruct l as [|z l]; [easy|].
    change (x <= Qmax y (Qlist_max (z :: l)))%Q.
    eapply Qle_trans; [now apply IH | apply Q.le_max_r].
Qed.

(** Pairs of a score and its weight: their total weight and weighted sum. *)
Lemma weights_sum_nonneg (ps : list (Q * Q)) :
  Forall (fun p => 0 < snd p)%Q ps -> (0 <= Qsum (map snd ps))%Q.
Proof.
  induction 1 as [|p l Hp _ IH]; simpl; [apply Qle_refl | lra].
Qed.

Lemma weights_sum_pos (ps : list (Q * Q)) :
  Forall (fun p => 0 < snd p)%Q ps -> ps <> [] -> (0 < Qsum (map snd ps))%Q.
Proof.
  intros [|p l Hp Hl]; [easy|]. intros _. simpl.
  pose proof (weights_sum_nonneg Hl). lra.
Qed.



(* ================================================================== *)
(** ** The report of an analysis *)

Section Report.
Variable self : EngagementConcordanceScore.
Variable w : world.
Variable tid : string.

Let outcome_at (n : string) : outcome := outcome_of self w tid n.
Let pairs (names : list string) : list (Q * Q) :=
  flat_map (fun n => scored_pair (outcome_at n)) names.




Lemma dict_get_entries (names : list string) (n : string) :
  dict_get (map (named_entry self w tid) names) n
  = if in_dec string_dec n names then Some (entry_of (outcome_at n)) else None.
Proof.
  induction names as [|m names IH]; [reflexivity|].
  simpl. destruct (String.eqb_spec m n) as [->|Hne].
  - destruct (string_dec n n); [reflexivity | contradiction].
  - destruct (string_dec m n); [contradiction|]. rewrite IH.
    now destruct (in_dec string_dec n names).
Qed.

Lemma dict_get_breakdown (names : list string) (n : string) :
  dict_get (flat_map breakdown_items (map (named_outcome self w tid) names)) n
  = if in_dec string_dec n names then breakdown_of (outcome_at n) else None.
Proof.
  induction names as [|m names IH]; [reflexivity|].
  cbn [map flat_map]. rewrite dict_get_app, IH.
  unfold breakdown_items, named_outcome at 1. cbn [fst snd].
  fold (outcome_at m).
  destruct (in_dec string_dec n (m :: names)) as [HIn|HnIn].
  - destruct (String.eqb_spec m n) as [->|Hne].
    + destruct (breakdown_of (outcome_at n)) as [b|]; simpl.
      * now rewrite String.eqb_refl.
      * now destruct (in_dec string_dec n names).
    + assert (In n names) by (destruct HIn; [contradiction | assumption]).
      destruct (in_dec string_dec n names); [|contradiction].
      destruct (breakdown_of (outcome_at m)); simpl; [|reflexivity].
      destruct (String.eqb_spec m n); [contradiction | reflexivity].
  - assert (m <> n) by (intros ->; apply HnIn; now left).
    assert (~ In n names) by (intros H'; apply HnIn; now right).
    destruct (in_dec string_dec n names); [contradiction|].
    destruct (breakdown_of (outcome_at m)); simpl; [|reflexivity].
    destruct (String.eqb_spec m n); [contradiction | reflexivity].
Qed.

Lemma keys_named_entries (names : list string) :
  keys (map (named_entry self w tid) names) = names.
Proof.
  unfold keys. rewrite map_map. simpl. apply map_id.
Qed.

Lemma loaded_names_spec (items : dict model_info) (n : string) :
  In n (loaded_names items)
  <-> exists info, In (n, info) items /\ loaded info = true.
Proof.
  unfold loaded_names, keys. rewrite in_map_iff. split.
  - intros ([m info] & <- & HIn). apply filter_In in HIn. exists info. tauto.
  - intros (info & HIn & Hl). exists (n, info). split; [reflexivity|].
    apply filter_In. auto.
Qed.
End Report.

(* ================================================================== *)
(** ** The composite score *)

Lemma load_model_NoDup (w : world) (self : EngagementConcordanceScore)
    (item : string * string) :
  NoDup (keys (models self)) -> NoDup (keys (models (load_model w self item))).
Proof.
  intros H. destruct item as [n p]. unfold load_model.
  destruct (negb (path_exists w _)); [now apply dict_set_NoDup|].
  destruct (negb (path_exists w _)); now apply dict_set_NoDup.
Qed.

Lemma load_models_NoDup (w : world) (self : EngagementConcordanceScore) :
  NoDup (keys (models self)) -> NoDup (keys (models (load_models w self))).
Proof.
  unfold load_models. generalize (model_paths self) as items.
  intros items. revert self.
  induction items as [|item items IH]; intros self H; simpl; [exact H|].
  apply IH. now apply load_model_NoDup.
Qed.

Lemma init_NoDup (w : world) : NoDup (keys (models (__init__ w))).
Proof. apply load_models_NoDup. constructor. Qed.

Lemma load_model_weights (w : world) (self : EngagementConcordanceScore)
    (item : string * string) :
  weights (load_model w self item) = weights self.
Proof.
  destruct item as [n p]. unfold load_model.
  destruct (negb (path_exists w _)); [reflexivity|].
  destruct (negb (path_exists w _)); reflexivity.
Qed.

Lemma init_weights (w : world) : weights (__init__ w) = default_weights.
Proof.
  unfold __init__, load_models.
  cbn [fold_left model_paths default_model_paths].
  now rewrite !load_model_weights.
Qed.

Lemma default_weights_positive : Forall (fun kv => 0 < snd kv)%Q default_weights.
Proof. repeat constructor. Qed.

(* ================================================================== *)
(** ** Rounding to the nearest double *)

Section Binary64Facts.
Import Double.
Local Open Scope Q_scope.
Local Unset Implicit Arguments.

(** The doubles of 0.1 and of 1/3, two ties (2^53 + 1 goes down to the
    even 2^53, 2^53 + 3 up to 2^53 + 4) and the least subnormal: half
    of it rounds to zero, one and a half times it to twice it. *)
Example binary64_values :
  binary64 0.1 == 3602879701896397 # 36028797018963968
  /\ binary64 (1 # 3) == 6004799503160661 # 18014398509481984
  /\ binary64 9007199254740993 == 9007199254740992
  /\ binary64 9007199254740995 == 9007199254740996
  /\ binary64 (2 ^ (-1075)) == 0
  /\ binary64 (3 * 2 ^ (-1075)) == 2 ^ (-1073)
  /\ binary64 (- (1 # 10)) == - (3602879701896397 # 36028797018963968).
Proof. repeat split; vm_compute; reflexivity. Qed.

Lemma round_half_even_cases (x : Q) :
  round_half_even x = Qfloor x \/ round_half_even x = (Qfloor x + 1)%Z.
Proof.
  unfold round_half_even.
  destruct (Qcompare _ _); [destruct (Z.even _)|..]; auto.
Qed.

Lemma round_half_even_le (x y : Q) :
  x <= y -> (round_half_even x <= round_half_even y)%Z.
Proof.
  intros Hxy. pose proof (Qfloor_resp_le _ _ Hxy) as Hf.
  destruct (Z.eq_dec (Qfloor x) (Qfloor y)) as [E|NE].
  - unfold round_half_even. rewrite <- E.
    destruct (Qcompare_spec (x - inject_Z (Qfloor x)) (1#2)) as [Hx|Hx|Hx];
    destruct (Qcompare_spec (y - inject_Z (Qfloor x)) (1#2)) as [Hy|Hy|Hy];
      try destruct (Z.even (Qfloor x)); try lia; exfalso; lra.
  - destruct (round_half_even_cases x) as [-> | ->],
             (round_half_even_cases y) as [-> | ->]; lia.
Qed.

Lemma round_half_even_Z (z : Z) : round_half_even (inject_Z z) = z.
Proof.
  unfold round_half_even. rewrite Qfloor_Z.
  destruct (Qcompare_spec (inject_Z z - inject_Z z) (1#2)) as [H|H|H];
    [exfalso; lra | reflexivity | exfalso; lra].
Qed.

Lemma round_half_even_error (x : Q) :
  x - (1#2) <= inject_Z (round_half_even x) <= x + (1#2).
Proof.
  pose proof (Qfloor_le x) as H1. pose proof (Qlt_floor x) as H2.
  rewrite inject_Z_plus in H2. change (inject_Z 1) with 1 in H2.
  unfold round_half_even.
  destruct (Qcompare_spec (x - inject_Z (Qfloor x)) (1#2)) as [H|H|H];
    [destruct (Z.even (Qfloor x))|..];
    rewrite ?inject_Z_plus; change (inject_Z 1) with 1; lra.
Qed.

Lemma pow2_pos (z : Z) : 0 < 2 ^ z.
Proof. apply Qpower_0_lt. reflexivity. Qed.

Lemma pow2_plus (a b : Z) : 2 ^ (a + b) == 2 ^ a * 2 ^ b.
Proof. apply Qpower_plus. discriminate. Qed.

Lemma pow2_succ (a : Z) : 2 ^ (a + 1) == 2 * 2 ^ a.
Proof. rewrite pow2_plus. change (2 ^ 1) with 2. ring. Qed.

Lemma pow2_le (a b : Z) : (a <= b)%Z -> 2 ^ a <= 2 ^ b.
Proof. intros H. apply Qpower_le_compat_l; [exact H | discriminate]. Qed.

Lemma pow2_lt (a b : Z) : (a < b)%Z -> 2 ^ a < 2 ^ b.
Proof. intros H. apply Qpower_lt_compat_l; [exact H | reflexivity]. Qed.

Lemma pow2_inject (k : Z) : (0 <= k)%Z -> inject_Z (2 ^ k) == 2 ^ k.
Proof. intros H. rewrite Zpower_Qpower by exact H. reflexivity. Qed.

Lemma ilog2_spec (q : Q) :
  0 < q -> 2 ^ ilog2 q <= q /\ q < 2 ^ (ilog2 q + 1).
Proof.
  intros Hq. destruct q as [n d]. unfold ilog2. cbn [Qnum Qden].
  assert (Hn : (0 < n)%Z).
  { unfold Qlt in Hq. cbn in Hq. lia. }
  set (a := Z.log2 n). set (b := Z.log2 (Z.pos d)).
  destruct (Z.log2_spec n Hn) as [Ha1 Ha2]. fold a in Ha1, Ha2.
  destruct (Z.log2_spec (Z.pos d) eq_refl) as [Hb1 Hb2]. fold b in Hb1, Hb2.
  assert (Ha0 : (0 <= a)%Z) by apply Z.log2_nonneg.
  assert (Hb0 : (0 <= b)%Z) by apply Z.log2_nonneg.
  assert (Eq : n # d == inject_Z n / inject_Z (Z.pos d)) by apply Qmake_Qdiv.
  assert (Hd : 0 < inject_Z (Z.pos d)) by reflexivity.
  assert (HA1 : 2 ^ a <= inject_Z n).
  { rewrite <- pow2_inject by exact Ha0. rewrite <- Zle_Qle. exact Ha1. }
  assert (HA2 : inject_Z n < 2 * 2 ^ a).
  { rewrite <- pow2_succ. rewrite <- pow2_inject by lia.
    rewrite <- Zlt_Qlt. unfold Z.succ in Ha2. exact Ha2. }
  assert (HB1 : 2 ^ b <= inject_Z (Z.pos d)).
  { rewrite <- pow2_inject by exact Hb0. rewrite <- Zle_Qle. exact Hb1. }
  assert (HB2 : inject_Z (Z.pos d) < 2 * 2 ^ b).
  { rewrite <- pow2_succ. rewrite <- pow2_inject by lia.
    rewrite <- Zlt_Qlt. unfold Z.succ in Hb2. exact Hb2. }
  assert (Ea : 2 ^ a == 2 ^ (a - b) * 2 ^ b).
  { rewrite <- pow2_plus. replace (a - b + b)%Z with a by lia. reflexivity. }
  pose proof (pow2_pos a) as Pa. pose proof (pow2_pos b) as Pb.
  pose proof (pow2_pos (a - b)) as Pl.
  set (l := (a - b)%Z) in *.
  assert (Hup : n # d < 2 * 2 ^ l).
  { rewrite Eq. apply Qlt_shift_div_r; [exact Hd|]. nra. }
  assert (Hlo : 2 ^ l < 2 * (n # d)).
  { rewrite Eq. 
    assert (H0 : 2 ^ l * inject_Z (Z.pos d) < 2 * inject_Z n) by nra.
    assert (H1 : 2 ^ l * (1#2) < inject_Z n / inject_Z (Z.pos d)).
    { apply Qlt_shift_div_l; [exact Hd|].
      clear - H0. lra. }
    lra. }
  destruct (Qle_bool (2 ^ l) (n # d)) eqn:E.
  - apply Qle_bool_iff in E. split; [exact E|]. rewrite pow2_succ. exact Hup.
  - assert (Hlt : n # d < 2 ^ l).
    { apply Qnot_le_lt. intros C. apply Qle_bool_iff in C. congruence. }
    replace (l - 1 + 1)%Z with l by lia. split; [|exact Hlt].
    assert (E2 : 2 ^ l == 2 * 2 ^ (l - 1)).
    { rewrite <- pow2_succ. replace (l - 1 + 1)%Z with l by lia. reflexivity. }
    lra.
Qed.

Lemma ilog2_le (x y : Q) : 0 < x -> x <= y -> (ilog2 x <= ilog2 y)%Z.
Proof.
  intros Hx Hxy.
  destruct (ilog2_spec x Hx) as [H1 _].
  destruct (ilog2_spec y) as [_ H2]; [lra|].
  apply Z.lt_succ_r. unfold Z.succ.
  apply (Qpower_lt_compat_l_inv 2); [lra | reflexivity].
Qed.

Lemma ilog2_lower (x : Q) (e : Z) : 0 < x -> 2 ^ e <= x -> (e <= ilog2 x)%Z.
Proof.
  intros Hx He. destruct (ilog2_spec x Hx) as [_ H2].
  apply Z.lt_succ_r. unfold Z.succ.
  apply (Qpower_lt_compat_l_inv 2); [lra | reflexivity].
Qed.

Lemma div_pow2 (a b : Z) : 2 ^ a / 2 ^ b == 2 ^ (a - b).
Proof.
  pose proof (pow2_pos b) as Pb.
  assert (E : 2 ^ a == 2 ^ (a - b) * 2 ^ b).
  { rewrite <- pow2_plus. replace (a - b + b)%Z with a by lia. reflexivity. }
  rewrite E. field. lra.
Qed.

Lemma div_le_pow2 (x y : Q) (e : Z) : x <= y -> x / 2 ^ e <= y / 2 ^ e.
Proof.
  intros H. pose proof (pow2_pos e) as Pe.
  apply Qle_shift_div_l; [exact Pe|].
  assert (E : x / 2 ^ e * 2 ^ e == x) by (field; lra).
  rewrite E. exact H.
Qed.

Lemma exponent_le (x y : Q) : 0 < x -> x <= y -> (quantum x <= quantum y)%Z.
Proof.
  intros Hx Hxy. pose proof (ilog2_le x y Hx Hxy). unfold quantum. lia.
Qed.

Lemma binary64_pos_le (x y : Q) :
  0 < x -> x <= y -> binary64_pos x <= binary64_pos y.
Proof.
  intros Hx Hxy. assert (Hy : 0 < y) by lra.
  pose proof (exponent_le x y Hx Hxy) as He.
  unfold binary64_pos. cbv zeta.
  destruct (Z.eq_dec (quantum x) (quantum y)) as [E|NE].
  - rewrite E. pose proof (pow2_pos (quantum y)) as Pe.
    apply Qmult_le_compat_r; [|lra].
    rewrite <- Zle_Qle. apply round_half_even_le. now apply div_le_pow2.
  - assert (Hlt : (quantum x < quantum y)%Z) by lia. clear He NE.
    pose proof (ilog2_le x y Hx Hxy) as Hl.
    assert (Ey : quantum y = (ilog2 y - 52)%Z) by (unfold quantum in *; lia).
    assert (Hl' : (ilog2 x + 1 <= ilog2 y)%Z) by (unfold quantum in *; lia).
    destruct (ilog2_spec x Hx) as [_ Hx2].
    destruct (ilog2_spec y Hy) as [Hy1 _].
    set (B := 2 ^ ilog2 y) in *.
    assert (HxB : x <= B).
    { pose proof (pow2_le _ _ Hl'). fold B in H. lra. }
    apply Qle_trans with B.
    + set (ex := quantum x) in *.
      assert (Hk : (0 <= ilog2 y - ex)%Z) by lia.
      assert (EB : B == inject_Z (2 ^ (ilog2 y - ex)) * 2 ^ ex).
      { rewrite pow2_inject by exact Hk. rewrite <- pow2_plus.
        unfold B. replace (ilog2 y - ex + ex)%Z with (ilog2 y) by lia.
        reflexivity. }
      rewrite EB. pose proof (pow2_pos ex) as Pe.
      apply Qmult_le_compat_r; [|lra].
      rewrite <- Zle_Qle.
      rewrite <- (round_half_even_Z (2 ^ (ilog2 y - ex))).
      apply round_half_even_le.
      rewrite pow2_inject by exact Hk. rewrite <- div_pow2. fold B.
      now apply div_le_pow2.
    + rewrite Ey. set (ey := (ilog2 y - 52)%Z).
      assert (EB : B == inject_Z (2 ^ 52) * 2 ^ ey).
      { rewrite pow2_inject by lia. rewrite <- pow2_plus.
        unfold B, ey. replace (52 + (ilog2 y - 52))%Z with (ilog2 y) by lia.
        reflexivity. }
      rewrite EB. pose proof (pow2_pos ey) as Pe.
      apply Qmult_le_compat_r; [|lra].
      rewrite <- Zle_Qle.
      rewrite <- (round_half_even_Z (2 ^ 52)) at 1.
      apply round_half_even_le.
      rewrite pow2_inject by lia.
      assert (E52 : 2 ^ 52 == B / 2 ^ ey).
      { unfold B. rewrite div_pow2. unfold ey.
        replace (ilog2 y - (ilog2 y - 52))%Z with 52%Z by lia. reflexivity. }
      rewrite E52. now apply div_le_pow2.
Qed.

Lemma binary64_pos_nonneg (x : Q) : 0 < x -> 0 <= binary64_pos x.
Proof.
  intros Hx. unfold binary64_pos. cbv zeta.
  pose proof (pow2_pos (quantum x)) as Pe.
  apply Qmult_le_0_compat; [|lra].
  change 0 with (inject_Z 0). rewrite <- Zle_Qle.
  rewrite <- (round_half_even_Z 0). apply round_half_even_le.
  change (inject_Z 0) with 0.
  apply Qle_shift_div_l; [exact Pe | lra].
Qed.

Lemma binary64_pos_error (x : Q) :
  min_normal <= x ->
  x * (1 - unit_roundoff) <= binary64_pos x <= x * (1 + unit_roundoff).
Proof.
  intros Hx. pose proof (pow2_pos (-1022)) as Pm. fold min_normal in Pm.
  assert (Hx0 : 0 < x) by lra.
  destruct (ilog2_spec x Hx0) as [H1 H2].
  assert (Hl : (-1022 <= ilog2 x)%Z) by (now apply ilog2_lower).
  unfold binary64_pos. cbv zeta.
  assert (Ee : quantum x = (ilog2 x - 52)%Z) by (unfold quantum; lia).
  rewrite Ee. set (e := (ilog2 x - 52)%Z).
  pose proof (pow2_pos e) as Pe.
  pose proof (round_half_even_error (x / 2 ^ e)) as [E1 E2].
  set (m := inject_Z (round_half_even (x / 2 ^ e))) in *.
  assert (Ex : x == x / 2 ^ e * 2 ^ e) by (field; lra).
  set (t := x / 2 ^ e) in *.
  assert (Hu : 2 ^ e * (1 # 2) <= x * unit_roundoff).
  { assert (E : 2 ^ e * (1#2) == 2 ^ ilog2 x * unit_roundoff).
    { unfold unit_roundoff. rewrite <- pow2_plus.
      replace (ilog2 x + -53)%Z with (e + -1)%Z by (unfold e; lia).
      rewrite pow2_plus. change (2 ^ (-1)) with (1#2). reflexivity. }
    rewrite E. apply Qmult_le_compat_r; [exact H1|].
    apply Qlt_le_weak, pow2_pos. }
  clearbody m t. clear - Ex E1 E2 Hu Pe.
  generalize dependent (2 ^ e). intros p Pe Ex Hu.
  generalize dependent unit_roundoff. intros u Hu.
  split; nra.
Qed.

Lemma binary64_nonneg (x : Q) : 0 <= x -> 0 <= binary64 x.
Proof.
  intros Hx. unfold binary64.
  destruct (Qcompare_spec x 0) as [E|E|E]; [lra | lra | now apply binary64_pos_nonneg].
Qed.

Lemma binary64_le (x y : Q) : 0 <= x -> x <= y -> binary64 x <= binary64 y.
Proof.
  intros Hx Hxy. unfold binary64 at 1.
  destruct (Qcompare_spec x 0) as [E|E|E]; [|lra|].
  - apply binary64_nonneg. lra.
  - unfold binary64. destruct (Qcompare_spec y 0) as [E'|E'|E']; [lra|lra|].
    now apply binary64_pos_le.
Qed.

Lemma binary64_comp (x y : Q) : 0 <= x -> x == y -> binary64 x == binary64 y.
Proof.
  intros Hx E. apply Qle_antisym; apply binary64_le; lra.
Qed.

Lemma binary64_error (x : Q) :
  x == 0 \/ min_normal <= x ->
  x * (1 - unit_roundoff) <= binary64 x <= x * (1 + unit_roundoff).
Proof.
  intros [E|H].
  - unfold binary64. generalize unit_roundoff. intros u.
    destruct (Qcompare_spec x 0) as [E'|E'|E']; [|lra|lra].
    rewrite E. split; ring_simplify; lra.
  - pose proof (pow2_pos (-1022)) as Pm. fold min_normal in Pm.
    unfold binary64. destruct (Qcompare_spec x 0) as [E'|E'|E']; [lra|lra|].
    now apply binary64_pos_error.
Qed.

Lemma unit_roundoff_bounds : 0 < unit_roundoff /\ unit_roundoff <= 1 # 2.
Proof. split; [apply pow2_pos | vm_compute; discriminate]. Qed.

Lemma rounding_factors :
  0 < lo_factor /\ lo_factor <= 1 /\ 1 <= hi_factor
  /\ lo_factor * hi_factor == 1 /\ 1 + unit_roundoff <= hi_factor.
Proof.
  destruct unit_roundoff_bounds as [U0 U1].
  unfold lo_factor, hi_factor. generalize dependent unit_roundoff. intros u U0 U1.
  assert (Ha : 0 < 1 - u) by lra.
  assert (E : (1 - u) * / (1 - u) == 1) by (field; lra).
  assert (P : 0 < / (1 - u)) by (now apply Qinv_lt_0_compat).
  generalize dependent (/ (1 - u)). intros g E P.
  repeat split; try lra; nra.
Qed.

Lemma rounding_error (x : Q) :
  x == 0 \/ min_normal <= x ->
  x * lo_factor <= binary64 x <= x * hi_factor.
Proof.
  intros H. destruct (binary64_error x H) as [H1 H2].
  destruct rounding_factors as (_ & _ & _ & _ & Hg).
  assert (Hx : 0 <= x).
  { destruct H as [E|H]; [lra|].
    pose proof (pow2_pos (-1022)) as Pm. fold min_normal in Pm. lra. }
  fold lo_factor in H1. split; [exact H1|].
  generalize dependent hi_factor. generalize dependent unit_roundoff.
  intros. nra.
Qed.

Lemma qpow_pos (x : Q) (n : nat) : 0 < x -> 0 < qpow x n.
Proof. intros H. induction n; simpl; [reflexivity | nra]. Qed.

Lemma qpow_le_1 (x : Q) (n : nat) : 0 < x -> x <= 1 -> qpow x n <= 1.
Proof.
  intros H0 H1. induction n; simpl; [lra|].
  pose proof (qpow_pos x n H0). nra.
Qed.

Lemma qpow_ge_1 (x : Q) (n : nat) : 1 <= x -> 1 <= qpow x n.
Proof. intros H1. induction n; simpl; [lra | nra]. Qed.

Lemma qpow_inverse (x y : Q) (n : nat) : x * y == 1 -> qpow x n * qpow y n == 1.
Proof.
  intros E. induction n; simpl; [reflexivity|].
  transitivity ((x * y) * (qpow x n * qpow y n)); [ring|].
  rewrite E, IHn. reflexivity.
Qed.

Lemma qpow_plus (x : Q) (n m : nat) : qpow x (n + m) == qpow x n * qpow x m.
Proof. induction n; simpl; [ring | rewrite IHn; ring]. Qed.

Lemma qpow_bernoulli (u : Q) (n : nat) :
  0 <= u -> u <= 1 -> 1 - inject_Z (Z.of_nat n) * u <= qpow (1 - u) n.
Proof.
  intros U0 U1. induction n.
  - simpl. change (inject_Z 0) with 0. lra.
  - rewrite Nat2Z.inj_succ. unfold Z.succ. rewrite inject_Z_plus.
    change (inject_Z 1) with 1. cbn [qpow].
    assert (Hk : 0 <= inject_Z (Z.of_nat n)).
    { change 0 with (inject_Z 0). rewrite <- Zle_Qle. lia. }
    generalize dependent (inject_Z (Z.of_nat n)). intros k IH Hk.
    generalize dependent (qpow (1 - u) n). intros p IH. nra.
Qed.

Lemma lo_factor_pow_half (n : nat) :
  (n <= 4096)%nat -> 1 # 2 <= qpow lo_factor n.
Proof.
  intros Hn. destruct unit_roundoff_bounds as [U0 U1].
  eapply Qle_trans; [|apply qpow_bernoulli; lra].
  assert (Hk : inject_Z (Z.of_nat n) <= 4096).
  { change 4096 with (inject_Z 4096). rewrite <- Zle_Qle. lia. }
  assert (Hk0 : 0 <= inject_Z (Z.of_nat n)).
  { change 0 with (inject_Z 0). rewrite <- Zle_Qle. lia. }
  assert (Hu : 4096 * unit_roundoff <= 1 # 2) by (vm_compute; discriminate).
  generalize dependent unit_roundoff. generalize dependent (inject_Z (Z.of_nat n)).
  intros. nra.
Qed.

Lemma floors_normal :
  0 < min_normal /\ min_normal <= score_floor * weight_floor * (1 # 2)
  /\ 0 < score_floor /\ 0 < weight_floor /\ score_floor <= 1.
Proof.
  repeat split; try apply pow2_pos; vm_compute; discriminate.
Qed.

Lemma product_floor (m sf wf c x y : Q) :
  0 < m -> m <= sf * wf * (1 # 2) -> 0 < sf -> 0 < wf ->
  sf <= c -> wf <= x -> (1 # 2) <= y -> m <= c * x * y.
Proof.
  intros M0 M1 S0 W0 Hc Hx Hy.
  assert (H1 : sf * wf <= c * x) by nra.
  assert (H2 : 0 < sf * wf) by nra.
  nra.
Qed.

Lemma normal_or_zero (c x y : Q) :
  c == 0 \/ score_floor <= c ->
  weight_floor <= x -> (1 # 2) <= y ->
  c * x * y == 0 \/ min_normal <= c * x * y.
Proof.
  intros [E|H] Hx Hy.
  - left. rewrite E. ring.
  - right. destruct floors_normal as (M0 & M1 & S0 & W0 & _).
    exact (product_floor _ _ _ _ _ _ M0 M1 S0 W0 H Hx Hy).
Qed.

Lemma rounding_below (c x y z : Q) :
  c == 0 \/ score_floor <= c -> 0 <= c ->
  weight_floor <= x -> (1 # 2) <= y ->
  c * x * y <= z ->
  c * x * y * lo_factor <= binary64 z.
Proof.
  intros Hc Hc0 Hx Hy Hz.
  destruct floors_normal as (_ & _ & _ & W0 & _).
  apply Qle_trans with (binary64 (c * x * y)).
  - apply rounding_error. now apply normal_or_zero.
  - apply binary64_le; [|exact Hz].
    assert (0 <= c * x) by nra. nra.
Qed.

Lemma rounding_above (c x y z : Q) :
  c == 0 \/ score_floor <= c -> 0 <= c ->
  weight_floor <= x -> (1 # 2) <= y ->
  0 <= z -> z <= c * x * y ->
  binary64 z <= c * x * y * hi_factor.
Proof.
  intros Hc Hc0 Hx Hy Hz0 Hz.
  apply Qle_trans with (binary64 (c * x * y)).
  - apply binary64_le; assumption.
  - apply rounding_error. now apply normal_or_zero.
Qed.

Lemma weight_floor_le_1 : weight_floor <= 1.
Proof. vm_compute. discriminate. Qed.

Lemma accumulate_invariant (lo hi : Q) (k : nat) (W : Q) (st sw : Q * Q) :
  bounds_ok lo hi -> (S k <= 4096)%nat ->
  invariant lo hi k W st -> good_pair lo hi sw ->
  invariant lo hi (S k) (W + snd sw) (accumulate st sw).
Proof.
  intros (L0 & Llh & H1 & Lz & Hz) Hk (W0 & T1 & T2 & S1 & S2 & S0 & ST)
         (Ps1 & Ps2 & Pd & Pw1 & Pw2).
  destruct st as [ws tw], sw as [s w]. cbn [fst snd] in *.
  destruct rounding_factors as (A0 & A1 & G1 & AG & _).
  destruct floors_normal as (M0 & M1 & SF0 & WF0 & SF1).
  pose proof (@lo_factor_pow_half k ltac:(lia)) as Ph.
  pose proof (@lo_factor_pow_half (S k) ltac:(lia)) as Ph'.
  pose proof (qpow_le_1 lo_factor k A0 A1) as P1.
  pose proof (qpow_ge_1 hi_factor k G1) as Q1.
  pose proof weight_floor_le_1 as WF1.
  unfold accumulate, fmul, fadd. cbn [fst snd qpow] in *.
  set (P := qpow lo_factor k) in *. set (G := qpow hi_factor k) in *.
  set (p := binary64 (s * w)).
  assert (Hw0 : 0 < w) by lra.
  assert (Hh0 : 0 <= hi) by lra.
  (* the product *)
  assert (F1 : lo * w * 1 * lo_factor <= p).
  { apply rounding_below; try assumption; try lra. nra. }
  assert (F2 : p <= hi * w * 1 * hi_factor).
  { apply rounding_above; try assumption; try lra; nra. }
  assert (F3 : p <= w).
  { apply Qle_trans with (binary64 w); [apply binary64_le; nra|].
    unfold is_double in Pd. apply Qle_lteq. right. exact Pd. }
  assert (F4 : 0 <= p) by (apply binary64_nonneg; nra).
  (* the total weight *)
  assert (Tn : (tw + w) * lo_factor <= binary64 (tw + w)
               /\ binary64 (tw + w) <= (tw + w) * hi_factor).
  { apply rounding_error. right. assert (0 <= tw) by nra.
    generalize dependent min_normal. generalize dependent weight_floor.
    generalize dependent score_floor. intros. nra. }
  destruct Tn as [Tn1 Tn2].
  assert (S1' : lo * (W + w) * (lo_factor * P) * lo_factor <= binary64 (ws + p)).
  { apply rounding_below; try assumption; try lra.
    assert (E0 : 0 <= lo * w * lo_factor).
    { apply Qmult_le_0_compat; [apply Qmult_le_0_compat|]; lra. }
    assert (E1 : lo * w * lo_factor * P <= lo * w * lo_factor).
    { clear - E0 P1. generalize dependent (lo * w * lo_factor). intros. nra. }
    clear - S1 F1 E1. lra. }
  assert (S2' : binary64 (ws + p) <= hi * (W + w) * (hi_factor * G) * hi_factor).
  { apply rounding_above; try assumption; try lra.
    - clear - G1 Q1. nra.
    - assert (E0 : 0 <= hi * w * hi_factor).
      { apply Qmult_le_0_compat; [apply Qmult_le_0_compat|]; lra. }
      assert (E1 : hi * w * hi_factor <= hi * w * hi_factor * G).
      { clear - E0 Q1. generalize dependent (hi * w * hi_factor). intros. nra. }
      clear - S2 F2 E1. lra. }
  unfold invariant. cbn [fst snd qpow]. fold P G.
  split; [lra|]. split; [|split; [|split; [|split; [|split]]]].
  - assert (E0 : (W + w) * P <= tw + w) by (clear - T1 P1 Hw0; nra).
    assert (E1 : (W + w) * P * lo_factor <= (tw + w) * lo_factor).
    { apply Qmult_le_compat_r; lra. }
    clear - Tn1 E1. lra.
  - assert (E0 : tw + w <= (W + w) * G) by (clear - T2 Q1 Hw0; nra).
    assert (E1 : (tw + w) * hi_factor <= (W + w) * G * hi_factor).
    { apply Qmult_le_compat_r; lra. }
    clear - Tn2 E1. lra.
  - clear - S1'. nra.
  - clear - S2'. nra.
  - apply binary64_nonneg. lra.
  - apply binary64_le; lra.
Qed.

Lemma fold_accumulate_invariant (lo hi : Q) (pairs : list (Q * Q)) :
  bounds_ok lo hi ->
  Forall (good_pair lo hi) pairs ->
  forall (k : nat) (W : Q) (st : Q * Q),
    (k + length pairs <= 4096)%nat ->
    invariant lo hi k W st ->
    exists W',
      W <= W'
      /\ (pairs <> [] -> W + weight_floor <= W')
      /\ invariant lo hi (k + length pairs) W' (fold_left accumulate pairs st).
Proof.
  intros Hb. induction 1 as [|sw pairs Hsw _ IH]; intros k W st Hk Hinv.
  - exists W. split; [lra|]. split; [congruence|].
    cbn. rewrite Nat.add_0_r. exact Hinv.
  - cbn [fold_left length] in *.
    assert (Hstep : invariant lo hi (S k) (W + snd sw) (accumulate st sw)).
    { apply accumulate_invariant; try assumption. lia. }
    destruct (IH (S k) (W + snd sw) (accumulate st sw) ltac:(lia) Hstep)
      as (W' & HW & _ & Hinv').
    destruct Hsw as (_ & _ & _ & Hw & _).
    destruct floors_normal as (_ & _ & _ & WF0 & _).
    exists W'. replace (k + S (length pairs))%nat with (S k + length pairs)%nat by lia.
    split; [lra|]. split; [intros _; lra | exact Hinv'].
Qed.

Lemma binary64_1 : binary64 1 == 1.
Proof. vm_compute. reflexivity. Qed.

Lemma tolerance_facts (n : nat) :
  (n <= 2002)%nat ->
  1 - tolerance <= qpow lo_factor n /\ qpow hi_factor n <= 1 + tolerance.
Proof.
  intros Hn. destruct unit_roundoff_bounds as [U0 U1].
  destruct rounding_factors as (A0 & A1 & G1 & AG & _).
  pose proof (qpow_bernoulli unit_roundoff n ltac:(lra) ltac:(lra)) as HB.
  fold lo_factor in HB.
  pose proof (qpow_inverse lo_factor hi_factor n AG) as Hinv.
  pose proof (qpow_pos lo_factor n A0) as Pp.
  assert (Hk : inject_Z (Z.of_nat n) <= 2002).
  { change 2002 with (inject_Z 2002). rewrite <- Zle_Qle. lia. }
  assert (Hk0 : 0 <= inject_Z (Z.of_nat n)).
  { change 0 with (inject_Z 0). rewrite <- Zle_Qle. lia. }
  assert (Hd : 2002 * unit_roundoff <= tolerance * (1 # 2)) by (vm_compute; discriminate).
  assert (Ht : 0 < tolerance /\ tolerance <= 1 # 2).
  { split; [apply pow2_pos | vm_compute; discriminate]. }
  destruct Ht as [Ht0 Ht1].
  set (d := inject_Z (Z.of_nat n) * unit_roundoff) in *.
  assert (Hd' : d <= tolerance * (1 # 2)).
  { unfold d. clear - Hk Hk0 U0 Hd. generalize dependent unit_roundoff.
    generalize dependent tolerance. intros. nra. }
  assert (Hd0 : 0 <= d) by (unfold d; clear - Hk0 U0; nra).
  clearbody d. clear Hd Hk Hk0 U0 U1.
  generalize dependent tolerance. intros e. intros.
  generalize dependent (qpow lo_factor n). intros p. intros.
  generalize dependent (qpow hi_factor n). intros g. intros.
  split; [lra|].
  assert (H1 : 1 <= (1 + e) * p) by nra.
  assert (G0 : 0 < g).
  { destruct (Qlt_le_dec 0 g) as [G|G]; [exact G|]. exfalso. nra. }
  assert (H2 : g * 1 <= g * ((1 + e) * p)).
  { apply Qmult_le_l; [exact G0 | exact H1]. }
  assert (H3 : g * ((1 + e) * p) == (1 + e)).
  { transitivity ((1 + e) * (p * g)); [ring|]. rewrite Hinv. ring. }
  rewrite H3 in H2. lra.
Qed.

Lemma mult_le_l (z x y : Q) : 0 <= z -> x <= y -> z * x <= z * y.
Proof. intros Hz Hxy. rewrite !(Qmult_comm z). now apply Qmult_le_compat_r. Qed.

Lemma initial_invariant (lo hi : Q) : invariant lo hi 0 0 (0, 0).
Proof.
  unfold invariant. cbn [fst snd qpow].
  repeat split; try lra; ring_simplify; lra.
Qed.

Lemma composite_bounds (lo hi : Q) (pairs : list (Q * Q)) :
  bounds_ok lo hi ->
  Forall (good_pair lo hi) pairs ->
  pairs <> [] -> (length pairs <= 1000)%nat ->
  0 <= composite_of (fold_left accumulate pairs (0, 0)) /\ composite_of (fold_left accumulate pairs (0, 0)) <= 1
  /\ lo * (1 - tolerance) <= composite_of (fold_left accumulate pairs (0, 0))
  /\ composite_of (fold_left accumulate pairs (0, 0)) <= hi * (1 + tolerance).
Proof.
  intros Hb Hgood Hne Hlen.
  destruct (fold_accumulate_invariant lo hi pairs Hb Hgood 0%nat 0 (0, 0)
              ltac:(cbn; lia) (initial_invariant lo hi))
    as (W & _ & HW & Hinv).
  specialize (HW Hne). cbn [Nat.add] in Hinv.
  set (n := length pairs) in *.
  destruct (fold_left accumulate pairs (0, 0)) as [ws tw].
  destruct Hinv as (_ & T1 & T2 & S1 & S2 & S0 & ST). cbn [fst snd] in *.
  destruct Hb as (L0 & Llh & H1 & Lz & Hz).
  destruct rounding_factors as (A0 & A1 & G1 & AG & _).
  destruct floors_normal as (_ & _ & _ & WF0 & _).
  pose proof weight_floor_le_1 as WF1.
  pose proof (qpow_pos lo_factor n A0) as Pn.
  assert (HW0 : 0 < W) by lra.
  assert (Htw : 0 < tw).
  { apply Qlt_le_trans with (W * qpow lo_factor n); [|exact T1].
    apply Qmult_lt_0_compat; assumption. }
  unfold composite_of, Qgt_bool. cbn [fst snd].
  destruct (Qle_bool tw 0) eqn:E; [apply Qle_bool_iff in E; lra|]. clear E.
  cbn [negb].
  unfold fdiv.
  assert (Hq0 : 0 <= ws / tw) by (apply Qle_shift_div_l; lra).
  assert (Hq1 : ws / tw <= 1) by (apply Qle_shift_div_r; lra).
  pose proof (qpow_inverse lo_factor hi_factor n AG) as Inv.
  pose proof (qpow_ge_1 hi_factor n G1) as Gn.
  pose proof (qpow_le_1 lo_factor n A0 A1) as Pn1.
  destruct (tolerance_facts (S n + S n) ltac:(lia)) as [Tl Th].
  assert (Hh0 : 0 <= hi) by lra.
  split; [now apply binary64_nonneg|].
  split; [rewrite <- binary64_1; now apply binary64_le|].
  split.
  - apply Qle_trans with (lo * 1 * qpow lo_factor (S n + n) * lo_factor).
    + assert (E : lo * 1 * qpow lo_factor (S n + n) * lo_factor
                  == lo * qpow lo_factor (S n + S n)).
      { rewrite !qpow_plus. cbn [qpow]. ring. }
      rewrite E. clear - Tl L0. generalize dependent (qpow lo_factor (S n + S n)).
      generalize dependent tolerance. intros. nra.
    + apply rounding_below; try assumption.
      * apply lo_factor_pow_half. lia.
      * apply Qle_shift_div_l; [exact Htw|].
        rewrite qpow_plus.
        set (P1 := qpow lo_factor (S n)) in *.
        set (P := qpow lo_factor n) in *. set (G := qpow hi_factor n) in *.
        assert (P0 : 0 < P1) by (apply qpow_pos; exact A0).
        assert (E1 : lo * 1 * (P1 * P) * tw <= lo * 1 * (P1 * P) * (W * G)).
        { apply mult_le_l; [|exact T2].
          apply Qmult_le_0_compat; [lra|]. apply Qmult_le_0_compat; lra. }
        assert (E2 : lo * 1 * (P1 * P) * (W * G) == lo * W * P1).
        { transitivity (lo * W * P1 * (P * G)); [ring|]. rewrite Inv. ring. }
        rewrite E2 in E1. lra.
  - apply Qle_trans with (hi * 1 * qpow hi_factor (S n + n) * hi_factor).
    + apply rounding_above; try assumption.
      * pose proof (qpow_ge_1 hi_factor (S n + n) G1). lra.
      * apply Qle_shift_div_r; [exact Htw|].
        rewrite qpow_plus.
        set (G1' := qpow hi_factor (S n)) in *.
        set (P := qpow lo_factor n) in *. set (G := qpow hi_factor n) in *.
        assert (G0 : 1 <= G1') by (apply qpow_ge_1; exact G1).
        assert (E1 : hi * 1 * (G1' * G) * (W * P) <= hi * 1 * (G1' * G) * tw).
        { apply mult_le_l; [|exact T1].
          apply Qmult_le_0_compat; [lra|]. apply Qmult_le_0_compat; lra. }
        assert (E2 : hi * 1 * (G1' * G) * (W * P) == hi * W * G1').
        { transitivity (hi * W * G1' * (P * G)); [ring|]. rewrite Inv. ring. }
        rewrite E2 in E1. lra.
    + assert (E : hi * 1 * qpow hi_factor (S n + n) * hi_factor
                  == hi * qpow hi_factor (S n + S n)).
      { rewrite !qpow_plus. cbn [qpow]. ring. }
      rewrite E. clear - Th Hh0. generalize dependent (qpow hi_factor (S n + S n)).
      generalize dependent tolerance. intros. nra.
Qed.

Lemma round_half_even_comp (x y : Q) :
  x == y -> round_half_even x = round_half_even y.
Proof.
  intros E. apply Z.le_antisymm; apply round_half_even_le; lra.
Qed.

Lemma binary64_pos_grid (m k : Z) (y : Q) :
  y == inject_Z m * 2 ^ k -> (quantum y <= k)%Z -> binary64_pos y == y.
Proof.
  intros Ey He. unfold binary64_pos. cbv zeta.
  set (e := quantum y) in *.
  pose proof (pow2_pos e) as Pe.
  assert (Ek : 2 ^ k == 2 ^ (k - e) * 2 ^ e).
  { rewrite <- pow2_plus. replace (k - e + e)%Z with k by lia. reflexivity. }
  assert (Eq : y / 2 ^ e == inject_Z (m * 2 ^ (k - e))).
  { rewrite inject_Z_mult, pow2_inject by lia. rewrite Ey, Ek. field. lra. }
  rewrite (round_half_even_comp _ _ Eq), round_half_even_Z.
  rewrite inject_Z_mult, pow2_inject by lia. rewrite Ey, Ek. ring.
Qed.

Lemma ilog2_upper (y : Q) (k : Z) : 0 < y -> y < 2 ^ k -> (ilog2 y < k)%Z.
Proof.
  intros Hy H. destruct (ilog2_spec y Hy) as [H1 _].
  apply (Qpower_lt_compat_l_inv 2); [lra | reflexivity].
Qed.

Lemma binary64_pos_idempotent (x : Q) :
  0 < x ->
  binary64_pos x == 0
  \/ 0 < binary64_pos x /\ binary64_pos (binary64_pos x) == binary64_pos x.
Proof.
  intros Hx.
  pose proof (binary64_pos_nonneg x Hx) as Hy0.
  destruct (Qle_lt_or_eq _ _ Hy0) as [Hy|Hy]; [right|left; symmetry; exact Hy].
  split; [exact Hy|].
  revert Hy0 Hy. unfold binary64_pos at 1 2 3 5. cbv zeta.
  set (e := quantum x). set (m := round_half_even (x / 2 ^ e)).
  intros Hy0 Hy.
  set (y := inject_Z m * 2 ^ e) in *.
  pose proof (pow2_pos e) as Pe.
  destruct (ilog2_spec x Hx) as [_ Hx2].
  assert (He : (-1074 <= e)%Z /\ (ilog2 x - 52 <= e)%Z) by (unfold e, quantum; lia).
  destruct He as [He1 He2].
  assert (Hm53 : (m <= 2 ^ 53)%Z).
  { unfold m. rewrite <- (round_half_even_Z (2 ^ 53)).
    apply round_half_even_le. rewrite pow2_inject by lia.
    apply Qle_shift_div_r; [exact Pe|]. rewrite <- pow2_plus.
    pose proof (pow2_le (ilog2 x + 1) (53 + e) ltac:(lia)). lra. }
  assert (Hm0 : (0 < m)%Z).
  { destruct (Z_lt_le_dec 0 m) as [H|H]; [exact H|]. exfalso.
    assert (inject_Z m <= 0) by (change 0 with (inject_Z 0); now rewrite <- Zle_Qle).
    unfold y in Hy. nra. }
  destruct (Z.eq_dec m (2 ^ 53)) as [E|NE].
  - assert (Ey : y == inject_Z (2 ^ 52) * 2 ^ (e + 1)).
    { unfold y. rewrite E. rewrite !pow2_inject by lia.
      rewrite <- !pow2_plus. replace (53 + e)%Z with (52 + (e + 1))%Z by lia.
      reflexivity. }
    apply (binary64_pos_grid (2 ^ 52) (e + 1)); [exact Ey|].
    assert (Ey' : y == 2 ^ (e + 53)).
    { rewrite Ey, pow2_inject by lia. rewrite <- pow2_plus.
      replace (52 + (e + 1))%Z with (e + 53)%Z by lia. reflexivity. }
    assert (Hl : (ilog2 y < e + 54)%Z).
    { apply ilog2_upper; [exact Hy|]. rewrite Ey'. apply pow2_lt. lia. }
    unfold quantum. lia.
  - apply (binary64_pos_grid m e); [reflexivity|].
    assert (Hl : (ilog2 y < e + 53)%Z).
    { apply ilog2_upper; [exact Hy|]. unfold y.
      rewrite (Z.add_comm e 53), pow2_plus.
      apply Qmult_lt_r; [exact Pe|]. rewrite <- pow2_inject by lia.
      rewrite <- Zlt_Qlt. lia. }
    unfold quantum. lia.
Qed.

Lemma binary64_zero (x : Q) : x == 0 -> binary64 x = 0.
Proof.
  intros E. unfold binary64. destruct (Qcompare_spec x 0); [reflexivity|lra|lra].
Qed.

Lemma binary64_positive (x : Q) : 0 < x -> binary64 x = binary64_pos x.
Proof.
  intros E. unfold binary64. destruct (Qcompare_spec x 0); [lra|lra|reflexivity].
Qed.

Lemma binary64_idempotent (x : Q) : 0 <= x -> is_double (binary64 x).
Proof.
  intros Hx. unfold is_double.
  destruct (Qle_lt_or_eq _ _ Hx) as [E|E].
  - rewrite (binary64_positive x E).
    destruct (binary64_pos_idempotent x E) as [H|[H1 H2]].
    + rewrite (binary64_zero _ H). symmetry. exact H.
    + rewrite (binary64_positive _ H1). exact H2.
  - assert (E' : x == 0) by (symmetry; exact E).
    rewrite (binary64_zero x E'). reflexivity.
Qed.
Lemma multiple_is_double (m k : Z) :
  (0 < m < 2 ^ 53)%Z -> (-1074 <= k)%Z -> is_double (inject_Z m * 2 ^ k).
Proof.
  intros [Hm0 Hm] Hk. unfold is_double.
  pose proof (pow2_pos k) as Pk.
  assert (Hi : 0 < inject_Z m) by (change 0 with (inject_Z 0); now rewrite <- Zlt_Qlt).
  assert (Hy : 0 < inject_Z m * 2 ^ k) by (apply Qmult_lt_0_compat; assumption).
  rewrite (binary64_positive _ Hy).
  apply (binary64_pos_grid m k); [reflexivity|].
  assert (Hl : (ilog2 (inject_Z m * 2 ^ k) < 53 + k)%Z).
  { apply ilog2_upper; [exact Hy|]. rewrite pow2_plus.
    apply Qmult_lt_r; [exact Pk|]. rewrite <- pow2_inject by lia.
    now rewrite <- Zlt_Qlt. }
  unfold quantum. lia.
Qed.

(** The total weight never leaves the range of finite doubles. *)
Lemma total_weight_finite (pairs : list (Q * Q)) :
  Forall (fun sw : Q * Q => 0 <= snd sw /\ snd sw <= weight_ceiling) pairs ->
  forall (k : nat) (st : Q * Q),
    (k + length pairs <= 1000)%nat ->
    0 <= snd st -> snd st <= inject_Z (Z.of_nat k) * weight_ceiling ->
    0 <= snd (fold_left accumulate pairs st)
    /\ snd (fold_left accumulate pairs st)
       <= inject_Z (Z.of_nat (k + length pairs)) * weight_ceiling.
Proof.
  induction 1 as [|sw pairs [Hw0 Hw] _ IH]; intros k st Hk H0 H1.
  - cbn. rewrite Nat.add_0_r. split; assumption.
  - cbn [fold_left length] in *.
    replace (k + S (length pairs))%nat with (S k + length pairs)%nat by lia.
    apply IH; [lia | |].
    + unfold accumulate, fadd. cbn [snd]. apply binary64_nonneg. lra.
    + unfold accumulate, fadd. cbn [snd].
      assert (Hd : is_double (inject_Z (Z.of_nat (S k)) * weight_ceiling)).
      { apply multiple_is_double; [|lia].
        assert ((2 ^ 53 = 9007199254740992)%Z) by reflexivity. lia. }
      unfold is_double in Hd.
      apply Qle_trans with (binary64 (inject_Z (Z.of_nat (S k)) * weight_ceiling)).
      * apply binary64_le; [lra|].
        rewrite Nat2Z.inj_succ. unfold Z.succ. rewrite inject_Z_plus.
        change (inject_Z 1) with 1.
        generalize dependent weight_ceiling. intros c. intros.
        generalize dependent (inject_Z (Z.of_nat k)). intros. lra.
      * apply Qle_lteq. right. exact Hd.
Qed.


End Binary64Facts.

(* ================================================================== *)
(** ** The loop in double precision *)

Lemma Qlist_min_In (l : list Q) : l <> [] -> In (Qlist_min l) l.
Proof.
  induction l as [|x l IH]; [congruence|]. intros _.
  destruct l as [|y l]; [now left|].
  change (In (Qmin x (Qlist_min (y :: l))) (x :: y :: l)).
  specialize (IH ltac:(discriminate)).
  unfold Qmin, GenericMinMax.gmin.
  destruct (Qcompare x (Qlist_min (y :: l))); [now left | now left | now right].
Qed.

Lemma Qlist_max_In (l : list Q) : l <> [] -> In (Qlist_max l) l.
Proof.
  induction l as [|x l IH]; [congruence|]. intros _.
  destruct l as [|y l]; [now left|].
  change (In (Qmax x (Qlist_max (y :: l))) (x :: y :: l)).
  specialize (IH ltac:(discriminate)).
  unfold Qmax, GenericMinMax.gmax.
  destruct (Qcompare x (Qlist_max (y :: l))); [now left | now right | now left].
Qed.

Lemma successful_scores_app (l l' : dict ModelEntry) :
  successful_scores (l ++ l') = successful_scores l ++ successful_scores l'.
Proof. unfold successful_scores. apply flat_map_app. Qed.

Section DoubleLoop.
Import Double.
Variable self : EngagementConcordanceScore.
Variable w : world.
Variable tid : string.

(** What one pass of the loop body does to the accumulators. *)
Lemma run_model_step (name : string) (s : state) :
  exists entry,
    model_results (run_model self w tid name s)
    = dict_set (model_results s) name entry
    /\ ((exists q literal,
            successful_scores [(name, entry)] = [q]
            /\ in_unit_interval q = true
            /\ In (name, literal) (weights self)
            /\ (weighted_sum (run_model self w tid name s),
                total_weight (run_model self w tid name s))
               = accumulate (weighted_sum s, total_weight s)
                   (q, binary64 literal))
        \/ (successful_scores [(name, entry)] = []
            /\ weighted_sum (run_model self w tid name s) = weighted_sum s
            /\ total_weight (run_model self w tid name s) = total_weight s)).
Proof.
  unfold run_model, try_model.
  destruct (getitem (analysis_methods self) name) as [method_name|e]; cbn;
    [|eexists; split; [reflexivity|]; right; auto].
  destruct (if String.eqb method_name "simple_score"
            then run_simple_score self w tid name
            else zero_result self name) as [mr|e]; cbn;
    [|eexists; split; [reflexivity|]; right; auto].
  destruct (getitem (score_keys self) name) as [k|e]; cbn;
    [|eexists; split; [reflexivity|]; right; auto].
  destruct (dict_get mr k) as [q|]; cbn;
    [|eexists; split; [reflexivity|]; right; auto].
  destruct (in_unit_interval q) eqn:Hq; cbn;
    [|eexists; split; [reflexivity|]; right; auto].
  unfold getitem.
  destruct (dict_get (weights self) name) as [literal|] eqn:Hw; cbn;
    [|eexists; split; [reflexivity|]; right; auto].
  eexists. split; [reflexivity|]. left. exists q, literal.
  split; [reflexivity|]. split; [exact Hq|].
  split; [now apply dict_get_In|]. reflexivity.
Qed.

(** The loop adds up the successful models in order, and only them. *)
Lemma run_models_spec (items : dict model_info) : forall s : state,
  NoDup (keys items) ->
  (forall n, In n (keys (model_results s)) -> ~ In n (keys items)) ->
  exists pairs : list (Q * Q),
    successful_scores (model_results (run_models self w tid items s))
    = successful_scores (model_results s) ++ map fst pairs
    /\ (weighted_sum (run_models self w tid items s),
        total_weight (run_models self w tid items s))
       = fold_left accumulate pairs (weighted_sum s, total_weight s)
    /\ Forall (fun sw : Q * Q =>
                 in_unit_interval (fst sw) = true
                 /\ exists n literal,
                      In (n, literal) (weights self)
                      /\ snd sw = binary64 literal)
         pairs
    /\ (length pairs <= length items)%nat.
Proof.
  induction items as [|[name info] items IH]; intros s Hnd Hfresh.
  - exists []. cbn. rewrite app_nil_r. auto.
  - cbn [run_models]. cbn [keys map fst] in Hnd. inversion Hnd as [|? ? Hname Hnd']; subst.
    destruct (loaded info); cbn [negb].
    + destruct (run_model_step name s) as (entry & Hres & Hsums).
      assert (Hnew : ~ In name (keys (model_results s))).
      { intros HIn. apply (Hfresh name HIn). now left. }
      rewrite dict_set_fresh in Hres by exact Hnew.
      destruct (IH (run_model self w tid name s) Hnd') as (pairs & Hsc & Hacc & Hall & Hlen).
      { intros n. rewrite Hres. unfold keys. rewrite map_app, in_app_iff.
        cbn. intros [HIn|[<-|[]]]; [|exact Hname].
        intros Hn. apply (Hfresh n HIn). now right. }
      rewrite Hres, successful_scores_app in Hsc.
      destruct Hsums as [(q & literal & Hq & Hunit & Hw & Hstep)|(Hq & Hws & Htw)].
      * exists ((q, binary64 literal) :: pairs).
        rewrite Hsc, Hq, <- app_assoc. split; [reflexivity|].
        cbn [fold_left]. rewrite <- Hstep. split; [exact Hacc|].
        split; [|cbn; lia].
        constructor; [|exact Hall]. split; [exact Hunit|]. eauto.
      * exists pairs. rewrite Hsc, Hq, app_nil_r. split; [reflexivity|].
        rewrite <- Hws, <- Htw. split; [exact Hacc|].
        split; [exact Hall | cbn; lia].
    + destruct (IH s Hnd') as (pairs & Hsc & Hacc & Hall & Hlen).
      { intros n HIn Hn. apply (Hfresh n HIn). now right. }
      exists pairs. repeat split; try assumption. cbn. lia.
Qed.

End DoubleLoop.

Lemma binary64_weight_floor :
  (Double.binary64 Double.weight_floor == Double.weight_floor)%Q.
Proof. vm_compute. reflexivity. Qed.

Lemma binary64_weight_ceiling :
  (Double.binary64 Double.weight_ceiling == Double.weight_ceiling)%Q.
Proof. vm_compute. reflexivity. Qed.

(** C4.  With at most a thousand models and weights between 2^-64 and
    2^64, the composite score the loop computes in double arithmetic is
    exactly 0 when no entry has status success; when one has, it lies
    in [0,1] and within a relative 2^-40 of the interval from the least
    to the greatest successful score, every successful score being 0 or
    at least 2^-512. *)
Theorem composite_within_rounding_of_successful_scores
    (self : EngagementConcordanceScore) (w : world) (tid : string) :
  NoDup (keys (models self)) ->
  (length (models self) <= 1000)%nat ->
  Forall (fun kv : string * Q =>
            Double.weight_floor <= snd kv /\ snd kv <= Double.weight_ceiling)%Q
    (weights self) ->
  Forall (fun q => q == 0 \/ Double.score_floor <= q)%Q
    (successful_scores (Double.model_results (Double.analysis self w tid))) ->
  (successful_scores (Double.model_results (Double.analysis self w tid)) = [] ->
   Double.composite_score self w tid = 0%Q)
  /\ (successful_scores (Double.model_results (Double.analysis self w tid)) <> [] ->
      (0 <= Double.composite_score self w tid <= 1)%Q
      /\ (Qlist_min
            (successful_scores (Double.model_results (Double.analysis self w tid)))
          * (1 - Double.tolerance)
          <= Double.composite_score self w tid)%Q
      /\ (Double.composite_score self w tid
          <= Qlist_max
               (successful_scores (Double.model_results (Double.analysis self w tid)))
             * (1 + Double.tolerance))%Q).
Proof.
  intros Hnd Hlen Hweights Hscores.
  destruct (@run_models_spec self w tid (models self)
              {| Double.model_results := []; Double.weighted_sum := 0;
                 Double.total_weight := 0 |} Hnd)
    as (pairs & Hsc & Hacc & Hall & Hn); [intros n []|].
  fold (Double.analysis self w tid) in Hsc, Hacc.
  cbn [Double.model_results Double.weighted_sum Double.total_weight
       successful_scores flat_map app] in Hsc, Hacc.
  change (successful_scores []) with (@nil Q) in Hsc. cbn [app] in Hsc.
  assert (Hcomp : Double.composite_score self w tid
                  = Double.composite_of (fold_left Double.accumulate pairs (0, 0)%Q)).
  { rewrite <- Hacc. reflexivity. }
  rewrite Hsc in *. rewrite Hcomp. clear Hcomp Hsc Hacc.
  split.
  - intros Hnil. destruct pairs; [reflexivity | discriminate].
  - intros Hne.
    assert (Hpairs : pairs <> []) by (intros ->; now apply Hne).
    set (scores := map fst pairs) in *.
    assert (Hunit : forall q, In q scores -> (0 <= q <= 1)%Q).
    { intros q HIn. unfold scores in HIn. apply in_map_iff in HIn.
      destruct HIn as (sw & <- & HIn).
      eapply Forall_forall in Hall; [|exact HIn].
      apply in_unit_interval_iff. apply Hall. }
    pose proof (Qlist_min_In Hne) as Hmin.
    pose proof (Qlist_max_In Hne) as Hmax.
    assert (Hb : Double.bounds_ok (Qlist_min scores) (Qlist_max scores)).
    { unfold Double.bounds_ok.
      split; [apply (Hunit _ Hmin)|].
      split; [apply Qle_trans with (Qlist_max scores);
              [now apply Qlist_min_le | apply Qle_refl]|].
      split; [apply (Hunit _ Hmax)|].
      split; [exact (proj1 (Forall_forall _ _) Hscores _ Hmin)
             | exact (proj1 (Forall_forall _ _) Hscores _ Hmax)]. }
    assert (Hgood : Forall (Double.good_pair (Qlist_min scores) (Qlist_max scores))
                      pairs).
    { apply Forall_forall. intros sw HIn.
      assert (Hs : In (fst sw) scores) by (unfold scores; now apply in_map).
      eapply Forall_forall in Hall; [|exact HIn].
      destruct Hall as (_ & n & literal & Hw & Hsw).
      eapply Forall_forall in Hweights; [|exact Hw].
      cbn [snd] in Hweights. destruct Hweights as [Hf Hc].
      assert (Hl0 : (0 <= literal)%Q).
      { pose proof (pow2_pos (-64)) as P.
        change (2 ^ (-64))%Q with Double.weight_floor in P.
        apply Qlt_le_weak. eapply Qlt_le_trans; [exact P | exact Hf]. }
      unfold Double.good_pair. rewrite Hsw.
      split; [now apply Qlist_min_le|]. split; [now apply Qlist_max_ge|].
      split; [now apply binary64_idempotent|].
      split.
      - eapply Qle_trans; [|apply binary64_le; [|exact Hf]].
        + apply Qle_lteq. right. symmetry. exact binary64_weight_floor.
        + apply Qlt_le_weak, pow2_pos.
      - eapply Qle_trans; [apply binary64_le; [exact Hl0 | exact Hc]|].
        apply Qle_lteq. right. exact binary64_weight_ceiling. }
    assert (Hk : (length pairs <= 1000)%nat) by lia.
    destruct (composite_bounds _ _ _ Hb Hgood Hpairs Hk) as (H0 & H1 & Hlo & Hhi).
    repeat split; assumption.
Qed.
Lemma composite_within_rounding_of_successful_scores_witness :
  NoDup (keys (models (__init__ world_out_of_range)))
  /\ (length (models (__init__ world_out_of_range)) <= 1000)%nat
  /\ Forall (fun kv : string * Q =>
               Double.weight_floor <= snd kv /\ snd kv <= Double.weight_ceiling)%Q
       (weights (__init__ world_out_of_range))
  /\ Forall (fun q => q == 0 \/ Double.score_floor <= q)%Q
       (successful_scores
          (Double.model_results
             (Double.analysis (__init__ world_out_of_range) world_out_of_range
                "1234567890")))
  /\ (successful_scores
        (Double.model_results
           (Double.analysis (__init__ world_out_of_range) world_out_of_range
              "1234567890")) <> [] ->
      (0 <= Double.composite_score (__init__ world_out_of_range)
              world_out_of_range "1234567890" <= 1)%Q
      /\ (Qlist_min
            (successful_scores
               (Double.model_results
                  (Double.analysis (__init__ world_out_of_range)
                     world_out_of_range "1234567890")))
          * (1 - Double.tolerance)
          <= Double.composite_score (__init__ world_out_of_range)
               world_out_of_range "1234567890")%Q
      /\ (Double.composite_score (__init__ world_out_of_range)
            world_out_of_range "1234567890"
          <= Qlist_max
               (successful_scores
                  (Double.model_results
                     (Double.analysis (__init__ world_out_of_range)
                        world_out_of_range "1234567890")))
             * (1 + Double.tolerance))%Q).
Proof.
  assert (H1 : NoDup (keys (models (__init__ world_out_of_range))))
    by apply init_NoDup.
  assert (H2 : (length (models (__init__ world_out_of_range)) <= 1000)%nat)
    by (vm_compute; lia).
  assert (H3 : Forall (fun kv : string * Q =>
                         Double.weight_floor <= snd kv
                         /\ snd kv <= Double.weight_ceiling)%Q
                 (weights (__init__ world_out_of_range))).
  { rewrite init_weights.
    repeat (apply Forall_cons; [split; vm_compute; discriminate|]).
    apply Forall_nil. }
  assert (H4 : Forall (fun q => q == 0 \/ Double.score_floor <= q)%Q
                 (successful_scores
                    (Double.model_results
                       (Double.analysis (__init__ world_out_of_range)
                          world_out_of_range "1234567890")))).
  { apply Forall_forall. intros q Hq.
    assert (Hb : forallb (fun q => Qeq_bool q 0 || Qle_bool Double.score_floor q)
                   (successful_scores
                      (Double.model_results
                         (Double.analysis (__init__ world_out_of_range)
                            world_out_of_range "1234567890"))) = true)
      by (vm_compute; reflexivity).
    apply (proj1 (forallb_forall _ _) Hb) in Hq.
    apply orb_true_iff in Hq. destruct Hq as [Hq|Hq];
      [left; now apply Qeq_bool_iff | right; now apply Qle_bool_iff]. }
  split; [exact H1|]. split; [exact H2|]. split; [exact H3|]. split; [exact H4|].
  apply (@composite_within_rounding_of_successful_scores
           (__init__ world_out_of_range) world_out_of_range "1234567890"
           H1 H2 H3 H4).
Defined.

(** With authority_signal alone, scoring 0.8 at weight 0.7, the loop
    computes 0.8 * 0.7 / 0.7 in doubles: 0.7999999999999999, one place
    below the only successful score. *)
Lemma composite_falls_below_least_successful_score :
  Forall (fun kv => 0 < snd kv)%Q (weights (__init__ world_authority_alone))
  /\ successful_scores
       (Double.model_results
          (Double.analysis (__init__ world_authority_alone)
             world_authority_alone "1234567890"))
     = [7205759403792794 # 9007199254740992]
  /\ Double.composite_score (__init__ world_authority_alone)
       world_authority_alone "1234567890"
     = 7205759403792793 # 9007199254740992
  /\ ~ (Qlist_min
          (successful_scores
             (Double.model_results
                (Double.analysis (__init__ world_authority_alone)
                   world_authority_alone "1234567890")))
        <= Double.composite_score (__init__ world_authority_alone)
             world_authority_alone "1234567890"
        <= Qlist_max
             (successful_scores
                (Double.model_results
                   (Double.analysis (__init__ world_authority_alone)
                      world_authority_alone "1234567890"))))%Q.
Proof.
  split; [rewrite init_weights; exact default_weights_positive|].
  assert (E1 : successful_scores
                 (Double.model_results
                    (Double.analysis (__init__ world_authority_alone)
                       world_authority_alone "1234567890"))
               = [7205759403792794 # 9007199254740992])
    by (vm_compute; reflexivity).
  assert (E2 : Double.composite_score (__init__ world_authority_alone)
                 world_authority_alone "1234567890"
               = 7205759403792793 # 9007199254740992)
    by (vm_compute; reflexivity).
  split; [exact E1|]. split; [exact E2|].
  rewrite E1, E2. cbn [Qlist_min Qlist_max].
  intros [H _]. revert H. apply Qlt_not_le. reflexivity.
Qed.
(** Under the hypotheses on the weights the two accumulators stay
    ordered and far below 2^1024: no product, sum or quotient of the
    loop is an infinity. *)
Lemma accumulators_stay_finite
    (self : EngagementConcordanceScore) (w : world) (tid : string) :
  NoDup (keys (models self)) ->
  (length (models self) <= 1000)%nat ->
  Forall (fun kv : string * Q =>
            Double.weight_floor <= snd kv /\ snd kv <= Double.weight_ceiling)%Q
    (weights self) ->
  (0 <= Double.weighted_sum (Double.analysis self w tid))%Q
  /\ (Double.weighted_sum (Double.analysis self w tid)
      <= Double.total_weight (Double.analysis self w tid))%Q
  /\ (Double.total_weight (Double.analysis self w tid)
      <= 1000 * Double.weight_ceiling)%Q.
Proof.
  intros Hnd Hlen Hweights.
  destruct (@run_models_spec self w tid (models self)
              {| Double.model_results := []; Double.weighted_sum := 0;
                 Double.total_weight := 0 |} Hnd)
    as (pairs & _ & Hacc & Hall & Hn); [intros n []|].
  fold (Double.analysis self w tid) in Hacc.
  cbn [Double.weighted_sum Double.total_weight] in Hacc.
  assert (Hgood : Forall (Double.good_pair 0 1) pairs).
  { apply Forall_forall. intros sw HIn.
    eapply Forall_forall in Hall; [|exact HIn].
    destruct Hall as (Hu & n & literal & Hw & Hsw).
    apply in_unit_interval_iff in Hu.
    eapply Forall_forall in Hweights; [|exact Hw].
    cbn [snd] in Hweights. destruct Hweights as [Hf Hc].
    assert (Hl0 : (0 <= literal)%Q).
    { pose proof (pow2_pos (-64)) as P.
      change (2 ^ (-64))%Q with Double.weight_floor in P.
      apply Qlt_le_weak. eapply Qlt_le_trans; [exact P | exact Hf]. }
    unfold Double.good_pair. rewrite Hsw.
    split; [apply Hu|]. split; [apply Hu|].
    split; [now apply binary64_idempotent|].
    split.
    - eapply Qle_trans; [|apply binary64_le; [|exact Hf]].
      + apply Qle_lteq. right. symmetry. exact binary64_weight_floor.
      + apply Qlt_le_weak, pow2_pos.
    - eapply Qle_trans; [apply binary64_le; [exact Hl0 | exact Hc]|].
      apply Qle_lteq. right. exact binary64_weight_ceiling. }
  assert (Hb : Double.bounds_ok 0 1).
  { unfold Double.bounds_ok. repeat split; try (vm_compute; discriminate).
    - left. reflexivity.
    - right. vm_compute. discriminate. }
  destruct (fold_accumulate_invariant 0 1 pairs Hb Hgood 0%nat 0%Q (0, 0)%Q
              ltac:(cbn; lia) (initial_invariant 0 1))
    as (W & _ & _ & Hinv).
  destruct Hinv as (_ & _ & _ & _ & _ & S0 & ST).
  destruct (total_weight_finite pairs) with (k := 0%nat) (st := (0, 0)%Q)
    as [_ Hfin].
  { eapply Forall_impl; [|exact Hgood].
    intros sw (_ & _ & _ & Hf & Hc). split; [|exact Hc].
    pose proof (pow2_pos (-64)) as P.
    change (2 ^ (-64))%Q with Double.weight_floor in P.
    apply Qlt_le_weak. eapply Qlt_le_trans; [exact P | exact Hf]. }
  { cbn. lia. }
  { cbn. apply Qle_refl. }
  { cbn. vm_compute. discriminate. }
  rewrite <- Hacc in S0, ST, Hfin. cbn [fst snd Nat.add] in S0, ST, Hfin.
  split; [exact S0|]. split; [exact ST|].
  eapply Qle_trans; [exact Hfin|].
  apply Qmult_le_compat_r; [|vm_compute; discriminate].
  change 1000%Q with (inject_Z 1000). rewrite <- Zle_Qle. lia.
Qed.




(* ================================================================== *)
(** ** Entries and breakdown agree *)

(** C10.  In a returned report every entry with status success carries a
    score in [0,1] and has an entry in the weighted breakdown (with that
    score, the weight of the model and their product); every other entry
    carries no score and has no breakdown entry; hence the score is
    numeric exactly when the status is success. *)
Theorem score_numeric_iff_success
    (self : EngagementConcordanceScore) (w : world) (tid now : string) :
  NoDup (keys (models self)) ->
  exists r,
    analyze_tweet_comprehensive self w tid now = Ok r
    /\ (forall n e, In (n, e) (model_results r) ->
          (status e = "success"
           /\ exists q b,
                score e = Some q
                /\ (0 <= q <= 1)%Q
                /\ dict_get (weighted_breakdown r) n = Some b
                /\ raw_score b = q
                /\ dict_get (weights self) n = Some (weight b)
                /\ weighted_contribution b = (q * weight b)%Q)
          \/ (status e <> "success"
              /\ score e = None
              /\ dict_get (weighted_breakdown r) n = None))
    /\ (forall n e, In (n, e) (model_results r) ->
          (status e = "success" <-> score e <> None))
    /\ (forall n b, In (n, b) (weighted_breakdown r) ->
          exists e, In (n, e) (model_results r) /\ status e = "success").
Proof.
  intros Hnd.
  destruct (analyze_spec self w tid now Hnd)
    as (r & ra & sm & fs & Hr & _ & _ & Hmr & Hbd & _).
  exists r. split; [exact Hr|].
  set (names := loaded_names (models self)) in *.
  assert (Hentry : forall n e, In (n, e) (model_results r) ->
            In n names /\ e = entry_of (outcome_of self w tid n)).
  { intros n e HIn. rewrite Hmr in HIn. apply in_map_iff in HIn.
    destruct HIn as (m & [= <- <-] & Hm). auto. }
  assert (Hmain : forall n e, In (n, e) (model_results r) ->
            (status e = "success"
             /\ exists q b,
                  score e = Some q
                  /\ (0 <= q <= 1)%Q
                  /\ dict_get (weighted_breakdown r) n = Some b
                  /\ raw_score b = q
                  /\ dict_get (weights self) n = Some (weight b)
                  /\ weighted_contribution b = (q * weight b)%Q)
            \/ (status e <> "success"
                /\ score e = None
                /\ dict_get (weighted_breakdown r) n = None)).
  { intros n e HIn. destruct (Hentry n e HIn) as [Hn ->].
    rewrite Hbd, dict_get_breakdown.
    destruct (in_dec string_dec n names); [|contradiction].
    destruct (outcome_of_cases self w tid n)
      as [(k & q & wt & _ & Hw & Hq & _ & ->)|[x ->]]; simpl.
    - left. split; [reflexivity|]. eexists; eexists.
      split; [reflexivity|]. split; [now apply in_unit_interval_iff|].
      split; [reflexivity|]. simpl. auto.
    - right. split; [discriminate | auto]. }
  split; [exact Hmain|]. split.
  - intros n e HIn.
    destruct (Hmain n e HIn) as [[Hs (q & b & Hq & _)]|(Hs & Hq & _)].
    + rewrite Hq. split; [discriminate | intros _; exact Hs].
    + rewrite Hq. split; [intros H; contradiction | intros H; now contradiction H].
  - intros n b HIn. rewrite Hbd in HIn. apply in_flat_map in HIn.
    destruct HIn as ([m o] & Hmo & Hb). apply in_map_iff in Hmo.
    destruct Hmo as (m' & [= <- <-] & Hm').
    unfold breakdown_items in Hb. simpl in Hb.
    destruct (outcome_of self w tid m') as [mr q wt|e0] eqn:Ho; simpl in Hb;
      [|contradiction].
    destruct Hb as [[= <- <-]|[]].
    exists (success_entry q mr). split; [|reflexivity].
    rewrite Hmr. apply in_map_iff. exists m'. unfold named_entry.
    now rewrite Ho.
Qed.

Lemma score_numeric_iff_success_witness :
  NoDup (keys (models (__init__ world_timeout)))
  /\ exists r,
       analyze_tweet_comprehensive (__init__ world_timeout) world_timeout
         "1234567890" "2024-01-01T00:00:00" = Ok r
       /\ (forall n e, In (n, e) (model_results r) ->
             (status e = "success"
              /\ exists q b,
                   score e = Some q
                   /\ (0 <= q <= 1)%Q
                   /\ dict_get (weighted_breakdown r) n = Some b
                   /\ raw_score b = q
                   /\ dict_get (weights (__init__ world_timeout)) n
                      = Some (weight b)
                   /\ weighted_contribution b = (q * weight b)%Q)
             \/ (status e <> "success"
                 /\ score e = None
                 /\ dict_get (weighted_breakdown r) n = None))
       /\ (forall n e, In (n, e) (model_results r) ->
             (status e = "success" <-> score e <> None))
       /\ (forall n b, In (n, b) (weighted_breakdown r) ->
             exists e, In (n, e) (model_results r) /\ status e = "success").
Proof.
  assert (H : NoDup (keys (models (__init__ world_timeout))))
    by apply init_NoDup.
  split; [exact H|].
  apply (@score_numeric_iff_success (__init__ world_timeout) world_timeout
           "1234567890" "2024-01-01T00:00:00" H).
Defined.

(** The same agreement holds for whatever model result the extraction
    step is given, including the branches a scorer script cannot reach
    (a result without the score key, a score outside the unit interval):
    the entry it writes has a score exactly when its status is success. *)
Lemma extract_score_entry
    (self : EngagementConcordanceScore) (model_name : string)
    (model_result : dict Q) (s : frame) :
  match dict_get
          (model_results (results (fst (extract_score self model_name model_result s))))
          model_name with
  | Some e =>
      snd (extract_score self model_name model_result s) = Ok tt ->
      (status e = "success" <-> score e <> None)
  | None =>
      exists e, snd (extract_score self model_name model_result s) = Raise e
  end.
Proof.
  assert (Hget : forall (d : dict ModelEntry) k v,
             dict_get (dict_set d k v) k = Some v).
  { induction d as [|[k' v'] d IH]; intros k v; simpl.
    - now rewrite String.eqb_refl.
    - destruct (String.eqb k' k) eqn:E; simpl; rewrite E; [reflexivity | apply IH]. }
  unfold extract_score.
  cbv [bind lift set_model_result set_breakdown add_weighted_sum
       add_total_weight modify].
  destruct (getitem (score_keys self) model_name) as [k|e]; simpl.
  - destruct (dict_get model_result k) as [q|]; simpl.
    + destruct (in_unit_interval q); simpl.
      * destruct (getitem (weights self) model_name); simpl; rewrite Hget;
          intros _; simpl; split; [discriminate | reflexivity | discriminate | reflexivity].
      * rewrite Hget. intros _. simpl. split; [discriminate | intros H; now contradiction H].
    + rewrite Hget. intros _. simpl. split; [discriminate | intros H; now contradiction H].
  - destruct (dict_get (model_results (results s)) model_name) as [e0|]; [|eauto].
    discriminate.
Qed.

(* ================================================================== *)
(** ** Which models are reported *)

Lemma unloaded_not_in_loaded_names (items : dict model_info) (n : string)
    (info : model_info) :
  NoDup (keys items) -> In (n, info) items -> loaded info = false ->
  ~ In n (loaded_names items).
Proof.
  intros Hnd HIn Hl Hn. apply loaded_names_spec in Hn.
  destruct Hn as (info' & HIn' & Hl').
  pose proof (@In_dict_get _ _ _ _ Hnd HIn) as E1.
  pose proof (@In_dict_get _ _ _ _ Hnd HIn') as E2.
  congruence.
Qed.

(** C3, as the code has it.  Every model marked loaded has exactly one
    entry in the report, in registration order.  A model that is not
    loaded is skipped: it has no entry among the model results, none in
    the weighted breakdown, and takes no part in the weighting; it is
    still counted in the total of the summary. *)
Theorem loaded_models_reported_once
    (self : EngagementConcordanceScore) (w : world) (tid now : string) :
  NoDup (keys (models self)) ->
  exists r sm,
    analyze_tweet_comprehensive self w tid now = Ok r
    /\ keys (model_results r) = loaded_names (models self)
    /\ NoDup (keys (model_results r))
    /\ (forall n info, In (n, info) (models self) -> loaded info = true ->
          exists e, dict_get (model_results r) n = Some e)
    /\ (forall n info, In (n, info) (models self) -> loaded info = false ->
          dict_get (model_results r) n = None
          /\ dict_get (weighted_breakdown r) n = None)
    /\ summary r = Some sm
    /\ total_models sm = length (models self).
Proof.
  intros Hnd.
  destruct (analyze_spec self w tid now Hnd)
    as (r & ra & sm & fs & Hr & _ & _ & Hmr & Hbd & _ & _ & Hsm & _ & _ & Hgen).
  exists r, sm. split; [exact Hr|].
  set (names := loaded_names (models self)) in *.
  assert (Hkeys : keys (model_results r) = names)
    by (rewrite Hmr; apply keys_named_entries).
  split; [exact Hkeys|]. split.
  { rewrite Hkeys. apply NoDup_keys_filter, Hnd. }
  split; [|split; [|split; [exact Hsm|]]].
  - intros n info HIn Hl. rewrite Hmr, dict_get_entries.
    destruct (in_dec string_dec n names) as [_|Hn]; [eauto|].
    exfalso. apply Hn. apply loaded_names_spec. eauto.
  - intros n info HIn Hl.
    pose proof (@unloaded_not_in_loaded_names _ _ _ Hnd HIn Hl) as Hn.
    rewrite Hmr, Hbd, dict_get_entries, dict_get_breakdown.
    fold names in Hn.
    destruct (in_dec string_dec n names); [contradiction | auto].
  - unfold _generate_summary in Hgen. simpl in Hgen.
    injection Hgen as <-. reflexivity.
Qed.

Lemma loaded_models_reported_once_witness :
  NoDup (keys (models (__init__ world_clickbait_missing)))
  /\ exists r sm,
       analyze_tweet_comprehensive (__init__ world_clickbait_missing)
         world_clickbait_missing "1234567890" "2024-01-01T00:00:00" = Ok r
       /\ keys (model_results r)
          = loaded_names (models (__init__ world_clickbait_missing))
       /\ NoDup (keys (model_results r))
       /\ (forall n info,
             In (n, info) (models (__init__ world_clickbait_missing)) ->
             loaded info = true ->
             exists e, dict_get (model_results r) n = Some e)
       /\ (forall n info,
             In (n, info) (models (__init__ world_clickbait_missing)) ->
             loaded info = false ->
             dict_get (model_results r) n = None
             /\ dict_get (weighted_breakdown r) n = None)
       /\ summary r = Some sm
       /\ total_models sm
          = length (models (__init__ world_clickbait_missing)).
Proof.
  assert (H : NoDup (keys (models (__init__ world_clickbait_missing))))
    by apply init_NoDup.
  split; [exact H|].
  apply (@loaded_models_reported_once (__init__ world_clickbait_missing)
           world_clickbait_missing "1234567890" "2024-01-01T00:00:00" H).
Defined.

(** C3 as stated fails: when the clickbait directory is missing, the
    registry still declares clickbait, but the report has nine entries,
    none for clickbait and none with status skipped_unloaded. *)
Lemma unloaded_model_is_dropped :
  exists r,
    analyze_tweet_comprehensive (__init__ world_clickbait_missing)
      world_clickbait_missing "1234567890" "2024-01-01T00:00:00" = Ok r
    /\ In "clickbait" (keys (models (__init__ world_clickbait_missing)))
    /\ dict_get (model_results r) "clickbait" = None
    /\ length (models (__init__ world_clickbait_missing)) = 10%nat
    /\ length (model_results r) = 9%nat
    /\ ~ In "skipped_unloaded" (map status (values (model_results r))).
Proof.
  eexists. split; [vm_compute; reflexivity|].
  split; [vm_compute; tauto|].
  split; [reflexivity|]. split; [reflexivity|]. split; [reflexivity|].
  vm_compute. intros H.
  repeat (destruct H as [H|H]; [discriminate H|]). exact H.
Qed.

(* ================================================================== *)
(** ** Scorers that fail *)

Section Scorers.
Variable self : EngagementConcordanceScore.
Variable w : world.
Variable tid : string.

Lemma dict_get_set_same {V} (d : dict V) (k : string) (v : V) :
  dict_get (dict_set d k v) k = Some v.
Proof.
  induction d as [|[k' v'] d IH]; simpl.
  - now rewrite String.eqb_refl.
  - destruct (String.eqb k' k) eqn:E; simpl; rewrite E; [reflexivity | exact IH].
Qed.

(** What [run_model] leaves behind for a scored model. *)
Lemma run_model_scored (name : string) (mr : dict Q) (q wt : Q) (s : frame) :
  outcome_of self w tid name = Scored mr q wt ->
  exists s',
    run_model self w tid name s = (s', Ok tt)
    /\ dict_get (model_results (results s')) name = Some (success_entry q mr)
    /\ dict_get (weighted_breakdown (results s')) name
       = Some {| raw_score := q; weight := wt;
                 weighted_contribution := (q * wt)%Q |}
    /\ total_weight s' = (total_weight s + wt)%Q
    /\ weighted_sum s' = (weighted_sum s + q * wt)%Q.
Proof.
  intros Ho. rewrite run_model_outcome, Ho. eexists. split; [reflexivity|].
  simpl. rewrite !dict_get_set_same. auto.
Qed.

Lemma outcome_of_model_result (name k : string) (q wt : Q) :
  model_result_of self w tid name = Ok [(k, q)] ->
  in_unit_interval q = true ->
  dict_get (score_keys self) name = Some k ->
  dict_get (weights self) name = Some wt ->
  outcome_of self w tid name = Scored [(k, q)] q wt.
Proof.
  intros Hmr Hq Hk Hw. unfold outcome_of, getitem.
  rewrite Hmr, Hk. simpl. now rewrite String.eqb_refl, Hq, Hw.
Qed.

(** A call through ['simple_score'] whose script exists. *)
Lemma scorer_call_result (name k : string) (res : exc CompletedProcess) :
  scorer_call self w tid name res ->
  dict_get (score_keys self) name = Some k ->
  model_result_of self w tid name
  = match res with
    | Ok cp =>
        if (returncode cp =? 0)%Z then
          match float (strip (stdout cp)) with
          | Ok f =>
              match unit_score f with
              | Some q => Ok [(k, q)]
              | None => Ok [(k, 0%Q)]
              end
          | Raise _ => Ok [(k, 0%Q)]
          end
        else Ok [(k, 0%Q)]
    | Raise _ => Ok [(k, 0%Q)]
    end.
Proof.
  intros (p & Hm & Hp & Hex & Hrun) Hk.
  pose proof (zero_result_ok self _ Hk) as Hz.
  unfold model_result_of, run_simple_score, getitem, exc_bind, exc_catch.
  rewrite Hm, Hp. simpl String.eqb. cbv iota.
  unfold script_path_of in Hex, Hrun. rewrite Hex, Hrun.
  destruct res as [cp|e]; [|destruct e; exact Hz].
  destruct (returncode cp =? 0)%Z; [|now rewrite Hz].
  destruct (float (strip (stdout cp))) as [f|e].
  - destruct (unit_score f); [now rewrite Hk | now rewrite Hz].
  - unfold float in *. rewrite Hz. now destruct (is_ValueError e), e.
Qed.

Lemma emits_out_of_range (name k : string) (q wt : Q) :
  emits self w tid name q ->
  ~ (0 <= q <= 1)%Q ->
  dict_get (score_keys self) name = Some k ->
  dict_get (weights self) name = Some wt ->
  outcome_of self w tid name = Scored [(k, 0%Q)] 0 wt.
Proof.
  intros (cp & Hcall & Hrc & Hf) Hq Hk Hw.
  apply outcome_of_model_result; try assumption; [|reflexivity].
  rewrite (scorer_call_result Hcall Hk), Hrc, Hf. simpl.
  destruct (in_unit_interval q) eqn:E; [|reflexivity].
  apply in_unit_interval_iff in E. contradiction.
Qed.

Lemma emits_in_range (name k : string) (q wt : Q) :
  emits self w tid name q ->
  (0 <= q <= 1)%Q ->
  dict_get (score_keys self) name = Some k ->
  dict_get (weights self) name = Some wt ->
  outcome_of self w tid name = Scored [(k, q)] q wt.
Proof.
  intros (cp & Hcall & Hrc & Hf) Hq Hk Hw.
  apply in_unit_interval_iff in Hq.
  apply outcome_of_model_result; try assumption.
  rewrite (scorer_call_result Hcall Hk), Hrc, Hf. simpl. now rewrite Hq.
Qed.

Lemma raises_outcome (name k : string) (e : exn) (wt : Q) :
  scorer_call self w tid name (Raise e) ->
  dict_get (score_keys self) name = Some k ->
  dict_get (weights self) name = Some wt ->
  outcome_of self w tid name = Scored [(k, 0%Q)] 0 wt.
Proof.
  intros Hcall Hk Hw.
  apply outcome_of_model_result; try assumption; [|reflexivity].
  now rewrite (scorer_call_result Hcall Hk).
Qed.
End Scorers.

(** A model scored with the substituted 0.0, in one iteration and in the
    report. *)
Lemma zero_outcome_in_report
    (self : EngagementConcordanceScore) (w : world) (tid now name k : string)
    (wt : Q) :
  NoDup (keys (models self)) ->
  In name (loaded_names (models self)) ->
  outcome_of self w tid name = Scored [(k, 0%Q)] 0 wt ->
  (forall s : frame,
     exists s',
       run_model self w tid name s = (s', Ok tt)
       /\ total_weight s' = (total_weight s + wt)%Q
       /\ weighted_sum s' = (weighted_sum s + 0 * wt)%Q)
  /\ exists r,
       analyze_tweet_comprehensive self w tid now = Ok r
       /\ dict_get (model_results r) name
          = Some {| score := Some 0%Q; full_result := Some [(k, 0%Q)];
                    status := "success"; error := None |}
       /\ dict_get (weighted_breakdown r) name
          = Some {| raw_score := 0; weight := wt;
                    weighted_contribution := (0 * wt)%Q |}.
Proof.
  intros Hnd Hin Ho. split.
  - intros s. destruct (@run_model_scored self w tid name _ _ _ s Ho)
      as (s' & Hrun & _ & _ & Htw & Hws).
    exists s'. auto.
  - destruct (analyze_spec self w tid now Hnd)
      as (r & ra & sm & fs & Hr & _ & _ & Hmr & Hbd & _).
    exists r. split; [exact Hr|].
    rewrite Hmr, Hbd, dict_get_entries, dict_get_breakdown.
    destruct (in_dec string_dec name (loaded_names (models self)));
      [|contradiction].
    rewrite Ho. split; reflexivity.
Qed.

(** C1, as the code has it.  When the scorer of a loaded model exits
    with status zero and its trimmed output parses to a float outside
    [0,1], the score 0.0 is substituted: the iteration adds zero to the
    weighted sum and the whole weight of the model to the total weight,
    and in the report the entry of the model has status success and score
    0.0, with a breakdown entry of raw score 0.0 at the weight of the
    model. *)
Theorem out_of_range_score_counts_as_zero
    (self : EngagementConcordanceScore) (w : world) (tid now name k : string)
    (q wt : Q) :
  NoDup (keys (models self)) ->
  In name (loaded_names (models self)) ->
  emits self w tid name q ->
  ~ (0 <= q <= 1)%Q ->
  dict_get (score_keys self) name = Some k ->
  dict_get (weights self) name = Some wt ->
  (forall s : frame,
     exists s',
       run_model self w tid name s = (s', Ok tt)
       /\ total_weight s' = (total_weight s + wt)%Q
       /\ weighted_sum s' = (weighted_sum s + 0 * wt)%Q)
  /\ exists r,
       analyze_tweet_comprehensive self w tid now = Ok r
       /\ dict_get (model_results r) name
          = Some {| score := Some 0%Q; full_result := Some [(k, 0%Q)];
                    status := "success"; error := None |}
       /\ dict_get (weighted_breakdown r) name
          = Some {| raw_score := 0; weight := wt;
                    weighted_contribution := (0 * wt)%Q |}.
Proof.
  intros Hnd Hin He Hq Hk Hw.
  apply zero_outcome_in_report; try assumption.
  eapply emits_out_of_range; eassumption.
Qed.

Lemma out_of_range_score_counts_as_zero_witness :
  NoDup (keys (models (__init__ world_out_of_range)))
  /\ In "clickbait" (loaded_names (models (__init__ world_out_of_range)))
  /\ emits (__init__ world_out_of_range) world_out_of_range
       "1234567890" "clickbait" 1.5
  /\ ~ (0 <= 1.5 <= 1)%Q
  /\ dict_get (score_keys (__init__ world_out_of_range)) "clickbait"
     = Some "clickbait_score"
  /\ dict_get (weights (__init__ world_out_of_range)) "clickbait" = Some 0.8%Q
  /\ (forall s : frame,
     exists s',
       run_model (__init__ world_out_of_range) world_out_of_range
         "1234567890" "clickbait" s = (s', Ok tt)
       /\ total_weight s' = (total_weight s + 0.8)%Q
       /\ weighted_sum s' = (weighted_sum s + 0 * 0.8)%Q)
  /\ exists r,
       analyze_tweet_comprehensive (__init__ world_out_of_range) world_out_of_range
         "1234567890" "2024-01-01T00:00:00" = Ok r
       /\ dict_get (model_results r) "clickbait"
          = Some {| score := Some 0%Q; full_result := Some [("clickbait_score", 0%Q)];
                    status := "success"; error := None |}
       /\ dict_get (weighted_breakdown r) "clickbait"
          = Some {| raw_score := 0; weight := 0.8;
                    weighted_contribution := (0 * 0.8)%Q |}.
Proof.
  assert (Hnd : NoDup (keys (models (__init__ world_out_of_range))))
    by apply init_NoDup.
  assert (Hin : In "clickbait" (loaded_names (models (__init__ world_out_of_range))))
    by (vm_compute; tauto).
  assert (He : emits (__init__ world_out_of_range) world_out_of_range
                 "1234567890" "clickbait" 1.5).
  { eexists. split.
    - exists "../Clickbait_Headline_Classifier".
      repeat split; vm_compute; reflexivity.
    - split; vm_compute; reflexivity. }
  assert (Hq : ~ (0 <= 1.5 <= 1)%Q) by (intros [_ H]; lra).
  assert (Hk : dict_get (score_keys (__init__ world_out_of_range)) "clickbait"
               = Some "clickbait_score") by (vm_compute; reflexivity).
  assert (Hw : dict_get (weights (__init__ world_out_of_range)) "clickbait"
               = Some 0.8%Q) by (vm_compute; reflexivity).
  split; [exact Hnd|]. split; [exact Hin|].
  split; [exact He|]. split; [exact Hq|].
  split; [exact Hk|]. split; [exact Hw|].
  apply (@out_of_range_score_counts_as_zero
           (__init__ world_out_of_range) world_out_of_range
           "1234567890" "2024-01-01T00:00:00" "clickbait" "clickbait_score"
           1.5 0.8 Hnd Hin He Hq Hk Hw).
Defined.

(** C1 as stated fails: with every scorer installed, clickbait printing
    1.5 and the others 0.9, the clickbait entry has status success (not
    invalid_score) and score 0.0 (not null), its weight 0.8 is in the
    breakdown, and the composite is 6.03/7.5 = 0.804 instead of the 0.9
    it would be were clickbait left out of the mean. *)
Lemma out_of_range_scorer_is_not_invalid_score :
  emits (__init__ world_out_of_range) world_out_of_range
    "1234567890" "clickbait" 1.5
  /\ ~ (0 <= 1.5 <= 1)%Q
  /\ exists r e b,
       analyze_tweet_comprehensive (__init__ world_out_of_range)
         world_out_of_range "1234567890" "2024-01-01T00:00:00" = Ok r
       /\ dict_get (model_results r) "clickbait" = Some e
       /\ status e = "success"
       /\ status e <> "invalid_score"
       /\ score e = Some 0%Q
       /\ score e <> None
       /\ dict_get (weighted_breakdown r) "clickbait" = Some b
       /\ weight b = 0.8%Q
       /\ (composite_score r == 0.804)%Q
       /\ ~ (composite_score r == 0.9)%Q.
Proof.
  split.
  { eexists. split.
    - exists "../Clickbait_Headline_Classifier".
      repeat split; vm_compute; reflexivity.
    - split; vm_compute; reflexivity. }
  split; [intros [_ H]; lra|].
  eexists. eexists. eexists.
  split; [vm_compute; reflexivity|].
  split; [vm_compute; reflexivity|].
  split; [reflexivity|]. split; [discriminate|].
  split; [reflexivity|]. split; [discriminate|].
  split; [vm_compute; reflexivity|].
  split; [reflexivity|].
  split; [vm_compute; reflexivity | vm_compute; discriminate].
Qed.

(** C5, as the code has it.  When the scorer call of a loaded model runs
    into its timeout of 30 seconds, the iteration for the model still
    completes and the score 0.0 is substituted: the iteration adds zero
    to the weighted sum and the whole weight of the model to the total
    weight, and in the report the entry of the model has status success
    (the code has no timeout status) and score 0.0. *)
Theorem timed_out_scorer_counts_as_zero
    (self : EngagementConcordanceScore) (w : world) (tid now name k : string)
    (wt : Q) :
  NoDup (keys (models self)) ->
  In name (loaded_names (models self)) ->
  scorer_call self w tid name (Raise TimeoutExpired) ->
  dict_get (score_keys self) name = Some k ->
  dict_get (weights self) name = Some wt ->
  (forall s : frame,
     exists s',
       run_model self w tid name s = (s', Ok tt)
       /\ total_weight s' = (total_weight s + wt)%Q
       /\ weighted_sum s' = (weighted_sum s + 0 * wt)%Q)
  /\ exists r,
       analyze_tweet_comprehensive self w tid now = Ok r
       /\ dict_get (model_results r) name
          = Some {| score := Some 0%Q; full_result := Some [(k, 0%Q)];
                    status := "success"; error := None |}
       /\ dict_get (weighted_breakdown r) name
          = Some {| raw_score := 0; weight := wt;
                    weighted_contribution := (0 * wt)%Q |}.
Proof.
  intros Hnd Hin Hcall Hk Hw.
  apply zero_outcome_in_report; try assumption.
  eapply raises_outcome; eassumption.
Qed.

Lemma timed_out_scorer_counts_as_zero_witness :
  NoDup (keys (models (__init__ world_timeout)))
  /\ In "clickbait" (loaded_names (models (__init__ world_timeout)))
  /\ scorer_call (__init__ world_timeout) world_timeout
       "1234567890" "clickbait" (Raise TimeoutExpired)
  /\ dict_get (score_keys (__init__ world_timeout)) "clickbait"
     = Some "clickbait_score"
  /\ dict_get (weights (__init__ world_timeout)) "clickbait" = Some 0.8%Q
  /\ (forall s : frame,
     exists s',
       run_model (__init__ world_timeout) world_timeout
         "1234567890" "clickbait" s = (s', Ok tt)
       /\ total_weight s' = (total_weight s + 0.8)%Q
       /\ weighted_sum s' = (weighted_sum s + 0 * 0.8)%Q)
  /\ exists r,
       analyze_tweet_comprehensive (__init__ world_timeout) world_timeout
         "1234567890" "2024-01-01T00:00:00" = Ok r
       /\ dict_get (model_results r) "clickbait"
          = Some {| score := Some 0%Q; full_result := Some [("clickbait_score", 0%Q)];
                    status := "success"; error := None |}
       /\ dict_get (weighted_breakdown r) "clickbait"
          = Some {| raw_score := 0; weight := 0.8;
                    weighted_contribution := (0 * 0.8)%Q |}.
Proof.
  assert (Hnd : NoDup (keys (models (__init__ world_timeout))))
    by apply init_NoDup.
  assert (Hin : In "clickbait" (loaded_names (models (__init__ world_timeout))))
    by (vm_compute; tauto).
  assert (Hc : scorer_call (__init__ world_timeout) world_timeout
                 "1234567890" "clickbait" (Raise TimeoutExpired)).
  { exists "../Clickbait_Headline_Classifier".
    repeat split; vm_compute; reflexivity. }
  assert (Hk : dict_get (score_keys (__init__ world_timeout)) "clickbait"
               = Some "clickbait_score") by (vm_compute; reflexivity).
  assert (Hw : dict_get (weights (__init__ world_timeout)) "clickbait"
               = Some 0.8%Q) by (vm_compute; reflexivity).
  split; [exact Hnd|]. split; [exact Hin|].
  split; [exact Hc|].
  split; [exact Hk|]. split; [exact Hw|].
  apply (@timed_out_scorer_counts_as_zero
           (__init__ world_timeout) world_timeout
           "1234567890" "2024-01-01T00:00:00" "clickbait" "clickbait_score"
           0.8 Hnd Hin Hc Hk Hw).
Defined.

(** C5 as stated fails: with every scorer installed, clickbait timing
    out and the others printing 0.9, the analysis returns, but the
    clickbait entry has status success, not timeout, and no entry of the
    report has status timeout. *)
Lemma timed_out_scorer_is_not_status_timeout :
  scorer_call (__init__ world_timeout) world_timeout
    "1234567890" "clickbait" (Raise TimeoutExpired)
  /\ exists r e,
       analyze_tweet_comprehensive (__init__ world_timeout) world_timeout
         "1234567890" "2024-01-01T00:00:00" = Ok r
       /\ dict_get (model_results r) "clickbait" = Some e
       /\ status e = "success"
       /\ status e <> "timeout"
       /\ score e = Some 0%Q
       /\ ~ In "timeout" (map status (values (model_results r))).
Proof.
  split.
  { exists "../Clickbait_Headline_Classifier".
    repeat split; vm_compute; reflexivity. }
  eexists. eexists.
  split; [vm_compute; reflexivity|].
  split; [vm_compute; reflexivity|].
  split; [reflexivity|]. split; [discriminate|]. split; [reflexivity|].
  vm_compute. intros H.
  repeat (destruct H as [H|H]; [discriminate H|]). exact H.
Qed.

(* ================================================================== *)
(** ** All scorers failing *)

Lemma risk_level_of_compat (c c' : Q) :
  (c == c')%Q -> risk_level_of c = risk_level_of c'.
Proof.
  intros E.
  assert (H : forall a, Qle_bool a c = Qle_bool a c') by (intros a; now rewrite E).
  unfold risk_level_of. now rewrite !H.
Qed.

Lemma recommendations_of_compat (c c' : Q) :
  (c == c')%Q -> recommendations_of c = recommendations_of c'.
Proof.
  intros E.
  assert (H : forall a, Qle_bool a c = Qle_bool a c') by (intros a; now rewrite E).
  unfold recommendations_of, Qgt_bool. now rewrite !H.
Qed.

Lemma load_models_all_present (w0 : world) :
  (forall p, path_exists w0 p = true) ->
  forall (items : dict string) (self : EngagementConcordanceScore),
    fold_left (load_model w0) items self
    = set_models self
        (fold_left
           (fun d (kv : string * string) =>
              dict_set d (fst kv) {| loaded := true; load_error := None |})
           items (models self)).
Proof.
  intros Hall. induction items as [|[n p] items IH]; intros self.
  - now destruct self.
  - cbn [fold_left]. rewrite IH. unfold load_model. rewrite !Hall. reflexivity.
Qed.

Lemma init_all_present (w0 : world) :
  (forall p, path_exists w0 p = true) -> __init__ w0 = all_loaded.
Proof.
  intros Hall. unfold __init__, load_models.
  rewrite (@load_models_all_present w0 Hall). reflexivity.
Qed.

Lemma all_fail_outcome (self : EngagementConcordanceScore) (w : world)
    (tid n m k : string) (wt : Q) :
  (forall script, exists cp,
      subprocess_run w [sys_executable w; script; tid] 30 = Ok cp
      /\ returncode cp <> 0%Z) ->
  dict_get (analysis_methods self) n = Some m ->
  dict_get (score_keys self) n = Some k ->
  dict_get (weights self) n = Some wt ->
  outcome_of self w tid n = Scored [(k, 0%Q)] 0 wt.
Proof.
  intros Hfail Hm Hk Hw.
  apply outcome_of_model_result; try assumption; [|reflexivity].
  pose proof (zero_result_ok self _ Hk) as Hz.
  unfold model_result_of, getitem, exc_bind. rewrite Hm.
  destruct (String.eqb m "simple_score"); [|exact Hz].
  unfold run_simple_score, exc_catch, exc_bind, getitem.
  destruct (dict_get (model_paths self) n) as [p|]; [|exact Hz].
  destruct (path_exists w _); [|now rewrite Hz].
  match goal with
  | |- context [subprocess_run w [_; ?p; _] _] =>
      destruct (Hfail p) as (cp & -> & Hrc)
  end.
  apply Z.eqb_neq in Hrc. rewrite Hrc. now rewrite Hz.
Qed.

Lemma all_loaded_NoDup : NoDup (keys (models all_loaded)).
Proof.
  rewrite <- (@init_all_present world_all_fail); [apply init_NoDup|].
  reflexivity.
Qed.

(** C2, as the code has it.  When all ten models are loaded and every
    scorer exits with a non-zero status, the analysis returns a complete
    report: composite score 0.0, risk level MINIMAL, no risk factor, ten
    entries in registration order.  Every entry has status success and
    score 0.0 (the failure is replaced by the score 0.0), and every model
    is in the weighted breakdown with its own weight and contribution
    zero; the summary counts 10/10 models with confidence high. *)
Theorem all_scorers_failing_report (w0 w : world) (tid now : string) :
  (forall p, path_exists w0 p = true) ->
  (forall script, exists cp,
      subprocess_run w [sys_executable w; script; tid] 30 = Ok cp
      /\ returncode cp <> 0%Z) ->
  exists r ra sm,
    analyze_tweet_comprehensive (__init__ w0) w tid now = Ok r
    /\ (composite_score r == 0)%Q
    /\ risk_assessment r = Some ra
    /\ risk_level ra = "MINIMAL"
    /\ top_risk_factors ra = []
    /\ keys (model_results r) = keys default_weights
    /\ length (model_results r) = 10%nat
    /\ Forall (fun e => status e = "success" /\ score e = Some 0%Q)
         (values (model_results r))
    /\ map (fun it => (fst it, weight (snd it))) (weighted_breakdown r)
       = default_weights
    /\ Forall (fun b => raw_score b = 0%Q /\ (weighted_contribution b == 0)%Q)
         (values (weighted_breakdown r))
    /\ summary r = Some sm
    /\ models_analyzed sm = "10/10"
    /\ analysis_confidence sm = "high"
    /\ recommendations sm = ["Engagement appears genuine"].
Proof.
  intros Hpres Hfail. rewrite (@init_all_present w0 Hpres).
  destruct (analyze_spec all_loaded w tid now all_loaded_NoDup)
    as (r & ra & sm & fs & Hr & _ & _ & Hmr & Hbd & [Hc1 _] & Hra & Hsm
        & Hfs & Era & Hgen).
  change (loaded_names (models all_loaded)) with (keys default_weights) in *.
  cbn [keys default_weights map fst flat_map] in Hmr, Hbd, Hc1.
  unfold named_entry in Hmr. unfold named_outcome in Hbd.
  repeat match type of Hmr with
         | context [outcome_of all_loaded w tid ?n] =>
             rewrite (@all_fail_outcome all_loaded w tid n _ _ _ Hfail
                        eq_refl eq_refl eq_refl) in Hmr, Hbd, Hc1
         end.
  cbn [entry_of] in Hmr.
  cbn [breakdown_items breakdown_of fst snd app] in Hbd.
  cbn [outcome_weight outcome_contribution] in Hc1.
  assert (Hc : (composite_score r == 0)%Q)
    by (rewrite Hc1; [|reflexivity]; vm_compute; reflexivity).
  rewrite Hmr in Hfs. vm_compute in Hfs. injection Hfs as <-.
  rewrite (@risk_level_of_compat _ _ Hc) in Era.
  unfold _generate_summary in Hgen. cbn [risk_assessment exc_bind] in Hgen.
  cbn [model_results composite_score] in Hgen.
  rewrite (@recommendations_of_compat _ _ Hc), Hmr in Hgen.
  injection Hgen as <-. subst ra.
  exists r. eexists. eexists. split; [exact Hr|]. split; [exact Hc|].
  split; [exact Hra|]. rewrite Hmr, Hbd.
  split; [reflexivity|]. split; [reflexivity|]. split; [reflexivity|].
  split; [reflexivity|].
  split; [repeat constructor|]. split; [reflexivity|].
  split; [repeat constructor; vm_compute; reflexivity|].
  split; [exact Hsm|]. repeat split.
Qed.

Lemma all_scorers_failing_report_witness :
  (forall p, path_exists world_all_fail p = true)
  /\ (forall script, exists cp,
        subprocess_run world_all_fail
          [sys_executable world_all_fail; script; "1234567890"] 30 = Ok cp
        /\ returncode cp <> 0%Z)
  /\ exists r ra sm,
       analyze_tweet_comprehensive (__init__ world_all_fail) world_all_fail
         "1234567890" "2024-01-01T00:00:00" = Ok r
       /\ (composite_score r == 0)%Q
       /\ risk_assessment r = Some ra
       /\ risk_level ra = "MINIMAL"
       /\ top_risk_factors ra = []
       /\ keys (model_results r) = keys default_weights
       /\ length (model_results r) = 10%nat
       /\ Forall (fun e => status e = "success" /\ score e = Some 0%Q)
            (values (model_results r))
       /\ map (fun it => (fst it, weight (snd it))) (weighted_breakdown r)
          = default_weights
       /\ Forall (fun b => raw_score b = 0%Q /\ (weighted_contribution b == 0)%Q)
            (values (weighted_breakdown r))
       /\ summary r = Some sm
       /\ models_analyzed sm = "10/10"
       /\ analysis_confidence sm = "high"
       /\ recommendations sm = ["Engagement appears genuine"].
Proof.
  assert (H1 : forall p, path_exists world_all_fail p = true)
    by (intros p; reflexivity).
  assert (H2 : forall script, exists cp,
             subprocess_run world_all_fail
               [sys_executable world_all_fail; script; "1234567890"] 30 = Ok cp
             /\ returncode cp <> 0%Z).
  { intros script. eexists. split; [reflexivity | discriminate]. }
  split; [exact H1|]. split; [exact H2|].
  apply (@all_scorers_failing_report world_all_fail world_all_fail
           "1234567890" "2024-01-01T00:00:00" H1 H2).
Defined.

(** C2 as stated fails in its account of the outcomes: with all ten
    scorers exiting with status 1 the report does have composite 0.0 and
    level MINIMAL, but no entry has status error (all ten have status
    success), and every model is in the weighted breakdown, the weights
    adding up to 7.5. *)
Lemma failing_scorers_are_not_status_error :
  (forall script, exists cp,
      subprocess_run world_all_fail
        [sys_executable world_all_fail; script; "1234567890"] 30 = Ok cp
      /\ returncode cp <> 0%Z)
  /\ exists r,
       analyze_tweet_comprehensive (__init__ world_all_fail) world_all_fail
         "1234567890" "2024-01-01T00:00:00" = Ok r
       /\ length (model_results r) = 10%nat
       /\ ~ In "error" (map status (values (model_results r)))
       /\ map status (values (model_results r)) = repeat "success" 10
       /\ length (weighted_breakdown r) = 10%nat
       /\ (Qsum (map weight (values (weighted_breakdown r))) == 7.5)%Q.
Proof.
  split.
  { intros script. eexists. split; [reflexivity | discriminate]. }
  eexists. split; [vm_compute; reflexivity|].
  split; [reflexivity|]. split.
  { vm_compute. intros H.
    repeat (destruct H as [H|H]; [discriminate H|]). exact H. }
  split; [reflexivity|]. split; [reflexivity|].
  vm_compute. reflexivity.
Qed.

(* ================================================================== *)
(** ** Three successful models *)

Lemma succeeds_with_outcome (self : EngagementConcordanceScore) (w : world)
    (tid n : string) (q wt : Q) :
  succeeds_with self w tid n q wt ->
  exists q' wt' k,
    outcome_of self w tid n = Scored [(k, q')] q' wt'
    /\ (q' == q)%Q /\ (wt' == wt)%Q.
Proof.
  intros (q' & wt' & k & He & Eq & Hq & Hk & Hw & Ew).
  exists q', wt', k. split; [|auto].
  eapply emits_in_range; eassumption.
Qed.

(** C8, as the arithmetic has it.  When exactly three models are loaded
    and they succeed with scores 0.8, 0.6 and 0.4 at weights 1.0, 0.6 and
    0.6, the composite score is
    (0.8*1.0 + 0.6*0.6 + 0.4*0.6) / (1.0 + 0.6 + 0.6) = 1.4/2.2 = 7/11
    (about 0.636), and the risk level is HIGH. *)
Theorem three_models_composite
    (self : EngagementConcordanceScore) (w : world) (tid now n1 n2 n3 : string) :
  NoDup (keys (models self)) ->
  loaded_names (models self) = [n1; n2; n3] ->
  succeeds_with self w tid n1 0.8 1.0 ->
  succeeds_with self w tid n2 0.6 0.6 ->
  succeeds_with self w tid n3 0.4 0.6 ->
  exists r ra,
    analyze_tweet_comprehensive self w tid now = Ok r
    /\ map status (values (model_results r)) = ["success"; "success"; "success"]
    /\ (composite_score r
        == (0.8 * 1.0 + 0.6 * 0.6 + 0.4 * 0.6) / (1.0 + 0.6 + 0.6))%Q
    /\ (composite_score r == 1.4 / 2.2)%Q
    /\ (0.636 < composite_score r < 0.637)%Q
    /\ risk_assessment r = Some ra
    /\ risk_level ra = "HIGH".
Proof.
  intros Hnd Hnames H1 H2 H3.
  destruct (succeeds_with_outcome H1) as (q1 & w1 & k1 & Ho1 & Eq1 & Ew1).
  destruct (succeeds_with_outcome H2) as (q2 & w2 & k2 & Ho2 & Eq2 & Ew2).
  destruct (succeeds_with_outcome H3) as (q3 & w3 & k3 & Ho3 & Eq3 & Ew3).
  destruct (analyze_spec self w tid now Hnd)
    as (r & ra & sm & fs & Hr & _ & _ & Hmr & _ & [Hc1 _] & Hra & _ & _ & Era & _).
  rewrite Hnames in Hmr, Hc1.
  cbn [map] in Hmr, Hc1. unfold named_entry in Hmr.
  rewrite Ho1, Ho2, Ho3 in Hmr, Hc1.
  cbn [outcome_weight outcome_contribution Qsum fold_right] in Hc1.
  assert (Hc : (composite_score r == 1.4 / 2.2)%Q).
  { rewrite Hc1.
    - rewrite Eq1, Eq2, Eq3, Ew1, Ew2, Ew3. vm_compute. reflexivity.
    - rewrite Ew1, Ew2, Ew3. vm_compute. reflexivity. }
  exists r, ra. split; [exact Hr|].
  split; [rewrite Hmr; reflexivity|].
  split; [rewrite Hc; vm_compute; reflexivity|].
  split; [exact Hc|].
  split; [rewrite Hc; split; vm_compute; reflexivity|].
  split; [exact Hra|].
  rewrite Era. cbn [risk_level].
  rewrite (@risk_level_of_compat _ _ Hc). reflexivity.
Qed.

Lemma three_models_composite_witness :
  NoDup (keys (models (__init__ world_three_models)))
  /\ loaded_names (models (__init__ world_three_models))
     = ["coordinated_network"; "emotive_manipulation"; "generic_comment"]
  /\ succeeds_with (__init__ world_three_models) world_three_models
       "1234567890" "coordinated_network" 0.8 1.0
  /\ succeeds_with (__init__ world_three_models) world_three_models
       "1234567890" "emotive_manipulation" 0.6 0.6
  /\ succeeds_with (__init__ world_three_models) world_three_models
       "1234567890" "generic_comment" 0.4 0.6
  /\ exists r ra,
       analyze_tweet_comprehensive (__init__ world_three_models)
         world_three_models "1234567890" "2024-01-01T00:00:00" = Ok r
       /\ map status (values (model_results r))
          = ["success"; "success"; "success"]
       /\ (composite_score r
           == (0.8 * 1.0 + 0.6 * 0.6 + 0.4 * 0.6) / (1.0 + 0.6 + 0.6))%Q
       /\ (composite_score r == 1.4 / 2.2)%Q
       /\ (0.636 < composite_score r < 0.637)%Q
       /\ risk_assessment r = Some ra
       /\ risk_level ra = "HIGH".
Proof.
  assert (H0 : NoDup (keys (models (__init__ world_three_models))))
    by apply init_NoDup.
  assert (Hn : loaded_names (models (__init__ world_three_models))
               = ["coordinated_network"; "emotive_manipulation"; "generic_comment"])
    by (vm_compute; reflexivity).
  assert (H1 : succeeds_with (__init__ world_three_models) world_three_models
                 "1234567890" "coordinated_network" 0.8 1.0).
  { exists 0.8%Q, 1.0%Q, "coordination_score". split.
    - eexists. split.
      + exists "../Coordinated_Account_Network_Model".
        repeat split; vm_compute; reflexivity.
      + split; vm_compute; reflexivity.
    - repeat split; vm_compute; try reflexivity; discriminate. }
  assert (H2 : succeeds_with (__init__ world_three_models) world_three_models
                 "1234567890" "emotive_manipulation" 0.6 0.6).
  { exists 0.6%Q, 0.6%Q, "manipulation_score". split.
    - eexists. split.
      + exists "../Emotive_Manipulation_Detector".
        repeat split; vm_compute; reflexivity.
      + split; vm_compute; reflexivity.
    - repeat split; vm_compute; try reflexivity; discriminate. }
  assert (H3 : succeeds_with (__init__ world_three_models) world_three_models
                 "1234567890" "generic_comment" 0.4 0.6).
  { exists 0.4%Q, 0.6%Q, "generic_content_score". split.
    - eexists. split.
      + exists "../Generic_Comment_Detector".
        repeat split; vm_compute; reflexivity.
      + split; vm_compute; reflexivity.
    - repeat split; vm_compute; try reflexivity; discriminate. }
  split; [exact H0|]. split; [exact Hn|]. split; [exact H1|].
  split; [exact H2|]. split; [exact H3|].
  apply (@three_models_composite (__init__ world_three_models)
           world_three_models "1234567890" "2024-01-01T00:00:00"
           "coordinated_network" "emotive_manipulation" "generic_comment"
           H0 Hn H1 H2 H3).
Defined.

(** C8 as stated fails on its arithmetic: in the scenario of the claim
    (scores 0.8, 0.6, 0.4 at weights 1.0, 0.6, 0.6, no other model
    loaded) the weighted sum is 1.4, not 1.04; the composite is 7/11, not
    1.04/2.2, and the level is HIGH, not MODERATE. *)
Lemma three_models_composite_is_not_moderate :
  exists r ra,
    analyze_tweet_comprehensive (__init__ world_three_models)
      world_three_models "1234567890" "2024-01-01T00:00:00" = Ok r
    /\ successful_scores (model_results r) = [0.8; 0.6; 0.4]%Q
    /\ map weight (values (weighted_breakdown r)) = [1.0; 0.6; 0.6]%Q
    /\ length (model_results r) = 3%nat
    /\ (composite_score r == 7 / 11)%Q
    /\ ~ (composite_score r == 1.04 / 2.2)%Q
    /\ risk_assessment r = Some ra
    /\ risk_level ra = "HIGH"
    /\ risk_level ra <> "MODERATE".
Proof.
  eexists. eexists. split; [vm_compute; reflexivity|].
  split; [vm_compute; reflexivity|]. split; [vm_compute; reflexivity|].
  split; [reflexivity|]. split; [vm_compute; reflexivity|].
  split; [vm_compute; discriminate|]. split; [reflexivity|].
  split; [reflexivity | discriminate].
Qed.

(* ================================================================== *)
(** ** Loading the models *)

Lemma dict_get_set_other {V} (d : dict V) (k k' : string) (v : V) :
  k <> k' -> dict_get (dict_set d k v) k' = dict_get d k'.
Proof.
  intros Hne. induction d as [|[k0 v0] d IH]; simpl.
  - destruct (String.eqb_spec k k'); [contradiction | reflexivity].
  - destruct (String.eqb_spec k0 k) as [->|Hk]; simpl.
    + destruct (String.eqb_spec k k'); [contradiction | reflexivity].
    + now rewrite IH.
Qed.

Lemma dict_set_same {V} (d : dict V) (k : string) (v : V) :
  dict_get d k = Some v -> dict_set d k v = d.
Proof.
  induction d as [|[k0 v0] d IH]; simpl; [discriminate|].
  destruct (String.eqb_spec k0 k) as [->|Hk].
  - now intros [= ->].
  - intros H. now rewrite IH.
Qed.

Lemma load_model_closed (w : world) (self : EngagementConcordanceScore)
    (item : string * string) :
  load_model w self item = set_models self (set_loaded w (models self) item).
Proof.
  destruct item as [n p]. unfold load_model, set_loaded, load_info. simpl.
  destruct (negb (path_exists w (path_join (module_dir w) p))); [reflexivity|].
  destruct (negb (path_exists w _)); reflexivity.
Qed.

Lemma load_models_closed (w : world) (self : EngagementConcordanceScore) :
  load_models w self
  = set_models self (fold_left (set_loaded w) (model_paths self) (models self)).
Proof.
  unfold load_models. generalize (model_paths self) as items. intros items.
  revert self. induction items as [|item items IH]; intros self.
  - now destruct self.
  - cbn [fold_left]. rewrite IH, load_model_closed. reflexivity.
Qed.

Lemma fold_set_loaded_fresh (w : world) (items : dict string) :
  forall d : dict model_info,
    NoDup (keys items) ->
    (forall n, In n (keys items) -> ~ In n (keys d)) ->
    fold_left (set_loaded w) items d
    = d ++ map (fun kv => (fst kv, load_info w (snd kv))) items.
Proof.
  induction items as [|[n p] items IH]; intros d Hnd Hfresh.
  - simpl. now rewrite app_nil_r.
  - inversion Hnd as [|? ? Hn Hnd']; subst. cbn [fold_left map].
    unfold set_loaded at 2. cbn [fst snd].
    rewrite dict_set_fresh by (apply Hfresh; now left).
    rewrite IH; [now rewrite <- app_assoc | exact Hnd' |].
    intros m Hm. unfold keys. rewrite map_app. intros HIn.
    apply in_app_or in HIn. destruct HIn as [HIn|[<-|[]]].
    + apply (Hfresh m); [now right | exact HIn].
    + contradiction.
Qed.

Lemma fold_set_loaded_other (w : world) (items : dict string) (n : string) :
  forall d : dict model_info,
    ~ In n (keys items) ->
    dict_get (fold_left (set_loaded w) items d) n = dict_get d n.
Proof.
  induction items as [|[m p] items IH]; intros d Hn; [reflexivity|].
  cbn [fold_left]. rewrite IH by (intros H; apply Hn; now right).
  unfold set_loaded. cbn [fst snd]. apply dict_get_set_other.
  intros ->. apply Hn. now left.
Qed.

Lemma fold_set_loaded_get (w : world) (items : dict string) (n p : string) :
  forall d : dict model_info,
    NoDup (keys items) ->
    In (n, p) items ->
    dict_get (fold_left (set_loaded w) items d) n = Some (load_info w p).
Proof.
  induction items as [|[m q] items IH]; intros d Hnd HIn; [easy|].
  inversion Hnd as [|? ? Hm Hnd']; subst. cbn [fold_left].
  destruct HIn as [[= -> ->]|HIn].
  - rewrite fold_set_loaded_other by exact Hm.
    unfold set_loaded. cbn [fst snd]. apply dict_get_set_same.
  - now apply IH.
Qed.

(** X1.  Starting from an object without models, [load_models] gives one
    entry to every registered model directory, in registration order,
    whether the model can be loaded or not, and leaves the five registry
    tables as they were. *)
Theorem load_models_registers_every_model
    (w : world) (self : EngagementConcordanceScore) :
  models self = [] ->
  NoDup (keys (model_paths self)) ->
  keys (models (load_models w self)) = keys (model_paths self)
  /\ length (models (load_models w self)) = length (model_paths self)
  /\ weights (load_models w self) = weights self
  /\ model_paths (load_models w self) = model_paths self
  /\ model_files (load_models w self) = model_files self
  /\ analysis_methods (load_models w self) = analysis_methods self
  /\ score_keys (load_models w self) = score_keys self.
Proof.
  intros Hempty Hnd. rewrite load_models_closed. cbn.
  rewrite Hempty, fold_set_loaded_fresh; [|exact Hnd | simpl; tauto].
  cbn [app]. unfold keys. rewrite map_map, length_map. cbn [fst].
  repeat split; reflexivity.
Qed.

Lemma load_models_registers_every_model_witness :
  models registry = []
  /\ NoDup (keys (model_paths registry))
  /\ keys (models (load_models world_clickbait_missing registry))
     = keys (model_paths registry)
  /\ length (models (load_models world_clickbait_missing registry))
     = length (model_paths registry)
  /\ weights (load_models world_clickbait_missing registry) = weights registry
  /\ model_paths (load_models world_clickbait_missing registry)
     = model_paths registry
  /\ model_files (load_models world_clickbait_missing registry)
     = model_files registry
  /\ analysis_methods (load_models world_clickbait_missing registry)
     = analysis_methods registry
  /\ score_keys (load_models world_clickbait_missing registry)
     = score_keys registry.
Proof.
  assert (H1 : models registry = []) by reflexivity.
  assert (H2 : NoDup (keys (model_paths registry))).
  { repeat constructor; simpl; intros H;
      repeat (destruct H as [H|H]; [discriminate H|]); exact H. }
  split; [exact H1|]. split; [exact H2|].
  apply (@load_models_registers_every_model world_clickbait_missing registry H1 H2).
Defined.

(** X2.  After [load_models] a registered model is marked loaded exactly
    when its directory and the [simple_score.py] in it both exist; the
    recorded reason is "Directory not found" when the directory is
    missing and "simple_score.py not found" when only the script is, and
    a loaded model has no reason recorded. *)
Theorem load_models_marks_available_models
    (w : world) (self : EngagementConcordanceScore) (n p : string) :
  NoDup (keys (model_paths self)) ->
  In (n, p) (model_paths self) ->
  exists info,
    dict_get (models (load_models w self)) n = Some info
    /\ (loaded info = true
        <-> path_exists w (path_join (module_dir w) p) = true
            /\ path_exists w (script_path_of w p) = true)
    /\ (path_exists w (path_join (module_dir w) p) = false ->
        load_error info = Some "Directory not found")
    /\ (path_exists w (path_join (module_dir w) p) = true ->
        path_exists w (script_path_of w p) = false ->
        load_error info = Some "simple_score.py not found")
    /\ (loaded info = true -> load_error info = None).
Proof.
  intros Hnd HIn. exists (load_info w p).
  rewrite load_models_closed. cbn [models set_models].
  rewrite (@fold_set_loaded_get w (model_paths self) n p (models self) Hnd HIn).
  split; [reflexivity|].
  unfold load_info, script_path_of.
  destruct (path_exists w (path_join (module_dir w) p)); simpl;
    [destruct (path_exists w (path_join _ "simple_score.py")); simpl|];
    repeat split; intros; try discriminate; try tauto; try reflexivity;
    match goal with H : _ /\ _ |- _ => destruct H; discriminate end.
Qed.

Lemma load_models_marks_available_models_witness :
  NoDup (keys (model_paths registry))
  /\ In ("clickbait", "../Clickbait_Headline_Classifier") (model_paths registry)
  /\ exists info,
       dict_get (models (load_models world_clickbait_missing registry))
         "clickbait" = Some info
       /\ (loaded info = true
           <-> path_exists world_clickbait_missing
                 (path_join (module_dir world_clickbait_missing)
                    "../Clickbait_Headline_Classifier") = true
               /\ path_exists world_clickbait_missing
                    (script_path_of world_clickbait_missing
                       "../Clickbait_Headline_Classifier") = true)
       /\ (path_exists world_clickbait_missing
             (path_join (module_dir world_clickbait_missing)
                "../Clickbait_Headline_Classifier") = false ->
           load_error info = Some "Directory not found")
       /\ (path_exists world_clickbait_missing
             (path_join (module_dir world_clickbait_missing)
                "../Clickbait_Headline_Classifier") = true ->
           path_exists world_clickbait_missing
             (script_path_of world_clickbait_missing
                "../Clickbait_Headline_Classifier") = false ->
           load_error info = Some "simple_score.py not found")
       /\ (loaded info = true -> load_error info = None).
Proof.
  assert (H1 : NoDup (keys (model_paths registry))).
  { repeat constructor; simpl; intros H;
      repeat (destruct H as [H|H]; [discriminate H|]); exact H. }
  assert (H2 : In ("clickbait", "../Clickbait_Headline_Classifier")
                 (model_paths registry)) by (simpl; tauto).
  split; [exact H1|]. split; [exact H2|].
  apply (@load_models_marks_available_models world_clickbait_missing registry
           "clickbait" "../Clickbait_Headline_Classifier" H1 H2).
Defined.

(** X3.  Loading the models a second time in an unchanged world changes
    nothing. *)
Theorem load_models_idempotent (w : world) (self : EngagementConcordanceScore) :
  NoDup (keys (model_paths self)) ->
  load_models w (load_models w self) = load_models w self.
Proof.
  intros Hnd. rewrite (load_models_closed w (load_models w self)).
  rewrite load_models_closed. cbn [models model_paths set_models].
  set (d := fold_left (set_loaded w) (model_paths self) (models self)).
  assert (Hfix : forall items : dict string,
             (forall n p, In (n, p) items -> dict_get d n = Some (load_info w p)) ->
             fold_left (set_loaded w) items d = d).
  { induction items as [|[n p] items IH]; intros Hget; [reflexivity|].
    cbn [fold_left]. unfold set_loaded at 2. cbn [fst snd].
    rewrite dict_set_same by (apply Hget; now left).
    apply IH. intros m q Hm. apply Hget. now right. }
  rewrite Hfix; [reflexivity|].
  intros n p HIn. subst d. now apply fold_set_loaded_get.
Qed.

Lemma load_models_idempotent_witness :
  NoDup (keys (model_paths registry))
  /\ load_models world_three_models (load_models world_three_models registry)
     = load_models world_three_models registry.
Proof.
  assert (H1 : NoDup (keys (model_paths registry))).
  { repeat constructor; simpl; intros H;
      repeat (destruct H as [H|H]; [discriminate H|]); exact H. }
  split; [exact H1|].
  apply (@load_models_idempotent world_three_models registry H1).
Defined.

(* ================================================================== *)
(** ** Fault isolation in the analysis *)

Section Isolation.
Variable self : EngagementConcordanceScore.
Variable w : world.
Variable tid : string.

Lemma run_simple_score_KeyError (model_name : string) :
  dict_get (score_keys self) model_name = None ->
  run_simple_score self w tid model_name = Raise (KeyError model_name).
Proof.
  intros Hk. pose proof (zero_result_raise self _ Hk) as Hz.
  unfold run_simple_score, exc_catch, exc_bind. rewrite Hz.
  unfold getitem. rewrite Hk.
  destruct (dict_get (model_paths self) model_name); [|reflexivity].
  destruct (path_exists w _); [|reflexivity].
  destruct (subprocess_run w _ 30) as [cp|e]; [|destruct e; reflexivity].
  destruct (returncode cp =? 0)%Z; [|reflexivity].
  destruct (float (strip (stdout cp))) as [f|e].
  - destruct (unit_score f); reflexivity.
  - destruct (is_ValueError e); [reflexivity | destruct e; reflexivity].
Qed.

(** A model with its three registry rows is scored; a model lacking one
    of them gets the error entry of a [KeyError] on its own name. *)
Lemma outcome_of_registered (model_name : string) :
  (registered self model_name
   /\ exists k q wt,
        dict_get (score_keys self) model_name = Some k
        /\ dict_get (weights self) model_name = Some wt
        /\ in_unit_interval q = true
        /\ outcome_of self w tid model_name = Scored [(k, q)] q wt)
  \/ (~ registered self model_name
      /\ outcome_of self w tid model_name
         = Failed (error_entry (KeyError model_name))).
Proof.
  unfold registered.
  destruct (dict_get (analysis_methods self) model_name) as [m|] eqn:Hm.
  2:{ right. split; [tauto|].
      unfold outcome_of, model_result_of, getitem. now rewrite Hm. }
  destruct (dict_get (score_keys self) model_name) as [k|] eqn:Hk.
  2:{ right. split; [tauto|].
      unfold outcome_of, model_result_of, getitem, exc_bind. rewrite Hm.
      destruct (String.eqb m "simple_score").
      - now rewrite (run_simple_score_KeyError _ Hk).
      - now rewrite (zero_result_raise self _ Hk). }
  assert (Hmr : exists q, model_result_of self w tid model_name = Ok [(k, q)]
                          /\ in_unit_interval q = true).
  { unfold model_result_of, getitem, exc_bind. rewrite Hm.
    destruct (String.eqb m "simple_score").
    - apply run_simple_score_shape, Hk.
    - rewrite (zero_result_ok self _ Hk). exists 0%Q. auto. }
  destruct Hmr as (q & Hmr & Hq).
  destruct (dict_get (weights self) model_name) as [wt|] eqn:Hw.
  - left. split; [repeat split; discriminate|].
    exists k, q, wt. repeat split; try assumption.
    unfold outcome_of, getitem. rewrite Hmr, Hk. simpl.
    now rewrite String.eqb_refl, Hq, Hw.
  - right. split; [tauto|].
    unfold outcome_of, getitem. rewrite Hmr, Hk. simpl.
    now rewrite String.eqb_refl, Hq, Hw.
Qed.

Lemma scorer_failure_result (model_name k : string) :
  scorer_failure self w tid model_name ->
  dict_get (score_keys self) model_name = Some k ->
  model_result_of self w tid model_name = Ok [(k, 0%Q)].
Proof.
  intros Hfail Hk. pose proof (zero_result_ok self _ Hk) as Hz.
  destruct Hfail as [m Hm Hne | Hm Hp | p Hm Hp Hex | cp Hcall Hrc
                    | cp e Hcall Hrc Hf | cp f Hcall Hrc Hf Hnf | e Hcall].
  - unfold model_result_of, getitem, exc_bind. rewrite Hm.
    destruct (String.eqb_spec m "simple_score"); [contradiction | exact Hz].
  - unfold model_result_of, run_simple_score, getitem, exc_bind, exc_catch.
    rewrite Hm, Hp. simpl. exact Hz.
  - unfold model_result_of, run_simple_score, getitem, exc_bind, exc_catch.
    rewrite Hm, Hp. simpl. unfold script_path_of in Hex. now rewrite Hex, Hz.
  - rewrite (scorer_call_result Hcall Hk).
    apply Z.eqb_neq in Hrc. now rewrite Hrc.
  - rewrite (scorer_call_result Hcall Hk), Hrc, Hf. reflexivity.
  - rewrite (scorer_call_result Hcall Hk), Hrc, Hf. simpl.
    destruct f as [q| | |]; try reflexivity. now contradiction (Hnf q).
  - now rewrite (scorer_call_result Hcall Hk).
Qed.
End Isolation.

(** The entry and the breakdown entry of a scored model in the report. *)
Lemma scored_outcome_in_report
    (self : EngagementConcordanceScore) (w : world) (tid now name : string)
    (mr : dict Q) (q wt : Q) :
  NoDup (keys (models self)) ->
  In name (loaded_names (models self)) ->
  outcome_of self w tid name = Scored mr q wt ->
  exists r,
    analyze_tweet_comprehensive self w tid now = Ok r
    /\ dict_get (model_results r) name = Some (success_entry q mr)
    /\ dict_get (weighted_breakdown r) name
       = Some {| raw_score := q; weight := wt;
                 weighted_contribution := (q * wt)%Q |}.
Proof.
  intros Hnd Hin Ho.
  destruct (analyze_spec self w tid now Hnd)
    as (r & ra & sm & fs & Hr & _ & _ & Hmr & Hbd & _).
  exists r. split; [exact Hr|].
  rewrite Hmr, Hbd, dict_get_entries, dict_get_breakdown.
  destruct (in_dec string_dec name (loaded_names (models self)));
    [|contradiction].
  rewrite Ho. split; reflexivity.
Qed.

(** X4.  Whatever the scorer scripts do and whatever rows the registry
    tables lack, the analysis returns a report and no exception escapes
    it; the report carries the tweet id and the time it was given, a
    risk assessment and a summary. *)
Theorem analysis_never_raises
    (self : EngagementConcordanceScore) (w : world) (tid now : string) :
  NoDup (keys (models self)) ->
  exists r ra sm,
    analyze_tweet_comprehensive self w tid now = Ok r
    /\ tweet_id r = tid
    /\ timestamp r = now
    /\ risk_assessment r = Some ra
    /\ summary r = Some sm.
Proof.
  intros Hnd.
  destruct (analyze_spec self w tid now Hnd)
    as (r & ra & sm & fs & Hr & Hid & Hts & _ & _ & _ & Hra & Hsm & _).
  exists r, ra, sm. auto.
Qed.

Lemma analysis_never_raises_witness :
  NoDup (keys (models (__init__ world_timeout)))
  /\ exists r ra sm,
       analyze_tweet_comprehensive (__init__ world_timeout) world_timeout
         "1234567890" "2024-01-01T00:00:00" = Ok r
       /\ tweet_id r = "1234567890"
       /\ timestamp r = "2024-01-01T00:00:00"
       /\ risk_assessment r = Some ra
       /\ summary r = Some sm.
Proof.
  assert (H : NoDup (keys (models (__init__ world_timeout))))
    by apply init_NoDup.
  split; [exact H|].
  apply (@analysis_never_raises (__init__ world_timeout) world_timeout
           "1234567890" "2024-01-01T00:00:00" H).
Defined.

(** X5.  In a report an entry has status success exactly when its model
    has a row in each of [analysis_methods], [score_keys] and [weights];
    otherwise the entry is the error entry whose message is the quoted
    model name (the text of the [KeyError]), with no score and no full
    result.  The statuses invalid_score and score_not_found never occur
    in a report. *)
Theorem report_statuses
    (self : EngagementConcordanceScore) (w : world) (tid now : string) :
  NoDup (keys (models self)) ->
  exists r,
    analyze_tweet_comprehensive self w tid now = Ok r
    /\ (forall n e, In (n, e) (model_results r) ->
          (registered self n /\ status e = "success")
          \/ (~ registered self n
              /\ e = {| score := None; full_result := None;
                        status := "error";
                        error := Some ("'" ++ n ++ "'")%string |}))
    /\ (forall n e, In (n, e) (model_results r) ->
          status e <> "invalid_score" /\ status e <> "score_not_found").
Proof.
  intros Hnd.
  destruct (analyze_spec self w tid now Hnd)
    as (r & ra & sm & fs & Hr & _ & _ & Hmr & _).
  exists r. split; [exact Hr|].
  assert (Hmain : forall n e, In (n, e) (model_results r) ->
            (registered self n /\ status e = "success")
            \/ (~ registered self n
                /\ e = {| score := None; full_result := None;
                          status := "error";
                          error := Some ("'" ++ n ++ "'")%string |})).
  { intros n e HIn. rewrite Hmr in HIn. apply in_map_iff in HIn.
    destruct HIn as (m & [= <- <-] & _).
    destruct (outcome_of_registered self w tid m)
      as [(Hreg & k & q & wt & _ & _ & _ & ->)|(Hreg & ->)].
    - left. split; [exact Hreg | reflexivity].
    - right. split; [exact Hreg | reflexivity]. }
  split; [exact Hmain|].
  intros n e HIn. destruct (Hmain n e HIn) as [[_ Hs]|[_ ->]].
  - rewrite Hs. split; discriminate.
  - split; discriminate.
Qed.

Lemma report_statuses_witness :
  NoDup (keys (models all_loaded_without_clickbait_weight))
  /\ exists r,
       analyze_tweet_comprehensive all_loaded_without_clickbait_weight
         world_all_fail "1234567890" "2024-01-01T00:00:00" = Ok r
       /\ (forall n e, In (n, e) (model_results r) ->
             (registered all_loaded_without_clickbait_weight n
              /\ status e = "success")
             \/ (~ registered all_loaded_without_clickbait_weight n
                 /\ e = {| score := None; full_result := None;
                           status := "error";
                           error := Some ("'" ++ n ++ "'")%string |}))
       /\ (forall n e, In (n, e) (model_results r) ->
             status e <> "invalid_score" /\ status e <> "score_not_found").
Proof.
  assert (H : NoDup (keys (models all_loaded_without_clickbait_weight)))
    by exact all_loaded_NoDup.
  split; [exact H|].
  apply (@report_statuses all_loaded_without_clickbait_weight world_all_fail
           "1234567890" "2024-01-01T00:00:00" H).
Defined.

(** A model without a weight: its entry is the error entry, and it has no
    part in the breakdown. *)
Example missing_weight_is_reported_as_error :
  exists r,
    analyze_tweet_comprehensive all_loaded_without_clickbait_weight
      world_all_fail "1234567890" "2024-01-01T00:00:00" = Ok r
    /\ dict_get (model_results r) "clickbait"
       = Some {| score := None; full_result := None; status := "error";
                 error := Some "'clickbait'" |}
    /\ dict_get (weighted_breakdown r) "clickbait" = None
    /\ length (weighted_breakdown r) = 9%nat.
Proof.
  eexists. split; [vm_compute; reflexivity|].
  repeat split; vm_compute; reflexivity.
Qed.

(** X6.  When the scorer of a loaded model exits with status zero and its
    output, trimmed of surrounding whitespace, parses to a float of
    [0,1], the report records exactly that score with status success,
    keeps the raw result under the score key of the model, and enters
    score, weight and their product in the weighted breakdown. *)
Theorem valid_score_is_recorded
    (self : EngagementConcordanceScore) (w : world) (tid now name k : string)
    (q wt : Q) :
  NoDup (keys (models self)) ->
  In name (loaded_names (models self)) ->
  emits self w tid name q ->
  (0 <= q <= 1)%Q ->
  dict_get (score_keys self) name = Some k ->
  dict_get (weights self) name = Some wt ->
  exists r,
    analyze_tweet_comprehensive self w tid now = Ok r
    /\ dict_get (model_results r) name
       = Some {| score := Some q; full_result := Some [(k, q)];
                 status := "success"; error := None |}
    /\ dict_get (weighted_breakdown r) name
       = Some {| raw_score := q; weight := wt;
                 weighted_contribution := (q * wt)%Q |}.
Proof.
  intros Hnd Hin He Hq Hk Hw.
  apply scored_outcome_in_report; try assumption.
  eapply emits_in_range; eassumption.
Qed.

Lemma valid_score_is_recorded_witness :
  NoDup (keys (models (__init__ world_one_valid)))
  /\ In "clickbait" (loaded_names (models (__init__ world_one_valid)))
  /\ emits (__init__ world_one_valid) world_one_valid
       "1234567890" "clickbait" 0.42
  /\ (0 <= 0.42 <= 1)%Q
  /\ dict_get (score_keys (__init__ world_one_valid)) "clickbait"
     = Some "clickbait_score"
  /\ dict_get (weights (__init__ world_one_valid)) "clickbait" = Some 0.8%Q
  /\ exists r,
       analyze_tweet_comprehensive (__init__ world_one_valid) world_one_valid
         "1234567890" "2024-01-01T00:00:00" = Ok r
       /\ dict_get (model_results r) "clickbait"
          = Some {| score := Some 0.42%Q;
                    full_result := Some [("clickbait_score", 0.42%Q)];
                    status := "success"; error := None |}
       /\ dict_get (weighted_breakdown r) "clickbait"
          = Some {| raw_score := 0.42; weight := 0.8;
                    weighted_contribution := (0.42 * 0.8)%Q |}.
Proof.
  assert (Hnd : NoDup (keys (models (__init__ world_one_valid))))
    by apply init_NoDup.
  assert (Hin : In "clickbait" (loaded_names (models (__init__ world_one_valid))))
    by (vm_compute; tauto).
  assert (He : emits (__init__ world_one_valid) world_one_valid
                 "1234567890" "clickbait" 0.42).
  { eexists. split.
    - exists "../Clickbait_Headline_Classifier".
      repeat split; vm_compute; reflexivity.
    - split; vm_compute; reflexivity. }
  assert (Hq : (0 <= 0.42 <= 1)%Q) by (split; discriminate).
  assert (Hk : dict_get (score_keys (__init__ world_one_valid)) "clickbait"
               = Some "clickbait_score") by (vm_compute; reflexivity).
  assert (Hw : dict_get (weights (__init__ world_one_valid)) "clickbait"
               = Some 0.8%Q) by (vm_compute; reflexivity).
  split; [exact Hnd|]. split; [exact Hin|]. split; [exact He|].
  split; [exact Hq|]. split; [exact Hk|]. split; [exact Hw|].
  apply (@valid_score_is_recorded (__init__ world_one_valid) world_one_valid
           "1234567890" "2024-01-01T00:00:00" "clickbait" "clickbait_score"
           0.42 0.8 Hnd Hin He Hq Hk Hw).
Defined.

(** X7.  Every other way the scorer call of a loaded model can fail (a
    method other than simple_score, no registered path, the script gone
    since loading, a non-zero exit, output that is no float, an infinity
    or a NaN, a call that raises) ends like an out-of-range score: the
    report has the model with status success and score 0.0, and its
    whole weight is in the weighted breakdown. *)
Theorem failed_scorer_counts_as_zero
    (self : EngagementConcordanceScore) (w : world) (tid now name k : string)
    (wt : Q) :
  NoDup (keys (models self)) ->
  In name (loaded_names (models self)) ->
  scorer_failure self w tid name ->
  dict_get (score_keys self) name = Some k ->
  dict_get (weights self) name = Some wt ->
  exists r,
    analyze_tweet_comprehensive self w tid now = Ok r
    /\ dict_get (model_results r) name
       = Some {| score := Some 0%Q; full_result := Some [(k, 0%Q)];
                 status := "success"; error := None |}
    /\ dict_get (weighted_breakdown r) name
       = Some {| raw_score := 0; weight := wt;
                 weighted_contribution := (0 * wt)%Q |}.
Proof.
  intros Hnd Hin Hfail Hk Hw.
  apply scored_outcome_in_report; try assumption.
  apply outcome_of_model_result; try assumption; [|reflexivity].
  now apply scorer_failure_result.
Qed.

Lemma failed_scorer_counts_as_zero_witness :
  NoDup (keys (models (__init__ world_garbage)))
  /\ In "clickbait" (loaded_names (models (__init__ world_garbage)))
  /\ scorer_failure (__init__ world_garbage) world_garbage
       "1234567890" "clickbait"
  /\ dict_get (score_keys (__init__ world_garbage)) "clickbait"
     = Some "clickbait_score"
  /\ dict_get (weights (__init__ world_garbage)) "clickbait" = Some 0.8%Q
  /\ exists r,
       analyze_tweet_comprehensive (__init__ world_garbage) world_garbage
         "1234567890" "2024-01-01T00:00:00" = Ok r
       /\ dict_get (model_results r) "clickbait"
          = Some {| score := Some 0%Q;
                    full_result := Some [("clickbait_score", 0%Q)];
                    status := "success"; error := None |}
       /\ dict_get (weighted_breakdown r) "clickbait"
          = Some {| raw_score := 0; weight := 0.8;
                    weighted_contribution := (0 * 0.8)%Q |}.
Proof.
  assert (Hnd : NoDup (keys (models (__init__ world_garbage))))
    by apply init_NoDup.
  assert (Hin : In "clickbait" (loaded_names (models (__init__ world_garbage))))
    by (vm_compute; tauto).
  assert (Hf : scorer_failure (__init__ world_garbage) world_garbage
                 "1234567890" "clickbait").
  { apply (@unparsable_output (__init__ world_garbage) world_garbage
             "1234567890" "clickbait"
             {| returncode := 0; stdout := "score: high"; stderr := "" |}
             (ValueError "could not convert string to float")).
    - exists "../Clickbait_Headline_Classifier".
      repeat split; vm_compute; reflexivity.
    - reflexivity.
    - vm_compute. reflexivity. }
  assert (Hk : dict_get (score_keys (__init__ world_garbage)) "clickbait"
               = Some "clickbait_score") by (vm_compute; reflexivity).
  assert (Hw : dict_get (weights (__init__ world_garbage)) "clickbait"
               = Some 0.8%Q) by (vm_compute; reflexivity).
  split; [exact Hnd|]. split; [exact Hin|]. split; [exact Hf|].
  split; [exact Hk|]. split; [exact Hw|].
  apply (@failed_scorer_counts_as_zero (__init__ world_garbage) world_garbage
           "1234567890" "2024-01-01T00:00:00" "clickbait" "clickbait_score"
           0.8 Hnd Hin Hf Hk Hw).
Defined.

(* ================================================================== *)
(** ** Range and shape of the report *)




(** X9.  When no model is loaded (none registered, or none available),
    the analysis still returns: no entries, no breakdown, composite
    score exactly 0.0, level MINIMAL, no risk factor, zero successful
    models out of the registered ones, confidence low and the single
    recommendation that engagement appears genuine. *)
Theorem analysis_without_loaded_models
    (self : EngagementConcordanceScore) (w : world) (tid now : string) :
  loaded_names (models self) = [] ->
  exists r ra sm,
    analyze_tweet_comprehensive self w tid now = Ok r
    /\ model_results r = []
    /\ weighted_breakdown r = []
    /\ composite_score r = 0%Q
    /\ risk_assessment r = Some ra
    /\ risk_level ra = "MINIMAL"
    /\ top_risk_factors ra = []
    /\ summary r = Some sm
    /\ successful_models sm = 0%nat
    /\ total_models sm = length (models self)
    /\ models_analyzed sm
       = ("0/" ++ nat_str (length (models self)))%string
    /\ analysis_confidence sm = "low"
    /\ recommendations sm = ["Engagement appears genuine"].
Proof.
  intros Hnone.
  unfold analyze_tweet_comprehensive, analyze_frame.
  unfold bind at 1. rewrite run_models_outcomes, Hnone.
  cbn [apply_outcomes]. do 3 eexists. split; [reflexivity|].
  repeat split; reflexivity.
Qed.

Lemma analysis_without_loaded_models_witness :
  loaded_names (models (__init__ world_nothing_installed)) = []
  /\ exists r ra sm,
       analyze_tweet_comprehensive (__init__ world_nothing_installed)
         world_nothing_installed "1234567890" "2024-01-01T00:00:00" = Ok r
       /\ model_results r = []
       /\ weighted_breakdown r = []
       /\ composite_score r = 0%Q
       /\ risk_assessment r = Some ra
       /\ risk_level ra = "MINIMAL"
       /\ top_risk_factors ra = []
       /\ summary r = Some sm
       /\ successful_models sm = 0%nat
       /\ total_models sm = length (models (__init__ world_nothing_installed))
       /\ models_analyzed sm
          = ("0/" ++ nat_str (length (models (__init__ world_nothing_installed))))%string
       /\ analysis_confidence sm = "low"
       /\ recommendations sm = ["Engagement appears genuine"].
Proof.
  assert (H : loaded_names (models (__init__ world_nothing_installed)) = [])
    by (vm_compute; reflexivity).
  split; [exact H|].
  apply (@analysis_without_loaded_models (__init__ world_nothing_installed)
           world_nothing_installed "1234567890" "2024-01-01T00:00:00" H).
Defined.

(** X10.  The parts of a report agree with one another: the risk
    assessment repeats the composite score and carries the level and
    description that classify it; the summary holds that score as the
    text of its three-decimal rendering and repeats that level, and its
    recommendations are those of the composite score; the number of
    successful models in the summary is the number of entries of the
    weighted breakdown, is at most the number of loaded models, and
    that is at most the total. *)
Theorem report_is_consistent
    (self : EngagementConcordanceScore) (w : world) (tid now : string) :
  NoDup (keys (models self)) ->
  exists r ra sm,
    analyze_tweet_comprehensive self w tid now = Ok r
    /\ risk_assessment r = Some ra
    /\ summary r = Some sm
    /\ ra_composite_score ra = composite_score r
    /\ (risk_level ra, risk_description ra) = risk_level_of (composite_score r)
    /\ sm_composite_score sm = format_3f (composite_score r)
    /\ sm_risk_level sm = risk_level ra
    /\ recommendations sm = recommendations_of (composite_score r)
    /\ analysis_confidence sm = confidence_of (successful_models sm)
    /\ successful_models sm = length (weighted_breakdown r)
    /\ (successful_models sm <= length (model_results r))%nat
    /\ length (model_results r) = length (loaded_names (models self))
    /\ (length (model_results r) <= total_models sm)%nat
    /\ total_models sm = length (models self).
Proof.
  intros Hnd.
  destruct (analyze_spec self w tid now Hnd)
    as (r & ra & sm & fs & Hr & _ & _ & Hmr & Hbd & _ & Hra & Hsm & _ & Era & Hgen).
  exists r, ra, sm. split; [exact Hr|]. split; [exact Hra|]. split; [exact Hsm|].
  unfold _generate_summary in Hgen. cbn [risk_assessment exc_bind] in Hgen.
  cbn [model_results composite_score] in Hgen.
  injection Hgen as <-. cbn.
  set (names := loaded_names (models self)) in *.
  assert (Hcount : length (filter is_success (values (model_results r)))
                   = length (weighted_breakdown r)).
  { rewrite Hmr, Hbd. clear. induction names as [|n names IH]; [reflexivity|].
    cbn [map flat_map values]. rewrite length_app.
    unfold values in IH. cbn [filter].
    unfold named_entry at 1, named_outcome at 1, breakdown_items at 1.
    cbn [fst snd].
    destruct (outcome_of_cases self w tid n)
      as [(k & q & wt & _ & _ & _ & _ & ->)|[e ->]]; cbn; now rewrite IH. }
  assert (Hlen : length (model_results r) = length names)
    by (rewrite Hmr; apply length_map).
  rewrite Era. cbn [ra_composite_score risk_level risk_description].
  split; [reflexivity|]. split; [now destruct (risk_level_of (composite_score r))|].
  split; [reflexivity|]. split; [reflexivity|]. split; [reflexivity|].
  split; [reflexivity|]. split; [exact Hcount|].
  split.
  { unfold values. rewrite <- (length_map snd (model_results r)).
    apply filter_length_le. }
  split; [exact Hlen|]. split; [|reflexivity].
  rewrite Hlen. subst names. unfold loaded_names, keys. rewrite length_map.
  apply filter_length_le.
Qed.

Lemma report_is_consistent_witness :
  NoDup (keys (models (__init__ world_clickbait_missing)))
  /\ exists r ra sm,
       analyze_tweet_comprehensive (__init__ world_clickbait_missing)
         world_clickbait_missing "1234567890" "2024-01-01T00:00:00" = Ok r
       /\ risk_assessment r = Some ra
       /\ summary r = Some sm
       /\ ra_composite_score ra = composite_score r
       /\ (risk_level ra, risk_description ra)
          = risk_level_of (composite_score r)
       /\ sm_composite_score sm = format_3f (composite_score r)
       /\ sm_risk_level sm = risk_level ra
       /\ recommendations sm = recommendations_of (composite_score r)
       /\ analysis_confidence sm = confidence_of (successful_models sm)
       /\ successful_models sm = length (weighted_breakdown r)
       /\ (successful_models sm <= length (model_results r))%nat
       /\ length (model_results r)
          = length (loaded_names (models (__init__ world_clickbait_missing)))
       /\ (length (model_results r) <= total_models sm)%nat
       /\ total_models sm = length (models (__init__ world_clickbait_missing)).
Proof.
  assert (H : NoDup (keys (models (__init__ world_clickbait_missing))))
    by apply init_NoDup.
  split; [exact H|].
  apply (@report_is_consistent (__init__ world_clickbait_missing)
           world_clickbait_missing "1234567890" "2024-01-01T00:00:00" H).
Defined.

(** The three-decimal rendering: a tie goes to the even thousandth, and
    a negative value that rounds to zero keeps its sign. *)
Example format_3f_values :
  format_3f 0 = "0.000"
  /\ format_3f 1 = "1.000"
  /\ format_3f 0.5996 = "0.600"
  /\ format_3f (1 # 16) = "0.062"
  /\ format_3f 12.3456 = "12.346"
  /\ format_3f (- 0.0001) = "-0.000".
Proof. repeat split; vm_compute; reflexivity. Qed.

(** The rendering can cross a threshold the level did not: a composite
    score of 0.5996 is MODERATE and shows as 0.600 in the summary. *)
Example summary_renders_across_a_threshold :
  exists ra sm,
    _assess_overall_risk registry
      (with_composite_score (new_results "1" "t") 0.5996) = Ok ra
    /\ _generate_summary registry
         (with_risk_assessment
            (with_composite_score (new_results "1" "t") 0.5996) ra) = Ok sm
    /\ sm_risk_level sm = "MODERATE"
    /\ sm_composite_score sm = "0.600".
Proof.
  eexists. eexists. split; [vm_compute; reflexivity|].
  split; [vm_compute; reflexivity|]. split; reflexivity.
Qed.


(* ================================================================== *)
(** ** Levels, recommendations and ranking *)

(** X11.  The risk level never goes down when the composite score goes
    up: in the order MINIMAL, LOW, MODERATE, HIGH, CRITICAL the level of
    a larger score is at least the level of a smaller one. *)
Theorem risk_level_monotone (c c' : Q) :
  (c <= c')%Q ->
  (level_rank (fst (risk_level_of c)) <= level_rank (fst (risk_level_of c')))%nat.
Proof.
  intros Hle. unfold risk_level_of.
  destruct (Qle_bool 0.8 c) eqn:A8, (Qle_bool 0.6 c) eqn:A6,
    (Qle_bool 0.4 c) eqn:A4, (Qle_bool 0.2 c) eqn:A2,
    (Qle_bool 0.8 c') eqn:B8, (Qle_bool 0.6 c') eqn:B6,
    (Qle_bool 0.4 c') eqn:B4, (Qle_bool 0.2 c') eqn:B2;
    cbn; try lia;
    try apply Qle_bool_iff in A8; try apply Qle_bool_false in A8;
    try apply Qle_bool_iff in A6; try apply Qle_bool_false in A6;
    try apply Qle_bool_iff in A4; try apply Qle_bool_false in A4;
    try apply Qle_bool_iff in A2; try apply Qle_bool_false in A2;
    try apply Qle_bool_iff in B8; try apply Qle_bool_false in B8;
    try apply Qle_bool_iff in B6; try apply Qle_bool_false in B6;
    try apply Qle_bool_iff in B4; try apply Qle_bool_false in B4;
    try apply Qle_bool_iff in B2; try apply Qle_bool_false in B2;
    exfalso; lra.
Qed.

Lemma risk_level_monotone_witness :
  (0.39 <= 0.61)%Q
  /\ (level_rank (fst (risk_level_of 0.39))
      <= level_rank (fst (risk_level_of 0.61)))%nat.
Proof.
  assert (H : (0.39 <= 0.61)%Q) by discriminate.
  split; [exact H | apply (@risk_level_monotone 0.39 0.61 H)].
Defined.

(** X12.  The recommendations of the summary are decided by the risk
    level of the same score: CRITICAL and HIGH give manual review,
    pattern monitoring and pattern review; MODERATE gives pattern review
    alone; LOW gives no recommendation at all; MINIMAL gives the
    statement that engagement appears genuine. *)
Theorem recommendations_follow_risk_level (c : Q) :
  (fst (risk_level_of c) = "CRITICAL" \/ fst (risk_level_of c) = "HIGH") /\
    recommendations_of c
    = ["Consider flagging for manual review"; "Monitor for similar patterns";
       "Review engagement patterns"]
  \/ fst (risk_level_of c) = "MODERATE" /\
       recommendations_of c = ["Review engagement patterns"]
  \/ fst (risk_level_of c) = "LOW" /\ recommendations_of c = []
  \/ fst (risk_level_of c) = "MINIMAL" /\
       recommendations_of c = ["Engagement appears genuine"].
Proof.
  unfold risk_level_of, recommendations_of, Qgt_bool.
  destruct (Qle_bool 0.8 c) eqn:A8, (Qle_bool 0.6 c) eqn:A6,
    (Qle_bool 0.4 c) eqn:A4, (Qle_bool 0.2 c) eqn:A2; cbn;
    try (left; split; [tauto | reflexivity]);
    try (right; left; split; reflexivity);
    try (right; right; left; split; reflexivity);
    try (right; right; right; split; reflexivity);
    try apply Qle_bool_iff in A8; try apply Qle_bool_false in A8;
    try apply Qle_bool_iff in A6; try apply Qle_bool_false in A6;
    try apply Qle_bool_iff in A4; try apply Qle_bool_false in A4;
    try apply Qle_bool_iff in A2; try apply Qle_bool_false in A2;
    exfalso; lra.
Qed.

Lemma sorted_app_dominates {A} (R : A -> A -> Prop) (l1 l2 : list A) :
  StronglySorted R (l1 ++ l2) ->
  forall a b, In a l1 -> In b l2 -> R a b.
Proof.
  induction l1 as [|x l1 IH]; intros Hs a b Ha Hb; [easy|].
  cbn in Hs. inversion Hs as [|? ? Hs' Hall]; subst.
  destruct Ha as [->|Ha].
  - eapply Forall_forall in Hall; [exact Hall|]. apply in_or_app. now right.
  - now apply IH.
Qed.

(** X13.  The risk factors [_assess_overall_risk] returns are the
    strongest candidates: together with the candidates it leaves out
    they make up all entries selected, and no candidate left out has a
    larger score times weight than one returned. *)
Theorem top_risk_factors_dominate
    (self : EngagementConcordanceScore) (r : Results) (ra : RiskAssessment) :
  _assess_overall_risk self r = Ok ra ->
  exists candidates left_out,
    risk_factors_of self (model_results r) = Ok candidates
    /\ Permutation (top_risk_factors ra ++ left_out) candidates
    /\ (forall f g, In f (top_risk_factors ra) -> In g left_out ->
          (weighted_impact g <= weighted_impact f)%Q)
    /\ (length candidates <= 3 -> left_out = [])%nat.
Proof.
  unfold _assess_overall_risk.
  destruct (risk_level_of (composite_score r)) as [lvl descr].
  destruct (risk_factors_of self (model_results r)) as [fs|e];
    [|discriminate].
  cbn [exc_bind]. intros H.
  set (ranked := sort_reverse weighted_impact fs) in *.
  assert (Htop : top_risk_factors ra = firstn 3 ranked)
    by (injection H as <-; reflexivity).
  rewrite Htop. clear H Htop.
  exists fs, (skipn 3 ranked). split; [reflexivity|].
  split; [rewrite firstn_skipn; apply sort_reverse_perm|].
  split.
  - intros f g Hf Hg.
    pose proof (sort_reverse_sorted weighted_impact fs) as Hs.
    fold ranked in Hs. rewrite <- (firstn_skipn 3 ranked) in Hs.
    exact (@sorted_app_dominates _ _ _ _ Hs f g Hf Hg).
  - intros Hlen. apply skipn_all2.
    subst ranked. rewrite (Permutation_length (sort_reverse_perm _ fs)). exact Hlen.
Qed.

Lemma top_risk_factors_dominate_witness :
  exists ra,
    _assess_overall_risk registry report_with_tie = Ok ra
    /\ exists candidates left_out,
         risk_factors_of registry (model_results report_with_tie) = Ok candidates
         /\ Permutation (top_risk_factors ra ++ left_out) candidates
         /\ (forall f g, In f (top_risk_factors ra) -> In g left_out ->
               (weighted_impact g <= weighted_impact f)%Q)
         /\ (length candidates <= 3 -> left_out = [])%nat.
Proof.
  eexists.
  assert (H : _assess_overall_risk registry report_with_tie
              = Ok {| risk_level := "HIGH";
                      risk_description :=
                        "High manipulation risk with concerning patterns";
                      top_risk_factors :=
                        [ {| rf_model := "clickbait"; rf_score := 0.9;
                             rf_weight := 0.8 |};
                          {| rf_model := "content_recycling"; rf_score := 0.8;
                             rf_weight := 0.9 |};
                          {| rf_model := "coordinated_network"; rf_score := 0.7;
                             rf_weight := 1.0 |} ];
                      ra_composite_score := 0.7 |})
    by (vm_compute; reflexivity).
  split; [exact H|].
  apply (@top_risk_factors_dominate registry report_with_tie _ H).
Defined.

(** X14.  [_assess_overall_risk] returns exactly on the reports in which
    every entry with status success has a numeric score and, when that
    score is above 0.5, a weight in the weights table; on any other
    report it raises.  Entries with another status are not looked
    into. *)
Theorem assess_overall_risk_returns_iff
    (self : EngagementConcordanceScore) (r : Results) :
  (exists ra, _assess_overall_risk self r = Ok ra)
  <-> Forall (rankable self) (model_results r).
Proof.
  assert (Hrf : forall items,
             (exists fs, risk_factors_of self items = Ok fs)
             <-> Forall (rankable self) items).
  { induction items as [|[n e] items IH]; cbn [risk_factors_of].
    - split; [constructor | eauto].
    - unfold rankable at 1. cbn [fst snd].
      destruct (String.eqb_spec (status e) "success") as [Hs|Hs].
      + destruct (score e) as [q|] eqn:Hq; cbn [exc_bind].
        * destruct (Qgt_bool q 0.5) eqn:Hgt; cbn [exc_bind].
          -- apply Qgt_bool_true in Hgt. unfold getitem.
             destruct (dict_get (weights self) n) as [wt|] eqn:Hw; cbn [exc_bind].
             ++ split.
                ** intros [fs Hfs].
                   destruct (risk_factors_of self items) as [more|]; [|discriminate].
                   constructor; [|apply IH; eauto].
                   unfold rankable. cbn [fst snd]. rewrite Hq.
                   intros _. exists q. split; [reflexivity|]. intros _.
                   exists wt. exact Hw.
                ** intros HF. inversion HF as [|? ? _ HF']; subst.
                   apply IH in HF'. destruct HF' as [more ->].
                   eexists. reflexivity.
             ++ split; [intros [fs Hfs]; discriminate|].
                intros HF. inversion HF as [|? ? Hr _]; subst.
                unfold rankable in Hr. cbn [fst snd] in Hr.
                destruct (Hr Hs) as (q' & Hq' & Hwt). rewrite Hq in Hq'.
                injection Hq' as <-. destruct (Hwt Hgt) as [wt Hwt']. congruence.
          -- apply Qgt_bool_false in Hgt. split.
             ++ intros HF. constructor; [|apply IH; exact HF].
                unfold rankable. cbn [fst snd]. rewrite Hq.
                intros _. exists q. split; [reflexivity|]. intros Hlt.
                exfalso. apply (Qlt_not_le _ _ Hlt Hgt).
             ++ intros HF. apply IH. now inversion HF.
        * split; [intros [fs Hfs]; discriminate|].
          intros HF. inversion HF as [|? ? Hr _]; subst.
          unfold rankable in Hr. cbn [fst snd] in Hr.
          destruct (Hr Hs) as (q' & Hq' & _). congruence.
      + cbn [exc_bind]. split.
        * intros HF. constructor; [|apply IH; exact HF].
          unfold rankable. cbn [fst snd]. intros H. contradiction.
        * intros HF. apply IH. now inversion HF. }
  rewrite <- Hrf. unfold _assess_overall_risk.
  destruct (risk_level_of (composite_score r)) as [lvl descr].
  destruct (risk_factors_of self (model_results r)) as [fs|e]; cbn [exc_bind].
  - split; eauto.
  - split; intros [x Hx]; discriminate.
Qed.

(* ================================================================== *)
(** ** The batch table *)

Section BatchFacts.
Import Batch.

Lemma list_ascii_of_string_app (a b : string) :
  list_ascii_of_string (a ++ b)%string
  = list_ascii_of_string a ++ list_ascii_of_string b.
Proof. induction a as [|c a IH]; simpl; [reflexivity | now rewrite IH]. Qed.

Lemma score_column_tail (n : string) :
  tail6 (score_column n) = rev (list_ascii_of_string "_score").
Proof.
  unfold tail6, score_column.
  rewrite list_ascii_of_string_app, rev_app_distr, firstn_app.
  change (length (rev (list_ascii_of_string "_score"))) with 6%nat.
  rewrite Nat.sub_diag, firstn_O, app_nil_r. reflexivity.
Qed.

Lemma score_column_neq (n k : string) :
  tail6 k <> rev (list_ascii_of_string "_score") -> score_column n <> k.
Proof. intros Hk E. apply Hk. rewrite <- E. apply score_column_tail. Qed.

Lemma score_column_injective (n m : string) :
  score_column n = score_column m -> n = m.
Proof.
  unfold score_column. intros E.
  apply (f_equal list_ascii_of_string) in E.
  rewrite !list_ascii_of_string_app in E. apply app_inv_tail in E.
  rewrite <- (string_of_list_ascii_of_string n),
          <- (string_of_list_ascii_of_string m).
  now rewrite E.
Qed.

Lemma add_model_score_set (result_row : row) (n : string) (e : ModelEntry) :
  add_model_score result_row (n, e)
  = dict_set result_row (score_column n) (score_cell e).
Proof.
  unfold add_model_score, score_cell.
  now destruct (String.eqb (status e) "success").
Qed.

Lemma add_model_scores_other (entries : dict ModelEntry) (k : string) :
  forall result_row : row,
    (forall n, In n (keys entries) -> score_column n <> k) ->
    dict_get (add_model_scores result_row entries) k = dict_get result_row k.
Proof.
  unfold add_model_scores.
  induction entries as [|[n e] entries IH]; intros result_row Hk; [reflexivity|].
  cbn [fold_left]. rewrite IH by (intros m Hm; apply Hk; now right).
  rewrite add_model_score_set. apply dict_get_set_other. apply Hk. now left.
Qed.

Lemma add_model_scores_get (entries : dict ModelEntry) (m : string)
    (e : ModelEntry) :
  forall result_row : row,
    NoDup (keys entries) ->
    In (m, e) entries ->
    dict_get (add_model_scores result_row entries) (score_column m)
    = Some (score_cell e).
Proof.
  unfold add_model_scores.
  induction entries as [|[n e0] entries IH]; intros result_row Hnd HIn; [easy|].
  inversion Hnd as [|? ? Hn Hnd']; subst. cbn [fold_left].
  destruct HIn as [[= -> ->]|HIn].
  - fold (add_model_scores (add_model_score result_row (m, e)) entries).
    rewrite add_model_scores_other.
    + rewrite add_model_score_set. apply dict_get_set_same.
    + intros n Hn' E. apply score_column_injective in E. subst n. contradiction.
  - now apply IH.
Qed.

Lemma analyze_from_length (ecs : EngagementConcordanceScore) (w : world)
    (now_iso now_stamp : nat -> string) (tweet_ids : list string) :
  forall i, length (analyze_from ecs w now_iso now_stamp i tweet_ids)
            = length tweet_ids.
Proof.
  induction tweet_ids as [|t rest IH]; intros i; [reflexivity|].
  cbn. now rewrite IH.
Qed.

Lemma fixed_column_kept (stamp tweet_id : string) (r : Results) (k : string) :
  tail6 k <> rev (list_ascii_of_string "_score") ->
  dict_get (result_row_of stamp tweet_id r) k
  = dict_get
      [ ("tweet_id", CStr tweet_id);
        ("composite_score", CNum (composite_score r));
        ("risk_level",
         match risk_assessment r with
         | Some a => CStr (risk_level a)
         | None => CStr "UNKNOWN"
         end);
        ("risk_description",
         match risk_assessment r with
         | Some a => CStr (risk_description a)
         | None => CStr ""
         end);
        ("models_analyzed",
         match summary r with
         | Some s => CStr (models_analyzed s)
         | None => CInt 0
         end);
        ("analysis_confidence",
         match summary r with
         | Some s => CStr (analysis_confidence s)
         | None => CStr "UNKNOWN"
         end);
        ("timestamp", CStr stamp) ] k.
Proof.
  intros Hk. unfold result_row_of. apply add_model_scores_other.
  intros n _. now apply score_column_neq.
Qed.

(** X15.  [analyze_tweets_batch] gives exactly one row per tweet id, in
    the order of the input, whether the analysis of a tweet returns or
    raises; every row carries its tweet id and the stamp of its turn,
    and an empty input gives an empty table. *)
Theorem batch_has_one_row_per_tweet
    (ecs : EngagementConcordanceScore) (w : world)
    (now_iso now_stamp : nat -> string) (tweet_ids : list string) :
  length (analyze_tweets_batch ecs w now_iso now_stamp tweet_ids)
  = length tweet_ids
  /\ map (fun result_row : row => dict_get result_row "tweet_id")
       (analyze_tweets_batch ecs w now_iso now_stamp tweet_ids)
     = map (fun t => Some (CStr t)) tweet_ids
  /\ map (fun result_row : row => dict_get result_row "timestamp")
       (analyze_tweets_batch ecs w now_iso now_stamp tweet_ids)
     = map (fun i => Some (CStr (now_stamp i))) (seq 1 (length tweet_ids))
  /\ analyze_tweets_batch ecs w now_iso now_stamp [] = [].
Proof.
  unfold analyze_tweets_batch.
  assert (Hone : forall i t,
             dict_get (analyze_one ecs w now_iso now_stamp i t) "tweet_id"
             = Some (CStr t)
             /\ dict_get (analyze_one ecs w now_iso now_stamp i t) "timestamp"
                = Some (CStr (now_stamp i))).
  { intros i t. unfold analyze_one.
    destruct (analyze_tweet_comprehensive ecs w t (now_iso i)) as [r|e].
    - rewrite !fixed_column_kept by (vm_compute; discriminate).
      split; reflexivity.
    - split; reflexivity. }
  split; [apply analyze_from_length|]. split; [|split; [|reflexivity]].
  - generalize 1%nat as i. induction tweet_ids as [|t rest IH]; intros i;
      [reflexivity|].
    cbn [analyze_from map]. rewrite IH. f_equal. apply Hone.
  - generalize 1%nat as i. induction tweet_ids as [|t rest IH]; intros i;
      [reflexivity|].
    cbn [analyze_from map length seq]. rewrite IH. f_equal. apply Hone.
Qed.

(** X16.  When no loaded model is named "composite", a row of the batch
    reports the analysis of its tweet: the composite score, the risk
    level with its description, the models-analyzed string and the
    confidence of the report; the level is never ERROR (the analysis
    does not raise); and every loaded model has its own score column,
    holding its score when its entry is successful and 0.0 otherwise. *)
Theorem batch_row_reports_analysis
    (ecs : EngagementConcordanceScore) (w : world)
    (now_iso now_stamp : nat -> string) (i : nat) (tweet_id : string) :
  NoDup (keys (models ecs)) ->
  ~ In "composite" (loaded_names (models ecs)) ->
  exists r ra sm,
    analyze_tweet_comprehensive ecs w tweet_id (now_iso i) = Ok r
    /\ risk_assessment r = Some ra
    /\ summary r = Some sm
    /\ let result_row := analyze_one ecs w now_iso now_stamp i tweet_id in
       dict_get result_row "composite_score" = Some (CNum (composite_score r))
       /\ dict_get result_row "risk_level" = Some (CStr (risk_level ra))
       /\ risk_level ra <> "ERROR"
       /\ dict_get result_row "risk_description"
          = Some (CStr (risk_description ra))
       /\ dict_get result_row "models_analyzed"
          = Some (CStr (models_analyzed sm))
       /\ dict_get result_row "analysis_confidence"
          = Some (CStr (analysis_confidence sm))
       /\ (forall n e, In (n, e) (model_results r) ->
             dict_get result_row (score_column n) = Some (score_cell e)).
Proof.
  intros Hnd Hcomp.
  destruct (analyze_spec ecs w tweet_id (now_iso i) Hnd)
    as (r & ra & sm & fs & Hr & _ & _ & Hmr & _ & _ & Hra & Hsm & _ & Era & _).
  exists r, ra, sm. split; [exact Hr|]. split; [exact Hra|]. split; [exact Hsm|].
  unfold analyze_one. rewrite Hr. cbv zeta.
  assert (Hkeys : keys (model_results r) = loaded_names (models ecs))
    by (rewrite Hmr; apply keys_named_entries).
  split.
  { unfold result_row_of. rewrite add_model_scores_other; [reflexivity|].
    intros n Hn E. apply Hcomp. rewrite <- Hkeys.
    change "composite_score" with (score_column "composite") in E.
    apply score_column_injective in E. now subst n. }
  rewrite !fixed_column_kept by (vm_compute; discriminate).
  rewrite Hra, Hsm. cbn [dict_get String.eqb Ascii.eqb Bool.eqb].
  split; [reflexivity|]. split.
  { rewrite Era. cbn [risk_level]. unfold risk_level_of.
    destruct (Qle_bool 0.8 (composite_score r)); [discriminate|].
    destruct (Qle_bool 0.6 (composite_score r)); [discriminate|].
    destruct (Qle_bool 0.4 (composite_score r)); [discriminate|].
    destruct (Qle_bool 0.2 (composite_score r)); discriminate. }
  split; [reflexivity|]. split; [reflexivity|]. split; [reflexivity|].
  intros n e HIn. unfold result_row_of. apply add_model_scores_get; [|exact HIn].
  rewrite Hkeys. apply NoDup_keys_filter, Hnd.
Qed.

Lemma batch_row_reports_analysis_witness :
  NoDup (keys (models (__init__ world_one_valid)))
  /\ ~ In "composite" (loaded_names (models (__init__ world_one_valid)))
  /\ exists r ra sm,
       analyze_tweet_comprehensive (__init__ world_one_valid) world_one_valid
         "1234567890" (fixed_iso 1) = Ok r
       /\ risk_assessment r = Some ra
       /\ summary r = Some sm
       /\ let result_row :=
            analyze_one (__init__ world_one_valid) world_one_valid
              fixed_iso fixed_stamp 1 "1234567890" in
          dict_get result_row "composite_score" = Some (CNum (composite_score r))
          /\ dict_get result_row "risk_level" = Some (CStr (risk_level ra))
          /\ risk_level ra <> "ERROR"
          /\ dict_get result_row "risk_description"
             = Some (CStr (risk_description ra))
          /\ dict_get result_row "models_analyzed"
             = Some (CStr (models_analyzed sm))
          /\ dict_get result_row "analysis_confidence"
             = Some (CStr (analysis_confidence sm))
          /\ (forall n e, In (n, e) (model_results r) ->
                dict_get result_row (score_column n) = Some (score_cell e)).
Proof.
  assert (H1 : NoDup (keys (models (__init__ world_one_valid))))
    by apply init_NoDup.
  assert (H2 : ~ In "composite" (loaded_names (models (__init__ world_one_valid)))).
  { vm_compute. intros H.
    repeat (destruct H as [H|H]; [discriminate H|]). exact H. }
  split; [exact H1|]. split; [exact H2|].
  apply (@batch_row_reports_analysis (__init__ world_one_valid) world_one_valid
           fixed_iso fixed_stamp 1 "1234567890" H1 H2).
Defined.

(** X17.  A loaded model named "composite" takes over the composite
    column of the batch: its score column is "composite_score" too, so
    the row shows the score of that model where the composite score of
    the report should be. *)
Theorem batch_composite_column_is_overwritten
    (ecs : EngagementConcordanceScore) (w : world)
    (now_iso now_stamp : nat -> string) (i : nat) (tweet_id : string) :
  NoDup (keys (models ecs)) ->
  In "composite" (loaded_names (models ecs)) ->
  exists r e,
    analyze_tweet_comprehensive ecs w tweet_id (now_iso i) = Ok r
    /\ dict_get (model_results r) "composite" = Some e
    /\ dict_get (analyze_one ecs w now_iso now_stamp i tweet_id)
         "composite_score" = Some (score_cell e).
Proof.
  intros Hnd Hcomp.
  destruct (analyze_spec ecs w tweet_id (now_iso i) Hnd)
    as (r & ra & sm & fs & Hr & _ & _ & Hmr & _).
  assert (Hkeys : keys (model_results r) = loaded_names (models ecs))
    by (rewrite Hmr; apply keys_named_entries).
  assert (Hnd' : NoDup (keys (model_results r)))
    by (rewrite Hkeys; apply NoDup_keys_filter, Hnd).
  destruct (dict_get (model_results r) "composite") as [e|] eqn:He.
  2:{ apply dict_get_None in He. rewrite Hkeys in He. contradiction. }
  exists r, e. split; [exact Hr|]. split; [exact He|].
  unfold analyze_one. rewrite Hr. unfold result_row_of.
  change "composite_score" with (score_column "composite").
  apply add_model_scores_get; [exact Hnd'|]. now apply dict_get_In.
Qed.

Lemma batch_composite_column_is_overwritten_witness :
  NoDup (keys (models registry_with_composite))
  /\ In "composite" (loaded_names (models registry_with_composite))
  /\ exists r e,
       analyze_tweet_comprehensive registry_with_composite world_composite
         "1234567890" (fixed_iso 1) = Ok r
       /\ dict_get (model_results r) "composite" = Some e
       /\ dict_get (analyze_one registry_with_composite world_composite
                      fixed_iso fixed_stamp 1 "1234567890")
            "composite_score" = Some (score_cell e).
Proof.
  assert (H1 : NoDup (keys (models registry_with_composite))).
  { repeat constructor; simpl; intros H;
      repeat (destruct H as [H|H]; [discriminate H|]); exact H. }
  assert (H2 : In "composite" (loaded_names (models registry_with_composite)))
    by (vm_compute; tauto).
  split; [exact H1|]. split; [exact H2|].
  apply (@batch_composite_column_is_overwritten registry_with_composite
           world_composite fixed_iso fixed_stamp 1 "1234567890" H1 H2).
Defined.

(** In that scenario the composite score is 0.5, the column says 0.9. *)
Example composite_column_shows_model_score :
  exists r,
    analyze_tweet_comprehensive registry_with_composite world_composite
      "1234567890" (fixed_iso 1) = Ok r
    /\ (composite_score r == 0.5)%Q
    /\ dict_get (analyze_one registry_with_composite world_composite
                   fixed_iso fixed_stamp 1 "1234567890") "composite_score"
       = Some (CNum 0.9).
Proof.
  eexists. split; [vm_compute; reflexivity|].
  split; vm_compute; reflexivity.
Qed.
End BatchFacts.

(* ================================================================== *)
(** ** The demo *)

Section DemoFacts.
Import Demo.

Lemma load_info_loaded (w : world) (p : string) :
  loaded (load_info w p) = true
  <-> path_exists w (path_join (module_dir w) p) = true
      /\ path_exists w (script_path_of w p) = true.
Proof.
  unfold load_info, script_path_of.
  destruct (path_exists w (path_join (module_dir w) p)); simpl;
    [destruct (path_exists w (path_join _ "simple_score.py")); simpl|];
    split; intros H; try discriminate; try tauto;
    destruct H; discriminate.
Qed.

Lemma init_models (w : world) :
  models (__init__ w)
  = map (fun kv => (fst kv, load_info w (snd kv))) default_model_paths.
Proof.
  unfold __init__. rewrite load_models_closed. cbn [models model_paths set_models].
  rewrite fold_set_loaded_fresh; [reflexivity | | simpl; tauto].
  repeat constructor; simpl; intros H;
    repeat (destruct H as [H|H]; [discriminate H|]); exact H.
Qed.

(** X18.  [demo_system_initialization] hands back the initialised object
    and reports success exactly when at least one of the ten registered
    models has both its directory and its [simple_score.py] in place. *)
Theorem demo_initialization_succeeds_iff (w : world) :
  fst (demo_system_initialization w) = Some (__init__ w)
  /\ (snd (demo_system_initialization w) = true
      <-> exists n p,
            In (n, p) default_model_paths
            /\ path_exists w (path_join (module_dir w) p) = true
            /\ path_exists w (script_path_of w p) = true).
Proof.
  split; [reflexivity|].
  unfold demo_system_initialization. cbn [snd].
  rewrite Nat.ltb_lt, init_models.
  generalize default_model_paths as items.
  intros items. split.
  - intros Hlen.
    destruct (loaded_names (map (fun kv => (fst kv, load_info w (snd kv))) items))
      as [|n names] eqn:E; [cbn in Hlen; lia|].
    assert (HIn : In n (loaded_names
                          (map (fun kv => (fst kv, load_info w (snd kv))) items)))
      by (rewrite E; now left).
    apply loaded_names_spec in HIn. destruct HIn as (info & HIn & Hl).
    apply in_map_iff in HIn. destruct HIn as ([m p] & [= <- <-] & HIn).
    exists m, p. split; [exact HIn|]. now apply load_info_loaded.
  - intros (n & p & HIn & Hd & Hs).
    assert (Hn : In n (loaded_names
                         (map (fun kv => (fst kv, load_info w (snd kv))) items))).
    { apply loaded_names_spec. exists (load_info w p). split.
      - apply in_map_iff. exists (n, p). auto.
      - apply load_info_loaded. auto. }
    destruct (loaded_names _); [contradiction | cbn; lia].
Qed.

Lemma Qsum_all_zero (l : list Q) :
  Forall (fun x => x == 0)%Q l -> (Qsum l == 0)%Q.
Proof.
  induction 1 as [|x l Hx _ IH]; simpl; [reflexivity|].
  rewrite Hx, IH. reflexivity.
Qed.

Lemma model_lines_names (ecs : EngagementConcordanceScore)
    (items : dict ModelEntry) (lines : list model_line) :
  model_lines ecs items = Ok lines ->
  map ml_model lines = keys (filter (fun it => is_success (snd it)) items)
  /\ Forall (fun l : model_line =>
               ml_contribution l = (ml_score l * ml_weight l)%Q
               /\ dict_get (weights ecs) (ml_model l) = Some (ml_weight l)
               /\ exists e, In (ml_model l, e) items
                            /\ status e = "success"
                            /\ score e = Some (ml_score l))
       lines.
Proof.
  revert lines. induction items as [|[n e] items IH]; intros lines; cbn.
  - intros [= <-]. split; [reflexivity | constructor].
  - unfold is_success.
    destruct (String.eqb_spec (status e) "success") as [Hs|Hs].
    + unfold getitem.
      destruct (dict_get (weights ecs) n) as [wt|] eqn:Hw; [|discriminate].
      destruct (score e) as [q|] eqn:Hq; [|discriminate]. cbn.
      destruct (model_lines ecs items) as [more|]; [|discriminate]. cbn.
      intros [= <-]. destruct (IH more eq_refl) as [Hn Hall].
      split; [cbn; now rewrite Hn|].
      constructor.
      * cbn. repeat split; try assumption. exists e. auto.
      * eapply Forall_impl; [|exact Hall].
        intros l (Hc & Hwt & e' & HIn & He'). repeat split; try assumption.
        exists e'. split; [now right | exact He'].
    + intros Hl. destruct (IH lines Hl) as [Hn Hall]. split; [exact Hn|].
      eapply Forall_impl; [|exact Hall].
      intros l (Hc & Hwt & e' & HIn & He'). repeat split; try assumption.
      exists e'. split; [now right | exact He'].
Qed.

Lemma model_lines_readable (ecs : EngagementConcordanceScore)
    (items : dict ModelEntry) :
  Forall (readable ecs) items ->
  exists lines, model_lines ecs items = Ok lines.
Proof.
  induction 1 as [|[n e] items Hr _ IH]; cbn; [eauto|].
  destruct IH as [more Hmore]. unfold readable in Hr. cbn in Hr.
  destruct (String.eqb_spec (status e) "success") as [Hs|Hs]; [|eauto].
  destruct (Hr Hs) as (q & wt & Hq & Hw). unfold getitem.
  rewrite Hw, Hq, Hmore. cbn. eauto.
Qed.

(** X19.  [demo_risk_assessment_breakdown] divides by zero, and so
    raises [ZeroDivisionError], on every report that has a risk
    assessment and at least one successful model when all successful
    models scored 0.0: the percentages are taken of a total impact of
    zero. *)
Theorem breakdown_divides_by_zero
    (ecs : EngagementConcordanceScore) (r : Results) :
  risk_assessment r <> None ->
  Forall (readable ecs) (model_results r) ->
  Forall (fun it : string * ModelEntry =>
            status (snd it) = "success" ->
            exists q, score (snd it) = Some q /\ (q == 0)%Q)
    (model_results r) ->
  Exists (fun it : string * ModelEntry => status (snd it) = "success")
    (model_results r) ->
  demo_risk_assessment_breakdown ecs r = ZeroDivisionError.
Proof.
  intros Hra Hread Hzero Hsome.
  unfold demo_risk_assessment_breakdown.
  destruct (risk_assessment r) as [ra|]; [|contradiction].
  destruct (model_lines_readable Hread) as [lines Hlines].
  rewrite Hlines.
  destruct (model_lines_names _ _ Hlines) as [Hnames Hall].
  assert (Hne : lines <> []).
  { intros ->. cbn in Hnames. apply Exists_exists in Hsome.
    destruct Hsome as ([n e] & HIn & Hs).
    assert (In n (keys (filter (fun it => is_success (snd it)) (model_results r)))).
    { unfold keys. apply in_map_iff. exists (n, e). split; [reflexivity|].
      apply filter_In. split; [exact HIn|]. unfold is_success. cbn in *.
      now rewrite Hs. }
    rewrite <- Hnames in H. contradiction. }
  assert (Hc0 : Forall (fun x : string * Q * Q => snd (fst x) == 0)%Q
                  (map contribution_of lines)).
  { apply Forall_map. eapply Forall_impl; [|exact Hall].
    intros l (Hc & _ & e & HIn & Hs & Hq). cbn. rewrite Hc.
    eapply Forall_forall in Hzero; [|exact HIn]. cbn in Hzero.
    destruct (Hzero Hs) as (q & Hq' & Hq0). rewrite Hq in Hq'.
    injection Hq' as <-. rewrite Hq0. ring. }
  set (key := fun x : string * Q * Q => snd (fst x)) in *.
  set (wc := sort_reverse key (map contribution_of lines)).
  assert (Hperm : Permutation wc (map contribution_of lines))
    by apply sort_reverse_perm.
  assert (Hwc0 : Forall (fun x => key x == 0)%Q wc)
    by (eapply Permutation_Forall; [symmetry; exact Hperm | exact Hc0]).
  unfold impact_lines.
  destruct wc as [|x wc'] eqn:Ewc.
  - apply Permutation_nil in Hperm. apply map_eq_nil in Hperm. contradiction.
  - assert (Ht : Qeq_bool (Qsum (map key (x :: wc'))) 0 = true).
    { apply Qeq_bool_iff, Qsum_all_zero, Forall_map. exact Hwc0. }
    fold key. now rewrite Ht.
Qed.

Lemma breakdown_divides_by_zero_witness :
  risk_assessment report_all_fail <> None
  /\ Forall (readable all_loaded) (model_results report_all_fail)
  /\ Forall (fun it : string * ModelEntry =>
               status (snd it) = "success" ->
               exists q, score (snd it) = Some q /\ (q == 0)%Q)
       (model_results report_all_fail)
  /\ Exists (fun it : string * ModelEntry => status (snd it) = "success")
       (model_results report_all_fail)
  /\ demo_risk_assessment_breakdown all_loaded report_all_fail
     = ZeroDivisionError.
Proof.
  assert (H1 : risk_assessment report_all_fail <> None)
    by (vm_compute; discriminate).
  assert (H2 : Forall (readable all_loaded) (model_results report_all_fail)).
  { vm_compute model_results. repeat constructor; intros _;
      eexists; eexists; split; reflexivity. }
  assert (H3 : Forall (fun it : string * ModelEntry =>
                         status (snd it) = "success" ->
                         exists q, score (snd it) = Some q /\ (q == 0)%Q)
                 (model_results report_all_fail)).
  { vm_compute model_results. repeat constructor; intros _;
      eexists; split; reflexivity. }
  assert (H4 : Exists (fun it : string * ModelEntry => status (snd it) = "success")
                 (model_results report_all_fail)).
  { vm_compute model_results. apply Exists_cons_hd. reflexivity. }
  split; [exact H1|]. split; [exact H2|]. split; [exact H3|]. split; [exact H4|].
  apply (@breakdown_divides_by_zero all_loaded report_all_fail H1 H2 H3 H4).
Defined.







Ltac decide_le t q :=
  let E := fresh "E" in
  destruct (Qle_bool t q) eqn:E;
  [ apply Qle_bool_iff in E
  | assert (q < t)%Q
      by (apply Qnot_le_lt; intros C; apply Qle_bool_iff in C; congruence);
    clear E ];
  try (exfalso; lra).

(** X21.  The label the demo prints beside one model score uses strict
    thresholds where the report's risk level uses inclusive ones: the
    two differ exactly at 0.2, 0.4, 0.6 and 0.8, where the demo's label
    is one level lower. *)
Theorem model_label_differs_at_thresholds (q : Q) :
  (risk_desc q <> fst (risk_level_of q)
   <-> (q == 0.2 \/ q == 0.4 \/ q == 0.6 \/ q == 0.8)%Q)
  /\ (risk_desc q <> fst (risk_level_of q) ->
      S (level_rank (risk_desc q)) = level_rank (fst (risk_level_of q))).
Proof.
  unfold risk_desc, risk_level_of, Qgt_bool.
  decide_le 0.8 q; decide_le 0.6 q; decide_le 0.4 q; decide_le 0.2 q;
    decide_le q 0.8; decide_le q 0.6; decide_le q 0.4; decide_le q 0.2;
    cbn [negb fst];
    (split;
     [ split;
       [ intros Hd;
         first [ exfalso; apply Hd; reflexivity
               | left; lra | right; left; lra
               | right; right; left; lra | right; right; right; lra ]
       | intros Hb;
         first [ discriminate
               | exfalso; destruct Hb as [Hb|[Hb|[Hb|Hb]]]; lra ] ]
     | intros Hd; first [ reflexivity | exfalso; apply Hd; reflexivity ] ]).
Qed.

End DemoFacts.
